(** * mcp-cicd-agent: validators, state store, health prober and tool surface

    A shallow embedding of the Python sources under [src/mcp_cicd] and the
    properties of the specification that concern them.

    Conventions of the embedding.
    - A Python [str] is a [string]; its characters are the code points
      below 256.  Every character class of the regular expressions in the
      sources is a set of ASCII characters, and [\d] contains no other
      character below 256.
    - A Python function that may raise returns a [result]: [Returns v] for
      a normal return, [Raises e] for an exception [e].
    - Values chosen by the operating system, the container engine, the HTTP
      peer or the clock are read from an explicit environment. *)

From Stdlib Require Import ZArith Lia Bool List Ascii String DecimalString QArith Qround Lqa.
From stdpp Require Import gmap strings list fin_maps.

Open Scope string_scope.
Open Scope list_scope.
Open Scope stdpp_scope.
Open Scope Z_scope.

Set Default Proof Using "Type".

(* ===================================================================== *)
(** * Exceptions ([exceptions.py]) and results *)
(* ===================================================================== *)

(** The exception classes the modelled functions raise.  The first group is
    the hierarchy of [exceptions.py]; the second group are the built-in
    exceptions that escape the sources uncaught. *)
Inductive exn : Type :=
| GitOperationError (msg : string)
| DockerOperationError (msg : string)
| ContainerStartError (msg : string)
| PortConflictError (msg : string) (port : Z)
| HealthCheckError (msg : string) (attempts : nat)
| RollbackError (msg : string)
| ConfigurationError (msg : string)
| ValidationError (msg : string)
| KeyError (key : string)
| PydanticValidationError
| FileExistsError
| OverflowError.

Inductive result (A : Type) : Type :=
| Returns (a : A)
| Raises (e : exn).
Arguments Returns {A} a.
Arguments Raises {A} e.

Definition returned {A} (r : result A) : bool :=
  match r with Returns _ => true | Raises _ => false end.

(** [isinstance(e, ValidationError)] *)
Definition is_ValidationError {A} (r : result A) : bool :=
  match r with Raises (ValidationError _) => true | _ => false end.

(* ===================================================================== *)
(** * Python string operations *)
(* ===================================================================== *)

Module Str.

(** [c in s] for a one-character [c] *)
Fixpoint contains (c : ascii) (s : string) : bool :=
  match s with
  | "" => false
  | String a s' => Ascii.eqb a c || contains c s'
  end.

(** [s.split(c, 1)] for a one-character [c] that occurs in [s]: the text
    before the first [c] and the text after it.  (When [c] does not occur
    Python returns the one-element list [[s]]; the callers test [c in s]
    first.) *)
Fixpoint split_once (c : ascii) (s : string) : string * string :=
  match s with
  | "" => ("", "")
  | String a s' =>
      if Ascii.eqb a c then ("", s')
      else let (h, t) := split_once c s' in (String a h, t)
  end.

(** [s.split(c)[0]] *)
Definition before (c : ascii) (s : string) : string := fst (split_once c s).

(** [s.startswith(p)] *)
Definition startswith (p s : string) : bool := String.prefix p s.

(** [s[:n]] *)
Definition take (n : nat) (s : string) : string := String.substring 0 n s.

(** [all(p(c) for c in s)] *)
Fixpoint all (p : ascii -> bool) (s : string) : bool :=
  match s with
  | "" => true
  | String a s' => p a && all p s'
  end.

(** [bool(s)]: a string is truthy when it is not empty *)
Definition truthy (s : string) : bool :=
  match s with "" => false | _ => true end.

(** [bool(o)] for an [Optional[str]] *)
Definition truthy_opt (o : option string) : bool :=
  match o with Some s => truthy s | None => false end.

(** [o or d] for an [Optional[str]] *)
Definition or_default (o : option string) (d : string) : string :=
  match o with
  | Some s => if truthy s then s else d
  | None => d
  end.

(** The last character removed, when it is a newline. *)
Fixpoint chomp (s : string) : option string :=
  match s with
  | "" => None
  | String a "" => if Ascii.eqb a "010"%char then Some "" else None
  | String a s' => option_map (String a) (chomp s')
  end.

End Str.


(* ===================================================================== *)
(** * The regular expressions of the sources ([re.match]) *)
(* ===================================================================== *)

Module Re.

(** Regular expressions over character classes.  The patterns of the
    sources use classes, concatenation, [*], [+], [{n}] and [.] only. *)
Inductive regex : Type :=
| Void
| Eps
| Cls (p : ascii -> bool)
| Seq (r1 r2 : regex)
| Alt (r1 r2 : regex)
| Star (r : regex).

(** [r+] *)
Definition Plus (r : regex) : regex := Seq r (Star r).

(** [r{n}] *)
Fixpoint Rep (n : nat) (r : regex) : regex :=
  match n with
  | O => Eps
  | S n' => Seq r (Rep n' r)
  end.

(** A literal text. *)
Fixpoint Lit (s : string) : regex :=
  match s with
  | "" => Eps
  | String a s' => Seq (Cls (Ascii.eqb a)) (Lit s')
  end.

(** ** Character classes *)

Definition range (lo hi : ascii) (c : ascii) : bool :=
  (N_of_ascii lo <=? N_of_ascii c)%N && (N_of_ascii c <=? N_of_ascii hi)%N.

Definition one_of (cs : string) (c : ascii) : bool := Str.contains c cs.

Definition lower : ascii -> bool := range "a" "z".
Definition upper : ascii -> bool := range "A" "Z".
Definition digit : ascii -> bool := range "0" "9".

Definition newline : ascii := "010"%char.

(** [.] matches every character except a newline (no [re.DOTALL]). *)
Definition dot (c : ascii) : bool := negb (Ascii.eqb c newline).

(** ** Matching by derivatives *)

Fixpoint nullable (r : regex) : bool :=
  match r with
  | Void => false
  | Eps => true
  | Cls _ => false
  | Seq r1 r2 => nullable r1 && nullable r2
  | Alt r1 r2 => nullable r1 || nullable r2
  | Star _ => true
  end.

Fixpoint deriv (a : ascii) (r : regex) : regex :=
  match r with
  | Void => Void
  | Eps => Void
  | Cls p => if p a then Eps else Void
  | Seq r1 r2 =>
      if nullable r1 then Alt (Seq (deriv a r1) r2) (deriv a r2)
      else Seq (deriv a r1) r2
  | Alt r1 r2 => Alt (deriv a r1) (deriv a r2)
  | Star r1 => Seq (deriv a r1) (Star r1)
  end.

(** The whole of [s] is a word of [r]. *)
Fixpoint fullmatch (r : regex) (s : string) : bool :=
  match s with
  | "" => nullable r
  | String a s' => fullmatch (deriv a r) s'
  end.

(** Some prefix of [s] is a word of [r]: [re.match(r, s) is not None] for
    a pattern [r] (with or without a leading [^]) that has no [$]. *)
Fixpoint re_match (r : regex) (s : string) : bool :=
  nullable r ||
  match s with
  | "" => false
  | String a s' => re_match (deriv a r) s'
  end.

(** [re.match('^r$', s) is not None].  Without [re.MULTILINE], [$] matches
    at the end of the string and also just before a newline that is the
    last character of the string. *)
Definition re_match_eol (r : regex) (s : string) : bool :=
  fullmatch r s ||
  match Str.chomp s with
  | Some s' => fullmatch r s'
  | None => false
  end.

(** ** The language of a regular expression *)

Inductive lang : regex -> string -> Prop :=
| lang_eps : lang Eps ""
| lang_cls p a : p a = true -> lang (Cls p) (String a "")
| lang_seq r1 r2 s1 s2 :
    lang r1 s1 -> lang r2 s2 -> lang (Seq r1 r2) (s1 +:+ s2)
| lang_alt_l r1 r2 s : lang r1 s -> lang (Alt r1 r2) s
| lang_alt_r r1 r2 s : lang r2 s -> lang (Alt r1 r2) s
| lang_star_nil r : lang (Star r) ""
| lang_star_app r s1 s2 :
    lang r s1 -> lang (Star r) s2 -> lang (Star r) (s1 +:+ s2).

(** ** The characters a regular expression can read *)

Fixpoint alphabet (r : regex) (a : ascii) : bool :=
  match r with
  | Void | Eps => false
  | Cls p => p a
  | Seq r1 r2 | Alt r1 r2 => alphabet r1 a || alphabet r2 a
  | Star r1 => alphabet r1 a
  end.

End Re.


(* ===================================================================== *)
(** * Input validation ([utils/validation.py]) *)
(* ===================================================================== *)

Module Validation.
Import Re.

(** [r'^[a-zA-Z0-9][a-zA-Z0-9_\-]+$'] *)
Definition container_name_pattern : regex :=
  Seq (Cls (fun c => lower c || upper c || digit c))
      (Plus (Cls (fun c => lower c || upper c || digit c || one_of "_-" c))).

(** [r'^[a-z0-9][a-z0-9._\-/]*$'] *)
Definition name_pattern : regex :=
  Seq (Cls (fun c => lower c || digit c))
      (Star (Cls (fun c => lower c || digit c || one_of "._-/" c))).

(** [r'^[a-zA-Z0-9._\-]+$'] *)
Definition version_pattern : regex :=
  Plus (Cls (fun c => lower c || upper c || digit c || one_of "._-" c)).

(** [r'^dep-\d{8}-[a-z0-9]+$'] *)
Definition deployment_id_pattern : regex :=
  Seq (Lit "dep-")
      (Seq (Rep 8 (Cls digit))
           (Seq (Lit "-") (Plus (Cls (fun c => lower c || digit c))))).

(** [r'^[A-Z_][A-Z0-9_]*$'] *)
Definition env_key_pattern : regex :=
  Seq (Cls (fun c => upper c || one_of "_" c))
      (Star (Cls (fun c => upper c || digit c || one_of "_" c))).

(** The three [dangerous_patterns] of [sanitize_environment_variables]:
    [r'.*[;&|`$].*'], [r'.*\$\(.*\).*'] and [r'.*`.*`.*']. *)
Definition dangerous_patterns : list regex :=
  [ Seq (Star (Cls dot)) (Seq (Cls (one_of ";&|`$")) (Star (Cls dot)));
    Seq (Star (Cls dot))
        (Seq (Lit "$(") (Seq (Star (Cls dot)) (Seq (Lit ")") (Star (Cls dot)))));
    Seq (Star (Cls dot))
        (Seq (Lit "`") (Seq (Star (Cls dot)) (Seq (Lit "`") (Star (Cls dot))))) ].

Definition validate_container_name (name : string) : result string :=
  if negb (re_match_eol container_name_pattern name) then
    Raises (ValidationError ("Invalid container name: " +:+ name))
  else if (63 <? String.length name)%nat then
    Raises (ValidationError "Container name too long (max 63 characters)")
  else Returns name.

Definition validate_image_tag (tag : string) : result string :=
  let '(name, version) :=
    if Str.contains ":" tag then Str.split_once ":" tag
    else (tag, "latest") in
  if negb (re_match_eol name_pattern name) then
    Raises (ValidationError ("Invalid image name: " +:+ name))
  else if negb (re_match_eol version_pattern version) then
    Raises (ValidationError ("Invalid image version: " +:+ version))
  else Returns (name +:+ ":" +:+ version).

(** [port] is an [int] already, so the [isinstance] test never fails. *)
Definition validate_port (port min_port max_port : Z) : result Z :=
  if negb ((min_port <=? port) && (port <=? max_port)) then
    Raises (ValidationError "Port must be between min and max")
  else Returns port.

(** The body of the [for key, value in env_vars.items()] loop.  A [dict]
    is an association list in insertion order; the values are strings, so
    [str(value)] is [value]. *)
Fixpoint sanitize_environment_variables (env_vars : list (string * string))
  : result (list (string * string)) :=
  match env_vars with
  | [] => Returns []
  | (key, value) :: rest =>
      if negb (re_match_eol env_key_pattern key) then
        Raises (ValidationError ("Invalid environment variable name: " +:+ key))
      else if existsb (fun pattern => re_match pattern value) dangerous_patterns then
        Raises (ValidationError
                  ("Environment variable contains dangerous characters: " +:+ key))
      else
        match sanitize_environment_variables rest with
        | Returns sanitized => Returns ((key, value) :: sanitized)
        | Raises e => Raises e
        end
  end.

Definition validate_deployment_id (deployment_id : string) : result string :=
  if negb (re_match_eol deployment_id_pattern deployment_id) then
    Raises (ValidationError ("Invalid deployment ID format: " +:+ deployment_id))
  else Returns deployment_id.

End Validation.

(* ===================================================================== *)
(** * Git URL validation ([utils/git_utils.py]) *)
(* ===================================================================== *)

Module GitUtils.

(** [s[len(p):]] when [s.startswith(p)] *)
Fixpoint strip_prefix (p s : string) : option string :=
  match p, s with
  | "", _ => Some s
  | String a p', String b s' => if Ascii.eqb a b then strip_prefix p' s' else None
  | String _ _, "" => None
  end.

(** A match of [(l1|l2|...)([^c]+)c] at the start of [s], for literal
    texts [l1], [l2], ...: the text of the group.  The group cannot
    contain [c], so it is the text up to the first [c] after the literal;
    it must be non-empty and the [c] must be there. *)
Fixpoint group_at (lits : list string) (c : ascii) (s : string) : option string :=
  match lits with
  | [] => None
  | l :: lits' =>
      match strip_prefix l s with
      | Some rest =>
          if Str.contains c rest && Str.truthy (Str.before c rest)
          then Some (Str.before c rest)
          else group_at lits' c s
      | None => group_at lits' c s
      end
  end.

(** [re.search(...).group(1)] for such a pattern: the leftmost match. *)
Fixpoint search_group (lits : list string) (c : ascii) (s : string) : option string :=
  match group_at lits c s with
  | Some g => Some g
  | None =>
      match s with
      | "" => None
      | String _ s' => search_group lits c s'
      end
  end.

Definition dangerous_chars : list ascii :=
  [";"; "|"; "&"; "$"; "`"]%char.

Definition validate_git_url (url : string) (allowed_hosts : list string)
  : result unit :=
  if negb (Str.startswith "https://" url || Str.startswith "http://" url
           || Str.startswith "git@" url) then
    Raises (GitOperationError "Git URL must start with https://, http://, or git@")
  else if existsb (fun char => Str.contains char url) dangerous_chars then
    Raises (GitOperationError "Git URL contains dangerous characters")
  else
    let match_ :=
      if Str.startswith "git@" url
      then search_group ["git@"] ":" url            (* r'git@([^:]+):' *)
      else search_group ["http://"; "https://"] "/" url  (* r'https?://([^/]+)/' *)
    in
    match match_ with
    | None => Raises (GitOperationError "Could not extract hostname from Git URL")
    | Some hostname =>
        if negb (existsb (String.eqb hostname) allowed_hosts) then
          Raises (GitOperationError ("Git host " +:+ hostname +:+ " not in allowed list"))
        else Returns tt
    end.

End GitUtils.

(* ===================================================================== *)
(** * Dates ([datetime]) *)
(* ===================================================================== *)

Module Datetime.

Record datetime : Type := {
  year : N; month : N; day : N;
  hour : N; minute : N; second : N; microsecond : N
}.

(** The character of the decimal digit [d mod 10]. *)
Definition digit_char (d : N) : ascii := ascii_of_N (48 + d mod 10).

(** The [width] low-order decimal digits of [n]: the zero-padded decimal
    numeral of [n] when [n < 10 ^ width], which is what [strftime] and
    [isoformat] print for the fields of a date between the years 1000
    and 9999. *)
Fixpoint digits (width : nat) (n : N) : string :=
  match width with
  | O => ""
  | S w => digits w (n / 10) +:+ String (digit_char n) ""
  end.

(** [now.strftime('%Y%m%d')] *)
Definition strftime_Ymd (t : datetime) : string :=
  digits 4 (year t) +:+ digits 2 (month t) +:+ digits 2 (day t).

(** [now.strftime('%Y%m%d%H%M%S')] *)
Definition strftime_YmdHMS (t : datetime) : string :=
  strftime_Ymd t +:+ digits 2 (hour t) +:+ digits 2 (minute t) +:+ digits 2 (second t).

(** [now.isoformat()]: the fraction is printed when it is not zero. *)
Definition isoformat (t : datetime) : string :=
  digits 4 (year t) +:+ "-" +:+ digits 2 (month t) +:+ "-" +:+ digits 2 (day t)
  +:+ "T" +:+ digits 2 (hour t) +:+ ":" +:+ digits 2 (minute t) +:+ ":"
  +:+ digits 2 (second t)
  +:+ (if (microsecond t =? 0)%N then "" else "." +:+ digits 6 (microsecond t)).

End Datetime.

(* ===================================================================== *)
(** * The deployment record ([models/deployment.py]) *)
(* ===================================================================== *)

Module Models.
Import Datetime.

Inductive DeploymentStatus : Type :=
| PENDING | CLONING | BUILDING | DEPLOYING | RUNNING | FAILED | STOPPED | ROLLED_BACK.

(** [DeploymentStatus.X.value] *)
Definition value (s : DeploymentStatus) : string :=
  match s with
  | PENDING => "pending"
  | CLONING => "cloning"
  | BUILDING => "building"
  | DEPLOYING => "deploying"
  | RUNNING => "running"
  | FAILED => "failed"
  | STOPPED => "stopped"
  | ROLLED_BACK => "rolled_back"
  end.

Inductive StepStatus : Type := SUCCESS | STEP_FAILED | SKIPPED.

Record DeploymentStep : Type := {
  step_name : string;
  step_status : StepStatus;
  duration_seconds : Q;
  step_error : option string
}.

Record HealthCheckResult : Type := {
  hc_status : string;
  hc_url : string;
  hc_response_code : option Z;
  hc_retries : Z;
  hc_error : option string
}.

Record DeploymentRecord : Type := {
  deployment_id : string;
  repo_url : string;
  branch : string;
  commit_sha : string;
  project_type : string;
  image_name : string;
  image_tag : string;
  image_id : option string;
  container_name : string;
  container_id : option string;
  host_port : Z;
  container_port : Z;
  status : DeploymentStatus;
  created_at : datetime;
  started_at : option datetime;
  completed_at : option datetime;
  build_logs_path : option string;
  error : option string;
  rollback_from : option string;
  steps : list DeploymentStep;
  healthcheck : option HealthCheckResult
}.

End Models.

(* ===================================================================== *)
(** * The deployment directory and the environment *)
(* ===================================================================== *)

(** One element of [index["deployments"]]: a dictionary with the four keys
    [deployment_id], [status], [repo_url] and [updated_at]. *)
Module Entry.
Record t : Type := {
  deployment_id : string;
  status : string;
  repo_url : string;
  updated_at : string
}.
End Entry.

Module Fs.

(** A JSON document of the deployment directory: the dump of a record, or
    the index [{"deployments": [...]}]. *)
Inductive document : Type :=
| RecordDoc (r : Models.DeploymentRecord)
| IndexDoc (deployments : list Entry.t).

(** The content of a file: the whole text of a document, or a proper
    prefix of it ([Torn]: the file as [mkstemp] created it, or as an
    interrupted [json.dump] left it).  A dumped document is one JSON
    object, so no proper prefix of its text parses. *)
Inductive file : Type :=
| Whole (d : document)
| Torn (d : document).

(** The deployment directory: file name to content. *)
Abbreviation dir := (gmap string file).

(** What can go wrong inside the [try] block of [_atomic_write_json]. *)
Inductive fault : Type :=
| NoFault
| DumpFails      (* json.dump raises, or the write does *)
| FlushFails     (* f.flush() raises *)
| FsyncFails     (* os.fsync raises *)
| ReplaceFails.  (* os.replace raises *)

End Fs.

Module Docker.

(** The keyword arguments of [client.containers.run]. *)
Record run_args : Type := {
  image : string;
  name : string;
  detach : bool;
  ports : string * (string * Z);         (* {"<port>/tcp": (host ip, host port)} *)
  environment : list (string * string);
  labels : list (string * string);
  restart_policy : string;
  mem_limit : string;
  security_opt : list string
}.

(** The requests sent to the container engine. *)
Inductive engine_call : Type :=
| Run (args : run_args)          (* client.containers.run(...) *)
| StopRemove (name : string).    (* containers.get(name), .stop(timeout=10), .remove() *)

Record Container : Type := { id : string; container_status : string }.

Inductive run_reply : Type :=
| Started (c : Container)
| RunAPIError (msg : string).

Inductive stop_reply : Type :=
| Removed
| NotFound
| StopAPIError (msg : string).

End Docker.

(** [config/settings.py], the fields the modelled code reads.  The two
    ports have passed the [field_validator] of the class, [validate_port],
    which refuses a value outside 1024..65535 when the settings are
    built. *)
Record Settings : Type := {
  port_range_start : Z;
  port_range_end : Z;
  health_check_timeout : Z;
  port_range_start_valid : 1024 <= port_range_start <= 65535;
  port_range_end_valid : 1024 <= port_range_end <= 65535
}.

Definition default_settings : Settings :=
  {| port_range_start := 8000; port_range_end := 9000; health_check_timeout := 30;
     port_range_start_valid := ltac:(split; discriminate);
     port_range_end_valid := ltac:(split; discriminate) |}.

(** What the surroundings answer.  The answers that can differ from one
    request to the next are indexed by [tick], the number of requests made
    so far. *)
Record Env : Type := {
  settings : Settings;
  utcnow : nat -> Datetime.datetime;            (* datetime.utcnow() *)
  mkstemp : nat -> string;                      (* the name tempfile.mkstemp proposes *)
  write_fault : nat -> Fs.fault;                (* the fate of an atomic write *)
  port_bindable : Z -> bool;                    (* bind(("127.0.0.1", port)) succeeds *)
  docker_ping : bool;                           (* docker.from_env().ping() succeeds *)
  engine_run : Docker.run_args -> Docker.run_reply;
  engine_stop : string -> Docker.stop_reply;
  engine_reload : Docker.Container -> Docker.Container   (* container.reload() *)
}.

(** What the modelled code changes: the files of the deployment directory,
    the requests made so far and the requests sent to the container
    engine, oldest first. *)
Record world : Type := {
  files : Fs.dir;
  tick : nat;
  calls : list Docker.engine_call
}.

Definition set_files (d : Fs.dir) (w : world) : world :=
  {| files := d; tick := tick w; calls := calls w |}.
Definition next_tick (w : world) : world :=
  {| files := files w; tick := S (tick w); calls := calls w |}.
Definition log_call (c : Docker.engine_call) (w : world) : world :=
  {| files := files w; tick := tick w; calls := calls w ++ [c] |}.

(** ** Computations that read and change the world and may raise *)

Definition M (A : Type) : Type := world -> result A * world.

#[global] Instance M_ret : MRet M := fun A a w => (Returns a, w).
#[global] Instance M_bind : MBind M := fun A B k m w =>
  match m w with
  | (Returns a, w') => k a w'
  | (Raises e, w') => (Raises e, w')
  end.

Definition raise {A} (e : exn) : M A := fun w => (Raises e, w).
Definition lift {A} (r : result A) : M A := fun w => (r, w).
Definition get_world : M world := fun w => (Returns w, w).
Definition modify (f : world -> world) : M unit := fun w => (Returns tt, f w).

(** [try: m except DockerOperationError (or a subclass): pass] *)
Definition is_DockerOperationError (e : exn) : bool :=
  match e with
  | DockerOperationError _ | ContainerStartError _ | PortConflictError _ _
  | HealthCheckError _ _ => true
  | _ => false
  end.

Definition try_except_DockerOperationError (m : M unit) : M unit := fun w =>
  match m w with
  | (Raises e, w') => if is_DockerOperationError e then (Returns tt, w') else (Raises e, w')
  | r => r
  end.

(* ===================================================================== *)
(** * The state store ([utils/state_manager.py]) *)
(* ===================================================================== *)

Module StateManager.
Import Fs.

(** [self.index_file] and [self.deployment_dir / f"{deployment_id}.json"],
    as names inside the deployment directory, where two different names
    are two different files.  The path is that file for an identifier
    without [/]; with a [/] in it the path leaves the directory or, as for
    [./x], is the file of another identifier, and a directory in which two
    identifiers share a file is described by giving both names the same
    content. *)
Definition index_file : string := "index.json".
Definition deployment_file (deployment_id : string) : string :=
  deployment_id +:+ ".json".

(** ** The atomic write, step by step *)

(** [if os.path.exists(tmp_path): os.unlink(tmp_path)] *)
Definition cleanup (tmp_path : string) (d : dir) : dir :=
  match d !! tmp_path with
  | Some _ => delete tmp_path d
  | None => d
  end.

(** [os.replace(src, dst)]: [dst] names the file that [src] named. *)
Definition os_replace (src dst : string) (d : dir) : dir :=
  match d !! src with
  | Some f => <[dst := f]> (delete src d)
  | None => d
  end.

(** [_atomic_write_json(filepath, data)] when [mkstemp] proposes
    [tmp_path] and the write meets the fault [flt]: the result, and the
    successive states of the directory that the call produces, every one
    of which another process can observe.

    [mkstemp] opens the file with [O_EXCL]; when the name is taken it
    raises before the [try] block is entered.  Inside the [try] block the
    temporary file is first empty, then holds a growing prefix of the
    text ([Torn]), and holds the whole text once [json.dump] and [flush]
    are through.  Every exception raised inside the block reaches the
    handler, which unlinks the temporary file and raises
    [ConfigurationError]. *)
Definition _atomic_write_json_steps
    (tmp_path : string) (flt : fault) (filepath : string) (data : document)
    (d : dir) : result unit * list dir :=
  match d !! tmp_path with
  | Some _ => (Raises FileExistsError, [])
  | None =>
      let failed := Raises (ConfigurationError ("Failed to write " +:+ filepath)) in
      let created := <[tmp_path := Torn data]> d in          (* mkstemp, json.dump *)
      let written := <[tmp_path := Whole data]> created in   (* dump and flush done *)
      match flt with
      | DumpFails | FlushFails => (failed, [created; cleanup tmp_path created])
      | FsyncFails | ReplaceFails =>
          (failed, [created; written; cleanup tmp_path written])
      | NoFault =>
          (Returns tt, [created; written; os_replace tmp_path filepath written])
      end
  end.

(** The directory a list of steps ends in. *)
Definition final (d : dir) (steps : list dir) : dir := List.last steps d.

(** ** Stable sort by a string key, greatest first *)

(** [l.sort(key=key, reverse=True)]: elements of equal key keep their
    order. *)
Section Sort.
Context {A : Type} (key : A -> string).

Fixpoint insert_desc (x : A) (l : list A) : list A :=
  match l with
  | [] => [x]
  | y :: l' =>
      if String.ltb (key x) (key y) then y :: insert_desc x l'
      else x :: y :: l'
  end.

Definition sort_desc (l : list A) : list A := foldr insert_desc [] l.
End Sort.

Section WithEnv.
Variable env : Env.

Definition _atomic_write_json (filepath : string) (data : document) : M unit :=
  fun w =>
    let '(r, steps) :=
      _atomic_write_json_steps (mkstemp env (tick w)) (write_fault env (tick w))
                               filepath data (files w) in
    (r, next_tick (set_files (final (files w) steps) w)).

(** [open] and [json.load]; every exception becomes [ConfigurationError] *)
Definition _read_json (filepath : string) : M document := fun w =>
  match files w !! filepath with
  | Some (Whole doc) => (Returns doc, w)
  | Some (Torn _) | None =>
      (Raises (ConfigurationError ("Failed to read " +:+ filepath)), w)
  end.

(** [filepath.exists()] *)
Definition exists_ (filepath : string) : M bool := fun w =>
  (Returns (bool_decide (is_Some (files w !! filepath))), w).

(** [index["deployments"]] *)
Definition deployments_of (index : document) : M (list Entry.t) :=
  match index with
  | IndexDoc ds => mret ds
  | RecordDoc _ => raise (KeyError "deployments")
  end.

Definition _ensure_index : M unit :=
  e ← exists_ index_file;
  if negb e then _atomic_write_json index_file (IndexDoc []) else mret tt.

(** [StateManager(deployment_dir)] *)
Definition init : M unit := _ensure_index.

(** [datetime.utcnow()] *)
Definition utcnow_ : M Datetime.datetime := fun w =>
  (Returns (utcnow env (tick w)), next_tick w).

Definition _update_index (deployment_id status repo_url : string) : M unit :=
  index ← _read_json index_file;
  ds ← deployments_of index;
  let ds' := List.filter
               (fun d => negb (String.eqb (Entry.deployment_id d) deployment_id)) ds in
  now ← utcnow_;
  let ds'' := ds' ++ [ {| Entry.deployment_id := deployment_id;
                          Entry.status := status;
                          Entry.repo_url := repo_url;
                          Entry.updated_at := Datetime.isoformat now |} ] in
  _atomic_write_json index_file (IndexDoc ds'').

Definition save (record : Models.DeploymentRecord) : M unit :=
  _atomic_write_json (deployment_file (Models.deployment_id record)) (RecordDoc record);;
  _update_index (Models.deployment_id record)
                (Models.value (Models.status record))
                (Models.repo_url record).

Definition load (deployment_id : string) : M (option Models.DeploymentRecord) :=
  e ← exists_ (deployment_file deployment_id);
  if negb e then mret None
  else
    data ← _read_json (deployment_file deployment_id);
    match data with
    | RecordDoc r => mret (Some r)
    | IndexDoc _ => raise PydanticValidationError   (* the DeploymentRecord constructor rejects it *)
    end.

(** [d["deployment_id"] != exclude]; a string differs from [None] *)
Definition differs (deployment_id : string) (exclude : option string) : bool :=
  match exclude with
  | Some x => negb (String.eqb deployment_id x)
  | None => true
  end.

Definition find_latest_successful (repo_url : string) (exclude : option string)
  : M (option Models.DeploymentRecord) :=
  index ← _read_json index_file;
  ds ← deployments_of index;
  let candidates :=
    List.filter (fun d => String.eqb (Entry.repo_url d) repo_url
                          && String.eqb (Entry.status d) (Models.value Models.RUNNING)
                          && differs (Entry.deployment_id d) exclude) ds in
  match sort_desc Entry.updated_at candidates with
  | [] => mret None
  | latest :: _ => load (Entry.deployment_id latest)
  end.

Definition list_all : M (list Entry.t) :=
  index ← _read_json index_file;
  deployments_of index.

End WithEnv.

End StateManager.

(* ===================================================================== *)
(** * The container driver ([utils/docker_utils.py]) *)
(* ===================================================================== *)

Module DockerUtils.
Import Docker.

(** [str(n)] for an [int] *)
Definition str_of_Z (n : Z) : string := NilZero.string_of_int (Z.to_int n).

(** [c.lower()] on the code points below 256 *)
Definition lower_char (c : ascii) : ascii :=
  let n := N_of_ascii c in
  if ((65 <=? n) && (n <=? 90) || (192 <=? n) && (n <=? 222) && negb (n =? 215))%N
  then ascii_of_N (n + 32) else c.

Fixpoint lower (s : string) : string :=
  match s with
  | "" => ""
  | String c s' => String (lower_char c) (lower s')
  end.

(** [p in s] for strings *)
Fixpoint has_substring (p s : string) : bool :=
  String.prefix p s ||
  match s with
  | "" => false
  | String _ s' => has_substring p s'
  end.

Section WithEnv.
Variable env : Env.

Definition get_docker_client : M unit :=
  if docker_ping env then mret tt
  else raise (DockerOperationError "Failed to connect to Docker daemon").

(** [sock.bind((host, port))] raises [OverflowError] for a port outside
    0..65535, and the function catches [OSError] only. *)
Definition is_port_available (port : Z) : M bool :=
  if (0 <=? port) && (port <=? 65535) then mret (port_bindable env port)
  else raise OverflowError.

(** [for port in range(start, end + 1)], with [n] ports left to try *)
Fixpoint scan_ports (n : nat) (port : Z) : M (option Z) :=
  match n with
  | O => mret None
  | S n' =>
      free ← is_port_available port;
      if free : bool then mret (Some port) else scan_ports n' (port + 1)
  end.

Definition find_available_port (start end_ : Z) : M Z :=
  found ← scan_ports (Z.to_nat (end_ + 1 - start)) start;
  match found with
  | Some port => mret port
  | None => raise (PortConflictError "No available ports in range" start)
  end.

(** [containers.get(name)], [stop(timeout=10)], [remove()] *)
Definition get_stop_remove (container_name : string) : M stop_reply := fun w =>
  (Returns (engine_stop env container_name), log_call (StopRemove container_name) w).

(** Neither [NotFound] nor [APIError] leaves this function. *)
Definition cleanup_existing_container (container_name : string) : M unit :=
  _ ← get_stop_remove container_name; mret tt.

Definition stop_and_remove_container (container_name : string) : M unit :=
  reply ← get_stop_remove container_name;
  match reply with
  | Removed | NotFound => mret tt
  | StopAPIError msg => raise (DockerOperationError ("Failed to stop container: " +:+ msg))
  end.

(** [client.containers.run(...)] *)
Definition containers_run (args : run_args) : M run_reply := fun w =>
  (Returns (engine_run env args), log_call (Run args) w).

(** [dict(env_vars or {})] without the key [RUN_AS_USER] *)
Definition safe_env (env_vars : option (list (string * string)))
  : list (string * string) :=
  List.filter (fun kv => negb (String.eqb (fst kv) "RUN_AS_USER"))
              (default [] env_vars).

(** The keyword arguments [deploy_container] passes to
    [client.containers.run]. *)
Definition run_kwargs (image_tag container_name : string)
    (host_port container_port : Z) (env_vars : option (list (string * string)))
  : run_args :=
  {| image := image_tag;
     name := container_name;
     detach := true;
     ports := (str_of_Z container_port +:+ "/tcp", ("127.0.0.1", host_port));
     environment := safe_env env_vars;
     labels := [("managed-by", "mcp-cicd"); ("app", container_name)];
     restart_policy := "unless-stopped";
     mem_limit := "512m";
     security_opt := ["no-new-privileges:true"] |}.

Definition deploy_container (image_tag container_name : string)
    (host_port container_port : Z) (env_vars : option (list (string * string)))
  : M Container :=
  free ← is_port_available host_port;
  if negb free then
    raise (PortConflictError ("Port " +:+ str_of_Z host_port +:+ " is already in use")
                             host_port)
  else
    cleanup_existing_container container_name;;
    reply ← containers_run
              (run_kwargs image_tag container_name host_port container_port env_vars);
    match reply with
    | Started container => mret container
    | RunAPIError error_msg =>
        if has_substring "port is already allocated" (lower error_msg) then
          raise (PortConflictError
                   ("Port " +:+ str_of_Z host_port +:+ " allocation failed: " +:+ error_msg)
                   host_port)
        else raise (ContainerStartError ("Failed to start container: " +:+ error_msg))
    end.

End WithEnv.

End DockerUtils.

(* ===================================================================== *)
(** * Workspace names ([WorkspaceManager] of [utils/git_utils.py]) *)
(* ===================================================================== *)

Module WorkspaceManager.

(** [s.rstrip(c)] for a single character [c] *)
Fixpoint rstrip (c : ascii) (s : string) : string :=
  match s with
  | "" => ""
  | String a s' =>
      match rstrip c s' with
      | "" => if Ascii.eqb a c then "" else String a ""
      | r => String a r
      end
  end.

(** [s.split(c)[-1]]: what follows the last [c], the whole of [s] when
    there is none *)
Fixpoint after_last (c : ascii) (s : string) : string :=
  match s with
  | "" => ""
  | String a s' =>
      if Str.contains c s' then after_last c s'
      else if Ascii.eqb a c then s' else String a s'
  end.

(** [s.replace(p, '')] for a non-empty [p]: the occurrences of [p] are
    found from left to right, without overlap; [skip] characters of the
    occurrence under way are still to be dropped. *)
Fixpoint remove_from (p : string) (skip : nat) (s : string) : string :=
  match s with
  | "" => ""
  | String a s' =>
      match skip with
      | S k => remove_from p k s'
      | O =>
          if String.prefix p s then remove_from p (String.length p - 1) s'
          else String a (remove_from p 0 s')
      end
  end.

Definition remove_all (p s : string) : string := remove_from p 0 s.

(** [re.sub(r'[^a-z0-9-]', '-', s)] *)
Definition keep_or_hyphen (c : ascii) : ascii :=
  if Re.lower c || Re.digit c || Ascii.eqb c "-" then c else "-"%char.

Fixpoint hyphenate (s : string) : string :=
  match s with
  | "" => ""
  | String a s' => String (keep_or_hyphen a) (hyphenate s')
  end.

Definition sanitize_repo_name (repo_url : string) : string :=
  let name := after_last "/" (rstrip "/" repo_url) in
  let name := remove_all ".git" name in
  hyphenate (DockerUtils.lower name).

End WorkspaceManager.

(* ===================================================================== *)
(** * Branch names ([validate_branch_name] of [utils/validation.py]) *)
(* ===================================================================== *)

Module BranchValidation.
Import Re.

(** The class [[a-zA-Z0-9._\-/]] *)
Definition branch_char (c : ascii) : bool :=
  lower c || upper c || digit c || one_of "._-/" c.

(** [r'^[a-zA-Z0-9._\-/]+$'] *)
Definition branch_pattern : regex := Plus (Cls branch_char).

Definition validate_branch_name (branch : string) : result string :=
  if negb (re_match_eol branch_pattern branch) then
    Raises (ValidationError ("Invalid branch name: " +:+ branch))
  else if DockerUtils.has_substring ".." branch then
    Raises (ValidationError "Branch name cannot contain '..'")
  else Returns branch.

End BranchValidation.

(* ===================================================================== *)
(** * The [deploy_container] tool ([tools/docker_tools.py]) *)
(* ===================================================================== *)

Module DockerTools.
Import Validation.

(** The arguments of the tool. *)
Record arguments : Type := {
  image_tag : string;
  container_name : string;
  host_port : option Z;
  container_port : Z;
  env_vars : option (list (string * string));
  repo_url : option string;
  branch : option string;
  commit_sha : option string;
  project_type : option string;
  deployment_id : option string
}.

(** The dictionary the tool returns. *)
Record deployed : Type := {
  r_deployment_id : string;
  r_container_id : string;
  r_container_name : string;
  r_host_port : Z;
  r_container_port : Z;
  r_url : string;
  r_status : string
}.

(** [f"dep-{now.strftime('%Y%m%d%H%M%S')}-{validated_name}"] *)
Definition generated_id (now : Datetime.datetime) (validated_name : string) : string :=
  "dep-" +:+ Datetime.strftime_YmdHMS now +:+ "-" +:+ validated_name.

Section WithEnv.
Variable env : Env.

Definition deploy_container (a : arguments) : M deployed :=
  validated_tag ← lift (validate_image_tag (image_tag a));
  validated_name ← lift (validate_container_name (container_name a));
  validated_container_port ← lift (validate_port (container_port a) 1 65535);
  assigned_port ←
    match host_port a with
    | None =>
        DockerUtils.find_available_port env
          (port_range_start (settings env)) (port_range_end (settings env))
    | Some p =>
        assigned_port ← lift (validate_port p 1024 65535);
        free ← DockerUtils.is_port_available env assigned_port;
        if negb free then
          raise (PortConflictError
                   ("Port " +:+ DockerUtils.str_of_Z assigned_port +:+ " is already in use")
                   assigned_port)
        else mret assigned_port
    end;
  DockerUtils.get_docker_client env;;
  container ← DockerUtils.deploy_container env validated_tag validated_name
                 assigned_port validated_container_port (env_vars a);
  let container := engine_reload env container in
  now ← StateManager.utcnow_ env;
  let dep_id := Str.or_default (deployment_id a) (generated_id now validated_name) in
  let image_name := Str.before ":" validated_tag in
  let record :=
    {| Models.deployment_id := dep_id;
       Models.repo_url := Str.or_default (repo_url a) "unknown";
       Models.branch := Str.or_default (branch a) "unknown";
       Models.commit_sha := Str.or_default (commit_sha a) "unknown";
       Models.project_type := Str.or_default (project_type a) "docker";
       Models.image_name := image_name;
       Models.image_tag := validated_tag;
       Models.image_id := None;
       Models.container_name := validated_name;
       Models.container_id := Some (Docker.id container);
       Models.host_port := assigned_port;
       Models.container_port := validated_container_port;
       Models.status := Models.RUNNING;
       Models.created_at := now;
       Models.started_at := Some now;
       Models.completed_at := Some now;
       Models.build_logs_path := None;
       Models.error := None;
       Models.rollback_from := None;
       Models.steps := [];
       Models.healthcheck := None |} in
  StateManager.init env;;
  StateManager.save env record;;
  mret {| r_deployment_id := dep_id;
          r_container_id := Docker.id container;
          r_container_name := validated_name;
          r_host_port := assigned_port;
          r_container_port := validated_container_port;
          r_url := "http://localhost:" +:+ DockerUtils.str_of_Z assigned_port;
          r_status := Docker.container_status container |}.

End WithEnv.

End DockerTools.

(* ===================================================================== *)
(** * The [rollback] tool ([tools/lifecycle_tools.py]) *)
(* ===================================================================== *)

Module LifecycleTools.
Import Validation.

(** The dictionary the tool returns. *)
Record rolled_back : Type := {
  rollback_deployment_id : string;
  original_deployment_id : option string;
  previous_deployment_id : string;
  rb_container_name : string;
  rb_container_id : string;
  rb_host_port : Z;
  rb_url : string;
  rb_commit_sha : string;
  rb_short_sha : string
}.

(** [f"dep-{datetime.utcnow().strftime('%Y%m%d')}-rollback-{prev_short_sha}"] *)
Definition generated_rollback_id (now : Datetime.datetime) (prev_short_sha : string)
  : string :=
  "dep-" +:+ Datetime.strftime_Ymd now +:+ "-rollback-" +:+ prev_short_sha.

(** The dictionary [stop_deployment] returns. *)
Record stopped : Type := {
  st_container_name : string;
  st_status : string;
  st_message : string
}.

Section WithEnv.
Variable env : Env.

Definition stop_deployment (container_name : string) : M stopped :=
  validated_name ← lift (validate_container_name container_name);
  DockerUtils.get_docker_client env;;
  DockerUtils.stop_and_remove_container env validated_name;;
  mret {| st_container_name := validated_name;
          st_status := "stopped";
          st_message := "Container " +:+ validated_name
                        +:+ " stopped and removed successfully" |}.

(** The variable [failed_deployment] is bound exactly when
    [deployment_id] is truthy; it is [Some] in that case and [None]
    otherwise, and the later tests [if deployment_id] are matches on
    it. *)
Definition rollback (deployment_id repo_url : option string) : M rolled_back :=
  if negb (Str.truthy_opt deployment_id) && negb (Str.truthy_opt repo_url) then
    raise (ValidationError "Must provide either deployment_id or repo_url")
  else
    StateManager.init env;;
    '(failed_deployment, target_repo_url, exclude_id) ←
      (if Str.truthy_opt deployment_id then
         validated_id ← lift (validate_deployment_id (default "" deployment_id));
         failed_deployment ← StateManager.load validated_id;
         match failed_deployment with
         | None =>
             raise (RollbackError ("Deployment " +:+ validated_id +:+ " not found"))
         | Some failed =>
             mret (Some failed, Models.repo_url failed, Some validated_id)
         end
       else mret (None, default "" repo_url, None));
    previous_deployment ←
      StateManager.find_latest_successful target_repo_url exclude_id;
    match previous_deployment with
    | None =>
        raise (RollbackError
                 ("No previous successful deployment found for " +:+ target_repo_url))
    | Some previous_deployment =>
        DockerUtils.get_docker_client env;;
        match failed_deployment with
        | Some failed =>
            if Str.truthy (Models.container_name failed) then
              try_except_DockerOperationError
                (DockerUtils.stop_and_remove_container env
                   (Models.container_name failed))
            else mret tt
        | None => mret tt
        end;;
        let prev_short_sha := Str.take 7 (Models.commit_sha previous_deployment) in
        today ← StateManager.utcnow_ env;
        let rollback_id := generated_rollback_id today prev_short_sha in
        let rollback_host_port :=
          match failed_deployment with
          | Some failed => Models.host_port failed
          | None => Models.host_port previous_deployment
          end in
        let rollback_container_name :=
          Models.image_name previous_deployment +:+ "-rollback-" +:+ prev_short_sha
          +:+ "-p" +:+ DockerUtils.str_of_Z rollback_host_port in
        container ← DockerUtils.deploy_container env
                       (Models.image_tag previous_deployment)
                       rollback_container_name
                       rollback_host_port
                       (Models.container_port previous_deployment)
                       None;
        now ← StateManager.utcnow_ env;
        let rollback_record :=
          {| Models.deployment_id := rollback_id;
             Models.repo_url := target_repo_url;
             Models.branch := Models.branch previous_deployment;
             Models.commit_sha := Models.commit_sha previous_deployment;
             Models.project_type := Models.project_type previous_deployment;
             Models.image_name := Models.image_name previous_deployment;
             Models.image_tag := Models.image_tag previous_deployment;
             Models.image_id := None;
             Models.container_name := rollback_container_name;
             Models.container_id := Some (Docker.id container);
             Models.host_port := rollback_host_port;
             Models.container_port := Models.container_port previous_deployment;
             Models.status := Models.RUNNING;
             Models.created_at := now;
             Models.started_at := Some now;
             Models.completed_at := Some now;
             Models.build_logs_path := None;
             Models.error := None;
             Models.rollback_from := deployment_id;
             Models.steps := [];
             Models.healthcheck := None |} in
        StateManager.save env rollback_record;;
        mret {| rollback_deployment_id := rollback_id;
                original_deployment_id := deployment_id;
                previous_deployment_id := Models.deployment_id previous_deployment;
                rb_container_name := rollback_container_name;
                rb_container_id := Docker.id container;
                rb_host_port := rollback_host_port;
                rb_url := "http://localhost:" +:+ DockerUtils.str_of_Z rollback_host_port;
                rb_commit_sha := Models.commit_sha previous_deployment;
                rb_short_sha := Str.take 7 (Models.commit_sha previous_deployment) |}
    end.

End WithEnv.

End LifecycleTools.

(* ===================================================================== *)
(** * The health prober ([tools/health_tools.py]) *)
(* ===================================================================== *)

Module HealthTools.

(** What one [client.get] comes back with: a response with its status
    code, or an exception (connection refused, timeout, anything else;
    the loop treats them alike). *)
Inductive reply : Type :=
| Status (code : Z)
| HttpError (msg : string).

(** The service polled: the reply to the [n]-th request and the seconds
    the request lasts, [n] counted from one. *)
Record peer : Type := {
  answer : nat -> reply;
  took : nat -> Q
}.

(** The dictionary the tool returns. *)
Record health : Type := {
  healthy : bool;
  response_code : Z;
  attempts : nat;
  elapsed_seconds : Q
}.

(** How a call ends: it returns the dictionary, it raises the
    [HealthCheckError] of the deadline, whose context holds [attempts],
    [elapsed] and [last_error], or an exception outside the inner [try]
    is turned into a [HealthCheckError] by the outer handler ([attempt]
    being the value of the local variable at that moment). *)
Inductive outcome : Type :=
| Returned (h : health)
| TimedOut (attempts : nat) (elapsed : Q) (last_error : option string)
| Crashed (attempt : nat) (msg : string).

(** The number of requests sent when the call ended; [attempt] is
    incremented right before each request. *)
Definition attempts_made (o : outcome) : nat :=
  match o with
  | Returned h => attempts h
  | TimedOut n _ _ => n
  | Crashed n _ => n
  end.

(** Rounding to the nearest integer, ties to even. *)
Definition round_half_even (x : Q) : Z :=
  let f := Qfloor x in
  match Qcompare (x - inject_Z f)%Q (1 # 2)%Q with
  | Lt => f
  | Gt => f + 1
  | Eq => if Z.even f then f else f + 1
  end.

(** [round(x, 2)] *)
Definition round2 (x : Q) : Q := Qmake (round_half_even (x * 100)%Q) 100.

(** [a < b] *)
Definition Qltb (a b : Q) : bool := negb (Qle_bool b a).

(** [min(a, b)] *)
Definition Qmin_ (a b : Q) : Q := if Qltb b a then b else a.

(** The [while] loop, at most [fuel] iterations of it.  [elapsed] is
    [time.monotonic() - start_time]: time passes while a request is under
    way and during [time.sleep], and at no other moment.  The numbers are
    exact rationals: [interval] and [backoff] stand for finite floats (not
    [inf] or [nan]), and of the pauses [time.sleep] refuses only the
    negative ones are modelled. *)
Fixpoint poll (fuel : nat) (p : peer) (max_timeout : Z) (backoff : Q)
    (expected_status : Z) (elapsed : Q) (attempt : nat) (current_interval : Q)
    (last_error : option string) : option outcome :=
  match fuel with
  | O => None
  | S fuel' =>
      if Qltb elapsed (inject_Z max_timeout) then
        let attempt := S attempt in
        let elapsed := (elapsed + took p attempt)%Q in
        let sleep_and_retry (last_error : option string) :=
          let pause := Qmin_ current_interval 10%Q in
          if Qltb pause 0%Q then
            Some (Crashed attempt "sleep length must be non-negative")
          else
            poll fuel' p max_timeout backoff expected_status
                 (elapsed + pause)%Q attempt (current_interval * backoff)%Q last_error in
        match answer p attempt with
        | Status code =>
            if code =? expected_status then
              Some (Returned {| healthy := true;
                                response_code := code;
                                attempts := attempt;
                                elapsed_seconds := round2 elapsed |})
            else
              sleep_and_retry
                (Some ("Unexpected status code: " +:+ DockerUtils.str_of_Z code))
        | HttpError msg => sleep_and_retry (Some msg)
        end
      else Some (TimedOut attempt (round2 elapsed) last_error)
  end.

(** [healthcheck(url, timeout, interval, backoff, expected_status)] against
    the peer that [url] names. *)
Definition healthcheck (fuel : nat) (s : Settings) (p : peer) (timeout : option Z)
    (interval backoff : Q) (expected_status : Z) : option outcome :=
  let max_timeout := default (health_check_timeout s) timeout in
  poll fuel p max_timeout backoff expected_status 0%Q 0%nat interval None.

End HealthTools.

(* ===================================================================== *)
(** * Invariant of the deployment directory *)
(* ===================================================================== *)

Module Invariants.

(** A file [<id>.json] that holds a record holds the record of the
    identifier [id]: what [save] writes for identifiers that are file
    names. *)
Definition records_named (d : Fs.dir) : Prop :=
  forall id r,
    d !! StateManager.deployment_file id = Some (Fs.Whole (Fs.RecordDoc r)) ->
    Models.deployment_id r = id.

(** The same of the entries [ds] of an index only: the record file of an
    entry, when it holds a record, holds the record of the entry's
    identifier. *)
Definition entries_named (d : Fs.dir) (ds : list Entry.t) : Prop :=
  forall e r,
    In e ds ->
    d !! StateManager.deployment_file (Entry.deployment_id e)
    = Some (Fs.Whole (Fs.RecordDoc r)) ->
    Models.deployment_id r = Entry.deployment_id e.

(** Every entry of the index has its record file. *)
Definition index_backed (d : Fs.dir) : Prop :=
  forall ds e,
    d !! StateManager.index_file = Some (Fs.Whole (Fs.IndexDoc ds)) -> In e ds ->
    exists r, d !! StateManager.deployment_file (Entry.deployment_id e)
              = Some (Fs.Whole (Fs.RecordDoc r)).

(** No file holds an unfinished text. *)
Definition no_torn (d : Fs.dir) : Prop := forall path x, d !! path <> Some (Fs.Torn x).

Definition well_kept (d : Fs.dir) : Prop :=
  records_named d /\ index_backed d /\ no_torn d.

(** An identifier that is a file name: it has no [/], so that
    [deployment_dir / f"{id}.json"] is the file [<id>.json] of the
    deployment directory and two such identifiers name one file only
    when they are equal.  (With a [/] the path leaves the directory, or,
    as for [./x], is the file of another identifier.) *)
Definition file_name (deployment_id : string) : bool :=
  negb (Str.contains "/" deployment_id).

(** The invariant for the identifiers that are file names: their record
    files hold their records, the index lists such identifiers only and
    every one listed has its record file, and no file is torn. *)
Definition records_filed (d : Fs.dir) : Prop :=
  forall id r,
    file_name id = true ->
    d !! StateManager.deployment_file id = Some (Fs.Whole (Fs.RecordDoc r)) ->
    Models.deployment_id r = id.

Definition index_filed (d : Fs.dir) : Prop :=
  forall ds e,
    d !! StateManager.index_file = Some (Fs.Whole (Fs.IndexDoc ds)) -> In e ds ->
    file_name (Entry.deployment_id e) = true /\
    exists r, d !! StateManager.deployment_file (Entry.deployment_id e)
              = Some (Fs.Whole (Fs.RecordDoc r)).

Definition well_filed (d : Fs.dir) : Prop :=
  records_filed d /\ index_filed d /\ no_torn d.

(** The entry [_update_index] appends for a record. *)
Definition index_entry (R : Models.DeploymentRecord) (now : Datetime.datetime)
  : Entry.t :=
  {| Entry.deployment_id := Models.deployment_id R;
     Entry.status := Models.value (Models.status R);
     Entry.repo_url := Models.repo_url R;
     Entry.updated_at := Datetime.isoformat now |}.

(** The entries of the other deployments, in their order. *)
Definition others (deployment_id : string) (ds : list Entry.t) : list Entry.t :=
  List.filter (fun d => negb (String.eqb (Entry.deployment_id d) deployment_id)) ds.

(** The exceptions of the state store: none of them is among those the
    tools name in their [except] clauses. *)
Definition store_error (e : exn) : Prop :=
  e = FileExistsError \/ (exists msg, e = ConfigurationError msg)
  \/ (exists key, e = KeyError key) \/ e = PydanticValidationError.

End Invariants.

(* ===================================================================== *)
(** * Notions used to state what the validators accept *)
(* ===================================================================== *)

Module Lines.

(** The shell metacharacters of the first of the [dangerous_patterns]. *)
Definition meta : ascii -> bool := Re.one_of ";&|`$".

(** Some character of the first line of [s], the text before its first
    newline, satisfies [p]. *)
Fixpoint first_line_has (p : ascii -> bool) (s : string) : bool :=
  match s with
  | "" => false
  | String a s' =>
      if Ascii.eqb a Re.newline then false else p a || first_line_has p s'
  end.

End Lines.

(* ===================================================================== *)
(** * Fixtures of the tests *)
(* ===================================================================== *)

Module Fixtures.
Import Datetime Models.

(** 18 February 2026, 12:34:56 UTC *)
Definition noon : datetime :=
  {| year := 2026; month := 2; day := 18;
     hour := 12; minute := 34; second := 56; microsecond := 0 |}.

(** [_make_record] of [tests/integration/test_full_pipeline.py] *)
Definition _make_record (dep_id : string) (st : DeploymentStatus)
    (repo : string) (port : Z) : DeploymentRecord :=
  {| deployment_id := dep_id;
     repo_url := repo;
     branch := "main";
     commit_sha := "aaaaaaaaaaaaaaaaaaaaaaaaaaaaaaaaaaaaaaaa";
     project_type := "docker";
     image_name := "mcp-cicd-test-app";
     image_tag := "mcp-cicd-test-app:test";
     image_id := None;
     container_name := "mcp-cicd-state-test";
     container_id := None;
     host_port := port;
     container_port := 8000;
     status := st;
     created_at := noon;
     started_at := None;
     completed_at := None;
     build_logs_path := None;
     error := None;
     rollback_from := None;
     steps := [];
     healthcheck := None |}.

(** Surroundings in which nothing fails: every port is free, the engine
    starts every container, and the clock advances by one second per
    request. *)
Definition calm : Env :=
  {| settings := default_settings;
     utcnow := fun n =>
       {| year := 2026; month := 2; day := 18; hour := 12; minute := 34;
          second := N.of_nat n mod 60; microsecond := 250000 |};
     mkstemp := fun _ => ".tmp_k3x9q2ab.json";
     write_fault := fun _ => Fs.NoFault;
     port_bindable := fun _ => true;
     docker_ping := true;
     engine_run := fun a =>
       Docker.Started {| Docker.id := "c0ffee" +:+ Docker.name a;
                         Docker.container_status := "created" |};
     engine_stop := fun _ => Docker.NotFound;
     engine_reload := fun c =>
       {| Docker.id := Docker.id c; Docker.container_status := "running" |} |}.

(** The same surroundings, except that the atomic write made at request
    [k] meets the fault [f]. *)
Definition calm_but (k : nat) (f : Fs.fault) : Env :=
  {| settings := settings calm;
     utcnow := utcnow calm;
     mkstemp := mkstemp calm;
     write_fault := fun n => if Nat.eqb n k then f else Fs.NoFault;
     port_bindable := port_bindable calm;
     docker_ping := docker_ping calm;
     engine_run := engine_run calm;
     engine_stop := engine_stop calm;
     engine_reload := engine_reload calm |}.

(** An empty deployment directory, nothing requested yet. *)
Definition fresh : world := {| files := ∅; tick := 0; calls := [] |}.

(** The state reached from [w] by the computation [m]. *)
Definition after {A} (m : M A) (w : world) : world := snd (m w).

(** [test_save_overwrites_same_id]: the record is saved as running, then
    saved again as stopped. *)
Definition upd001 (st : DeploymentStatus) : DeploymentRecord :=
  _make_record "dep-20260218-upd001" st "https://github.com/test/app.git" 8500.

Definition saved_once : world :=
  after (StateManager.init calm;; StateManager.save calm (upd001 RUNNING)) fresh.

(** [TestValidateGitUrl.ALLOWED] of [tests/unit/test_git_utils.py] *)
Definition ALLOWED : list string := ["github.com"; "gitlab.com"].

Definition is_GitOperationError {A} (r : result A) : bool :=
  match r with Raises (GitOperationError _) => true | _ => false end.

Definition find_repo : string := "https://github.com/test/find-test.git".

(** Two running deployments and a failed one, saved in this order. *)
Definition three_saved : world :=
  after (StateManager.init calm;;
         StateManager.save calm
           (_make_record "dep-20260218-run001" RUNNING find_repo 8500);;
         StateManager.save calm
           (_make_record "dep-20260218-run002" RUNNING find_repo 8501);;
         StateManager.save calm
           (_make_record "dep-20260218-fail01" FAILED find_repo 8502))
        fresh.

(** [index["deployments"]] in that state *)
Definition three_saved_index : list Entry.t :=
  match files three_saved !! StateManager.index_file with
  | Some (Fs.Whole (Fs.IndexDoc ds)) => ds
  | _ => []
  end.

(** A directory in which the file of a listed deployment holds the record
    of another identifier.  For [pathlib] the identifiers
    [./dep-20260218-run001] and [dep-20260218-run001] name one file; this
    is the directory after [save] of a running record of the first
    identifier and then of one of the second: both are listed, and the
    one file holds the record saved last. *)
Definition misfiled : world :=
  {| files :=
       <[StateManager.deployment_file "./dep-20260218-run001"
         := Fs.Whole (Fs.RecordDoc
                        (_make_record "dep-20260218-run001" RUNNING find_repo 8500))]>
       (<[StateManager.deployment_file "dep-20260218-run001"
          := Fs.Whole (Fs.RecordDoc
                         (_make_record "dep-20260218-run001" RUNNING find_repo 8500))]>
        (<[StateManager.index_file
           := Fs.Whole (Fs.IndexDoc
                          [ {| Entry.deployment_id := "./dep-20260218-run001";
                               Entry.status := "running";
                               Entry.repo_url := find_repo;
                               Entry.updated_at := "2026-02-18T12:34:02.250000" |};
                            {| Entry.deployment_id := "dep-20260218-run001";
                               Entry.status := "running";
                               Entry.repo_url := find_repo;
                               Entry.updated_at := "2026-02-18T12:34:04.250000" |} ])]>
           ∅));
     tick := 0;
     calls := [] |}.

(** An index with two running deployments of one repository updated at
    the same instant. *)
Definition tied_index : list Entry.t :=
  [ {| Entry.deployment_id := "dep-20260218-aaa111";
       Entry.status := "running";
       Entry.repo_url := find_repo;
       Entry.updated_at := "2026-02-18T12:34:02.250000" |};
    {| Entry.deployment_id := "dep-20260218-bbb222";
       Entry.status := "running";
       Entry.repo_url := find_repo;
       Entry.updated_at := "2026-02-18T12:34:02.250000" |} ].

Definition tied : world :=
  {| files := <[StateManager.index_file := Fs.Whole (Fs.IndexDoc tied_index)]> ∅;
     tick := 0;
     calls := [] |}.

(** Scenario S1 of the specification: [hello:v1] deployed as [hello-demo]
    on port 8080, with nothing else supplied. *)
Definition hello_demo : DockerTools.arguments :=
  {| DockerTools.image_tag := "hello:v1";
     DockerTools.container_name := "hello-demo";
     DockerTools.host_port := Some 8080;
     DockerTools.container_port := 8000;
     DockerTools.env_vars := None;
     DockerTools.repo_url := None;
     DockerTools.branch := None;
     DockerTools.commit_sha := None;
     DockerTools.project_type := None;
     DockerTools.deployment_id := None |}.

(** The same call with an environment variable added. *)
Definition with_env_vars (a : DockerTools.arguments) (e : list (string * string))
  : DockerTools.arguments :=
  {| DockerTools.image_tag := DockerTools.image_tag a;
     DockerTools.container_name := DockerTools.container_name a;
     DockerTools.host_port := DockerTools.host_port a;
     DockerTools.container_port := DockerTools.container_port a;
     DockerTools.env_vars := Some e;
     DockerTools.repo_url := DockerTools.repo_url a;
     DockerTools.branch := DockerTools.branch a;
     DockerTools.commit_sha := DockerTools.commit_sha a;
     DockerTools.project_type := DockerTools.project_type a;
     DockerTools.deployment_id := DockerTools.deployment_id a |}.

(** The same call with the four descriptive arguments left out. *)
Definition omit_metadata (a : DockerTools.arguments) : DockerTools.arguments :=
  {| DockerTools.image_tag := DockerTools.image_tag a;
     DockerTools.container_name := DockerTools.container_name a;
     DockerTools.host_port := DockerTools.host_port a;
     DockerTools.container_port := DockerTools.container_port a;
     DockerTools.env_vars := DockerTools.env_vars a;
     DockerTools.repo_url := None;
     DockerTools.branch := None;
     DockerTools.commit_sha := None;
     DockerTools.project_type := None;
     DockerTools.deployment_id := DockerTools.deployment_id a |}.

(** The same call on another host port, or on none. *)
Definition on_host_port (a : DockerTools.arguments) (p : option Z)
  : DockerTools.arguments :=
  {| DockerTools.image_tag := DockerTools.image_tag a;
     DockerTools.container_name := DockerTools.container_name a;
     DockerTools.host_port := p;
     DockerTools.container_port := DockerTools.container_port a;
     DockerTools.env_vars := DockerTools.env_vars a;
     DockerTools.repo_url := DockerTools.repo_url a;
     DockerTools.branch := DockerTools.branch a;
     DockerTools.commit_sha := DockerTools.commit_sha a;
     DockerTools.project_type := DockerTools.project_type a;
     DockerTools.deployment_id := DockerTools.deployment_id a |}.

(** The calm surroundings with the ports 8000 and 8001 taken. *)
Definition crowded : Env :=
  {| settings := settings calm;
     utcnow := utcnow calm;
     mkstemp := mkstemp calm;
     write_fault := write_fault calm;
     port_bindable := fun p => negb (p =? 8000) && negb (p =? 8001);
     docker_ping := docker_ping calm;
     engine_run := engine_run calm;
     engine_stop := engine_stop calm;
     engine_reload := engine_reload calm |}.

(** The surroundings [env] with the port [p] taken. *)
Definition taken (env : Env) (p : Z) : Env :=
  {| settings := settings env;
     utcnow := utcnow env;
     mkstemp := mkstemp env;
     write_fault := write_fault env;
     port_bindable := fun q => negb (q =? p) && port_bindable env q;
     docker_ping := docker_ping env;
     engine_run := engine_run env;
     engine_stop := engine_stop env;
     engine_reload := engine_reload env |}.

(** [test_semicolon_in_value_raises] of [tests/unit/test_validation.py] *)
Definition injection : list (string * string) := [("CMD", "echo hello; rm -rf /")].

(** The environments the container engine was asked to run with. *)
Definition environments_run (w : world) : list (list (string * string)) :=
  flat_map (fun c => match c with
                     | Docker.Run args => [Docker.environment args]
                     | Docker.StopRemove _ => []
                     end) (calls w).

(** The two branches of [rollback] on the state of [three_saved], where
    the failed deployment used port 8502 and the previous one uses 8501. *)
Definition rolled_back_by_id : result LifecycleTools.rolled_back * world :=
  LifecycleTools.rollback calm (Some "dep-20260218-fail01") None three_saved.

Definition rolled_back_by_url : result LifecycleTools.rolled_back * world :=
  LifecycleTools.rollback calm None (Some find_repo) three_saved.

(** A service that answers 503 to the first request and 200 from the
    second on, every request lasting a tenth of a second. *)
Definition warming_up : HealthTools.peer :=
  {| HealthTools.answer := fun n =>
       match n with
       | 1%nat => HealthTools.Status 503
       | _ => HealthTools.Status 200
       end;
     HealthTools.took := fun _ => (1 # 10)%Q |}.

End Fixtures.

(* ===================================================================== *)
(** * Properties of the string operations *)
(* ===================================================================== *)

Module StrFacts.
Import Str.

Lemma append_cons a s t : String a s +:+ t = String a (s +:+ t).
Proof. reflexivity. Qed.

Lemma append_nil s : "" +:+ s = s.
Proof. reflexivity. Qed.

Lemma all_app p s t : all p (s +:+ t) = all p s && all p t.
Proof.
  induction s as [|a s IH]; simpl; [reflexivity|].
  rewrite IH. apply andb_assoc.
Qed.

Lemma all_impl (p q : ascii -> bool) s :
  (forall a, p a = true -> q a = true) -> all p s = true -> all q s = true.
Proof.
  intros Hpq. induction s as [|a s IH]; simpl; [reflexivity|].
  intros [Ha Hs]%andb_true_iff. rewrite (Hpq _ Ha), (IH Hs). reflexivity.
Qed.

Lemma contains_app c s t : contains c (s +:+ t) = contains c s || contains c t.
Proof.
  induction s as [|a s IH]; simpl; [reflexivity|].
  rewrite IH. apply orb_assoc.
Qed.

(** A string none of whose characters is [c] does not contain [c]. *)
Lemma all_not_contains (p : ascii -> bool) c s :
  p c = false -> all p s = true -> contains c s = false.
Proof.
  intros Hc. induction s as [|a s IH]; simpl; [reflexivity|].
  intros [Ha Hs]%andb_true_iff. rewrite (IH Hs), orb_false_r.
  destruct (Ascii.eqb_spec a c) as [->|]; congruence.
Qed.

(** Splitting [h ++ c ++ t] at the first [c], when [h] has no [c]. *)
Lemma split_once_app c h t :
  contains c h = false -> split_once c (h +:+ String c t) = (h, t).
Proof.
  induction h as [|a h IH]; simpl.
  - intros _. rewrite Ascii.eqb_refl. reflexivity.
  - intros [Ha Hh]%orb_false_iff. rewrite Ha, (IH Hh). reflexivity.
Qed.

Lemma chomp_app s s' : chomp s = Some s' -> s = s' +:+ String "010"%char "".
Proof.
  revert s'. induction s as [|a s IH]; simpl; [discriminate|].
  destruct s as [|b s].
  - destruct (Ascii.eqb_spec a "010"%char) as [->|]; [|discriminate].
    intros s' [= <-]. reflexivity.
  - intros s'. destruct (chomp (String b s)) as [u|]; [|discriminate].
    intros [= <-]. rewrite append_cons. f_equal. apply IH. reflexivity.
Qed.

End StrFacts.

(* ===================================================================== *)
(** * Correctness of the matcher *)
(* ===================================================================== *)

Module ReFacts.
Import Str StrFacts Re.

#[local] Hint Constructors lang : core.

Lemma append_eq_nil s t : s +:+ t = "" -> s = "" /\ t = "".
Proof. destruct s; [auto|discriminate]. Qed.

Lemma lang_seq_inv r1 r2 s :
  lang (Seq r1 r2) s -> exists s1 s2, s = s1 +:+ s2 /\ lang r1 s1 /\ lang r2 s2.
Proof. inversion 1; subst; eauto. Qed.

Lemma lang_alt_inv r1 r2 s : lang (Alt r1 r2) s -> lang r1 s \/ lang r2 s.
Proof. inversion 1; subst; auto. Qed.

Lemma lang_cls_inv p s : lang (Cls p) s -> exists a, s = String a "" /\ p a = true.
Proof. inversion 1; subst; eauto. Qed.

Lemma lang_eps_inv s : lang Eps s -> s = "".
Proof. inversion 1; auto. Qed.

Lemma lang_void_inv s : ~ lang Void s.
Proof. inversion 1. Qed.

Lemma nullable_lang r : nullable r = true <-> lang r "".
Proof.
  induction r as [| |p|r1 IH1 r2 IH2|r1 IH1 r2 IH2|r IH]; simpl.
  - split; [discriminate|intros []%lang_void_inv].
  - split; auto.
  - split; [discriminate|intros (a & E & _)%lang_cls_inv; discriminate].
  - rewrite andb_true_iff, IH1, IH2. split.
    + intros [H1 H2]. change "" with ("" +:+ ""). auto.
    + intros (s1 & s2 & E & H1 & H2)%lang_seq_inv. symmetry in E.
      apply append_eq_nil in E as [-> ->]. auto.
  - rewrite orb_true_iff, IH1, IH2. split.
    + intros [?|?]; auto.
    + intros [?|?]%lang_alt_inv; auto.
  - split; auto.
Qed.

(** A non-empty word of [r*] starts with a non-empty word of [r]. *)
Lemma lang_star_cons r a s :
  lang (Star r) (String a s) ->
  exists s1 s2, s = s1 +:+ s2 /\ lang r (String a s1) /\ lang (Star r) s2.
Proof.
  intros H. remember (Star r) as r' eqn:Er. remember (String a s) as w eqn:Ew.
  revert r a s Er Ew.
  induction H as [| | | | | |r0 s1 s2 H1 _ H2 IH2]; intros r1' a1 w1 Er Ew;
    try discriminate.
  injection Er as ->. destruct s1 as [|b s1].
  - simpl in Ew. apply (IH2 _ _ _ eq_refl Ew).
  - injection Ew as -> <-. eauto.
Qed.

Lemma deriv_lang a r s : lang (deriv a r) s <-> lang r (String a s).
Proof.
  revert s.
  induction r as [| |p|r1 IH1 r2 IH2|r1 IH1 r2 IH2|r IH]; intros s; simpl.
  - split; intros []%lang_void_inv.
  - split; [intros []%lang_void_inv|intros [=]%lang_eps_inv].
  - destruct (p a) eqn:Hp; split.
    + intros ->%lang_eps_inv. auto.
    + intros (b & [= <- ->] & _)%lang_cls_inv. auto.
    + intros []%lang_void_inv.
    + intros (b & [= <- ->] & Hb)%lang_cls_inv. congruence.
  - assert (Hl : forall t, lang (Seq (deriv a r1) r2) t -> lang (Seq r1 r2) (String a t)).
    { intros t (s1 & s2 & -> & H1 & H2)%lang_seq_inv.
      apply IH1 in H1. rewrite <- append_cons. auto. }
    assert (Hr : forall t, lang (Seq r1 r2) (String a t) ->
               lang (Seq (deriv a r1) r2) t \/ (lang r1 "" /\ lang (deriv a r2) t)).
    { intros t (s1 & s2 & E & H1 & H2)%lang_seq_inv.
      destruct s1 as [|b s1].
      - rewrite append_nil in E. subst s2. right. split; [auto|]. apply IH2. auto.
      - injection E as <- ->. left. apply IH1 in H1. auto. }
    destruct (nullable r1) eqn:Hn; split.
    + intros [H|H]%lang_alt_inv; [auto|].
      apply nullable_lang in Hn. change (String a s) with ("" +:+ String a s).
      constructor; [auto|]. apply IH2. auto.
    + intros [H|[_ H]]%Hr; auto.
    + auto.
    + intros [H|[H _]]%Hr; [auto|].
      apply nullable_lang in H. congruence.
  - split.
    + intros [H|H]%lang_alt_inv; [apply lang_alt_l, IH1|apply lang_alt_r, IH2]; auto.
    + intros [H|H]%lang_alt_inv; [apply lang_alt_l, IH1|apply lang_alt_r, IH2]; auto.
  - split.
    + intros (s1 & s2 & -> & H1 & H2)%lang_seq_inv.
      apply IH in H1. rewrite <- append_cons. auto.
    + intros (s1 & s2 & -> & H1 & H2)%lang_star_cons.
      apply IH in H1. auto.
Qed.

(** The matcher decides membership in the language. *)
Theorem fullmatch_lang r s : fullmatch r s = true <-> lang r s.
Proof.
  revert r. induction s as [|a s IH]; intros r; simpl.
  - apply nullable_lang.
  - rewrite IH. apply deriv_lang.
Qed.

(** [re_match] finds a prefix in the language. *)
Theorem re_match_lang r s :
  re_match r s = true <-> exists p t, s = p +:+ t /\ lang r p.
Proof.
  revert r. induction s as [|a s IH]; intros r; simpl.
  - rewrite orb_false_r, nullable_lang. split.
    + intros H. exists "", "". auto.
    + intros (p & t & E & H). symmetry in E.
      apply append_eq_nil in E as [-> _]. auto.
  - rewrite orb_true_iff, nullable_lang, IH. split.
    + intros [H|(p & t & -> & H)].
      * exists "", (String a s). auto.
      * exists (String a p), t. split; [reflexivity|]. apply deriv_lang. auto.
    + intros (p & t & E & H). destruct p as [|b p]; [auto|].
      injection E as -> ->. right. exists p, t. split; [reflexivity|].
      apply deriv_lang. auto.
Qed.

Lemma lang_alphabet r s : lang r s -> Str.all (alphabet r) s = true.
Proof.
  induction 1 as [|p a Hp|r1 r2 s1 s2 _ IH1 _ IH2|r1 r2 s _ IH|r1 r2 s _ IH
                 |r|r s1 s2 _ IH1 _ IH2].
  - reflexivity.
  - simpl. rewrite Hp. reflexivity.
  - rewrite all_app. apply andb_true_iff. split.
    + eapply all_impl; [|exact IH1]. simpl. intros a ->. reflexivity.
    + eapply all_impl; [|exact IH2]. simpl. intros a ->. apply orb_true_r.
  - eapply all_impl; [|exact IH]. simpl. intros a ->. reflexivity.
  - eapply all_impl; [|exact IH]. simpl. intros a ->. apply orb_true_r.
  - reflexivity.
  - rewrite all_app. apply andb_true_iff. split.
    + eapply all_impl; [|exact IH1]. intros a Ha. exact Ha.
    + exact IH2.
Qed.

(** A string accepted by ['^r$'] consists of characters of [r] and possibly
    one final newline. *)
Lemma re_match_eol_chars r s :
  re_match_eol r s = true ->
  Str.all (fun a => alphabet r a || Ascii.eqb a newline) s = true.
Proof.
  unfold re_match_eol. intros [H|H]%orb_true_iff.
  - apply fullmatch_lang, lang_alphabet in H.
    eapply all_impl; [|exact H]. intros a ->. reflexivity.
  - destruct (Str.chomp s) as [s'|] eqn:E; [|discriminate].
    apply chomp_app in E as ->.
    apply fullmatch_lang, lang_alphabet in H.
    rewrite all_app. apply andb_true_iff. split.
    + eapply all_impl; [|exact H]. intros a ->. reflexivity.
    + simpl. rewrite orb_true_r. reflexivity.
Qed.

(** A character outside the classes of [r], other than the newline, does
    not occur in a string accepted by ['^r$']. *)
Lemma re_match_eol_excludes r c s :
  alphabet r c = false -> Ascii.eqb c newline = false ->
  re_match_eol r s = true -> Str.contains c s = false.
Proof.
  intros Hc Hn H. eapply all_not_contains; [|apply re_match_eol_chars, H].
  simpl. rewrite Hc, Hn. reflexivity.
Qed.

End ReFacts.

(* ===================================================================== *)
(** * Validators: unit tests and properties *)
(* ===================================================================== *)

Module ValidationTests.
Import Validation.

(** The unit tests of [tests/unit/test_validation.py]. *)
Example test_name_with_version :
  validate_image_tag "myapp:v1.0" = Returns "myapp:v1.0".
Proof. reflexivity. Qed.

Example test_name_without_version_gets_latest :
  validate_image_tag "myapp" = Returns "myapp:latest".
Proof. reflexivity. Qed.

Example test_with_registry_prefix :
  validate_image_tag "registry/myapp:v1.0" = Returns "registry/myapp:v1.0".
Proof. reflexivity. Qed.

Example test_uppercase_name_raises :
  is_ValidationError (validate_image_tag "MyApp:v1.0") = true.
Proof. reflexivity. Qed.

Example test_version_with_special_chars_raises :
  is_ValidationError (validate_image_tag "myapp:v1.0@sha256") = true.
Proof. reflexivity. Qed.

Example test_single_char_raises :
  is_ValidationError (validate_container_name "a") = true.
Proof. reflexivity. Qed.

Example test_valid_deployment_id :
  validate_deployment_id "dep-20260218-abc123" = Returns "dep-20260218-abc123".
Proof. reflexivity. Qed.

Example test_uppercase_deployment_id_raises :
  is_ValidationError (validate_deployment_id "dep-20260218-ABC123") = true.
Proof. reflexivity. Qed.

Example test_wrong_date_format_raises :
  is_ValidationError (validate_deployment_id "dep-2026-02-18-abc123") = true.
Proof. reflexivity. Qed.

Example test_semicolon_injection_raises :
  is_ValidationError
    (sanitize_environment_variables [("CMD", "echo hello; rm -rf /")]) = true.
Proof. reflexivity. Qed.

Example test_backtick_injection_raises :
  is_ValidationError (sanitize_environment_variables [("CMD", "`rm -rf /`")]) = true.
Proof. reflexivity. Qed.

Example test_invalid_key_raises :
  is_ValidationError (sanitize_environment_variables [("app-env", "prod")]) = true.
Proof. reflexivity. Qed.

Example test_valid_env_vars :
  sanitize_environment_variables [("APP_ENV", "production"); ("PORT", "8080")]
  = Returns [("APP_ENV", "production"); ("PORT", "8080")].
Proof. reflexivity. Qed.

End ValidationTests.

Section ImageTagProperties.
Import Re ReFacts Validation.

(** An image name accepted by [name_pattern] has no colon. *)
Lemma name_pattern_no_colon name :
  re_match_eol name_pattern name = true -> Str.contains ":" name = false.
Proof. apply re_match_eol_excludes; reflexivity. Qed.

(** The value [validate_image_tag] returns is [name:version] for an
    accepted name and an accepted version. *)
Lemma validate_image_tag_returns tag out :
  validate_image_tag tag = Returns out ->
  exists name version,
    out = name +:+ ":" +:+ version /\
    re_match_eol name_pattern name = true /\
    re_match_eol version_pattern version = true.
Proof.
  unfold validate_image_tag.
  destruct (if Str.contains ":" tag then _ else _) as [name version].
  destruct (re_match_eol name_pattern name) eqn:Hn; [|discriminate].
  destruct (re_match_eol version_pattern version) eqn:Hv; [|discriminate].
  simpl. intros [= <-]. eauto.
Qed.

(** Re-validating [name:version] splits it at the same colon. *)
Lemma validate_image_tag_composed name version :
  re_match_eol name_pattern name = true ->
  re_match_eol version_pattern version = true ->
  validate_image_tag (name +:+ ":" +:+ version) = Returns (name +:+ ":" +:+ version).
Proof.
  intros Hn Hv. unfold validate_image_tag.
  assert (Hc : Str.contains ":" (name +:+ ":" +:+ version) = true).
  { rewrite StrFacts.contains_app. simpl. apply orb_true_r. }
  rewrite Hc.
  change (name +:+ ":" +:+ version) with (name +:+ String ":" version) at 1.
  rewrite (StrFacts.split_once_app _ _ _ (name_pattern_no_colon _ Hn)).
  rewrite Hn, Hv. reflexivity.
Qed.

(** C5.  Whatever [validate_image_tag] returns contains a colon and is a
    fixed point: validating it again is accepted and returns it
    unchanged. *)
Theorem validate_image_tag_idempotent (tag out : string) :
  validate_image_tag tag = Returns out ->
  Str.contains ":" out = true /\ validate_image_tag out = Returns out.
Proof.
  intros (name & version & -> & Hn & Hv)%validate_image_tag_returns. split.
  - rewrite StrFacts.contains_app. simpl. apply orb_true_r.
  - apply validate_image_tag_composed; assumption.
Qed.

Lemma validate_image_tag_idempotent_witness :
  Str.contains ":" "myapp:latest" = true /\
  validate_image_tag "myapp:latest" = Returns "myapp:latest".
Proof.
  apply (validate_image_tag_idempotent "myapp" "myapp:latest"). reflexivity.
Defined.

(** The [$] of the patterns lets a final newline through; the result is a
    fixed point all the same. *)
Example image_tag_with_final_newline :
  validate_image_tag ("myapp" +:+ String Re.newline "")
  = Returns ("myapp" +:+ String Re.newline "" +:+ ":latest").
Proof. reflexivity. Qed.

End ImageTagProperties.

(* ===================================================================== *)
(** * Git URL validation: unit tests and the injection property *)
(* ===================================================================== *)

Module GitUtilsTests.
Import GitUtils Fixtures.

Example test_https_github_allowed :
  validate_git_url "https://github.com/user/repo.git" ALLOWED = Returns tt.
Proof. reflexivity. Qed.

Example test_git_at_github_allowed :
  validate_git_url "git@github.com:user/repo.git" ALLOWED = Returns tt.
Proof. reflexivity. Qed.

Example test_disallowed_host_raises :
  validate_git_url "https://bitbucket.org/user/repo.git" ALLOWED
  = Raises (GitOperationError "Git host bitbucket.org not in allowed list").
Proof. reflexivity. Qed.

Example test_file_scheme_raises :
  is_GitOperationError (validate_git_url "file:///tmp/repo" ALLOWED) = true.
Proof. reflexivity. Qed.

Example test_semicolon_injection_url_raises :
  validate_git_url "https://github.com/user/repo.git;rm -rf /" ALLOWED
  = Raises (GitOperationError "Git URL contains dangerous characters").
Proof. reflexivity. Qed.

(** The leftmost match wins, and a match needs a non-empty host. *)
Example search_skips_empty_host :
  search_group ["git@"] ":" "git@:git@example.org:x" = Some "example.org".
Proof. reflexivity. Qed.

End GitUtilsTests.

Section GitUrlProperties.
Import GitUtils.

(** C7.  A URL that contains one of the characters [;], [|], [&],
    [`] or [$] is rejected by [validate_git_url] with a
    [GitOperationError], for every list of allowed hosts: whatever its
    scheme is and whether or not its host is allowed. *)
Theorem validate_git_url_rejects_dangerous (url : string) (allowed_hosts : list string) (c : ascii) :
  In c [";"; "|"; "&"; "`"; "$"]%char ->
  Str.contains c url = true ->
  exists msg, validate_git_url url allowed_hosts = Raises (GitOperationError msg).
Proof.
  intros Hc Hin. unfold validate_git_url.
  destruct (negb _); [eauto|].
  assert (Hd : existsb (fun char => Str.contains char url) dangerous_chars = true).
  { apply existsb_exists. exists c. split; [|exact Hin].
    unfold dangerous_chars. simpl in *. intuition. }
  rewrite Hd. eauto.
Qed.

Lemma validate_git_url_rejects_dangerous_witness :
  exists msg,
    validate_git_url "https://github.com/u/r.git;rm -rf /" ["github.com"; "gitlab.com"]
    = Raises (GitOperationError msg).
Proof.
  apply (validate_git_url_rejects_dangerous _ _ ";"%char).
  - simpl. auto.
  - reflexivity.
Defined.

End GitUrlProperties.

(* ===================================================================== *)
(** * The atomic write *)
(* ===================================================================== *)

Section AtomicWrite.
Import Fs StateManager.

Implicit Types (d : dir) (data : document).

(** Unlinking the temporary file undoes its creation. *)
Lemma cleanup_created tmp_path d (f : file) :
  d !! tmp_path = None -> cleanup tmp_path (<[tmp_path := f]> d) = d.
Proof.
  intros Hfresh. unfold cleanup.
  rewrite lookup_insert_eq. apply delete_insert_id, Hfresh.
Qed.

(** The rename moves the whole text under the target name. *)
Lemma os_replace_written tmp_path filepath d (f : file) :
  d !! tmp_path = None ->
  os_replace tmp_path filepath (<[tmp_path := f]> d) = <[filepath := f]> d.
Proof.
  intros Hfresh. unfold os_replace.
  rewrite lookup_insert_eq, delete_insert_id by exact Hfresh. reflexivity.
Qed.

(** The steps of a write whose temporary name is free. *)
Lemma _atomic_write_json_steps_fresh tmp_path flt filepath data d :
  d !! tmp_path = None ->
  _atomic_write_json_steps tmp_path flt filepath data d =
  let created := <[tmp_path := Torn data]> d in
  let written := <[tmp_path := Whole data]> d in
  let failed := Raises (ConfigurationError ("Failed to write " +:+ filepath)) in
  match flt with
  | DumpFails | FlushFails => (failed, [created; d])
  | FsyncFails | ReplaceFails => (failed, [created; written; d])
  | NoFault => (Returns tt, [created; written; <[filepath := Whole data]> d])
  end.
Proof.
  intros Hfresh. unfold _atomic_write_json_steps. rewrite Hfresh.
  rewrite insert_insert_eq.
  rewrite !cleanup_created, os_replace_written by exact Hfresh.
  destruct flt; reflexivity.
Qed.

(** C2.  [_atomic_write_json] is atomic with respect to errors.  Let the
    temporary file be created (its name is free in the directory) and let
    the write meet any fault: in [json.dump], [flush], [fsync] or
    [os.replace].
    - When there is a fault, the call raises [ConfigurationError] and
      leaves the directory as it found it: the temporary file is unlinked
      and the target has its previous content.
    - Without a fault the call returns and the target holds the whole
      new document.
    - In every state of the directory that the call goes through, the
      target (a name other than the temporary one) has its previous
      content, or else the whole new document, and the latter only in the
      state that the completed [os.replace] produces; so a target that was
      not torn before is never observed torn. *)
Theorem atomic_write_is_atomic tmp_path flt filepath data d :
  d !! tmp_path = None ->
  let r := fst (_atomic_write_json_steps tmp_path flt filepath data d) in
  let steps := snd (_atomic_write_json_steps tmp_path flt filepath data d) in
  (flt <> NoFault ->
     (exists msg, r = Raises (ConfigurationError msg)) /\
     final d steps !! tmp_path = None /\
     final d steps !! filepath = d !! filepath /\
     final d steps = d) /\
  (flt = NoFault ->
     r = Returns tt /\ final d steps !! filepath = Some (Whole data)) /\
  (tmp_path <> filepath ->
     Forall (fun d' =>
               (d' !! filepath = d !! filepath \/
                (d' !! filepath = Some (Whole data) /\
                 flt = NoFault /\ d' = final d steps)) /\
               (forall x, d' !! filepath = Some (Torn x) ->
                          d !! filepath = Some (Torn x)))
            steps).
Proof.
  intros Hfresh r steps. subst r steps.
  rewrite (_atomic_write_json_steps_fresh _ _ _ _ _ Hfresh).
  assert (Hother : forall f, tmp_path <> filepath ->
            <[tmp_path := f]> d !! filepath = d !! filepath).
  { intros f Hne. apply lookup_insert_ne, Hne. }
  split; [|split].
  - intros Hflt. destruct flt; try congruence; cbn; eauto.
  - intros ->. cbn. split; [reflexivity|]. apply lookup_insert_eq.
  - intros Hne.
    destruct flt; cbn;
      repeat (apply Forall_cons; split); try (apply Forall_nil; exact I);
      try solve [ split; [left|intros x]; rewrite ?Hother by exact Hne; auto ].
    rewrite lookup_insert_eq. split; [right; auto|discriminate].
Qed.

(** The theorem at a failing [fsync] of the index. *)
Lemma atomic_write_is_atomic_witness :
  final {[ "index.json" := Whole (IndexDoc []) ]}
    (snd (_atomic_write_json_steps ".tmp_k3x9q2ab.json" FsyncFails "index.json"
            (IndexDoc []) {[ "index.json" := Whole (IndexDoc []) ]}))
  = {[ "index.json" := Whole (IndexDoc []) ]}.
Proof.
  assert (Hfresh : ({[ "index.json" := Whole (IndexDoc []) ]} : dir)
                     !! ".tmp_k3x9q2ab.json" = None) by reflexivity.
  destruct (atomic_write_is_atomic ".tmp_k3x9q2ab.json" FsyncFails "index.json"
              (IndexDoc []) {[ "index.json" := Whole (IndexDoc []) ]} Hfresh)
    as [H _].
  apply H. discriminate.
Defined.

End AtomicWrite.

(* ===================================================================== *)
(** * The state store *)
(* ===================================================================== *)

Module MonadFacts.

(** A sequence returns when both parts do. *)
Lemma bind_returns {A B} (m : M A) (k : A -> M B) w b w' :
  (m ≫= k) w = (Returns b, w') ->
  exists a w1, m w = (Returns a, w1) /\ k a w1 = (Returns b, w').
Proof.
  unfold mbind, M_bind. destruct (m w) as [[a|e] w1]; [eauto|discriminate].
Qed.

Lemma bind_step {A B} (m : M A) (k : A -> M B) w a w1 :
  m w = (Returns a, w1) -> (m ≫= k) w = k a w1.
Proof. unfold mbind, M_bind. intros ->. reflexivity. Qed.

Lemma bind_raises {A B} (m : M A) (k : A -> M B) w e w1 :
  m w = (Raises e, w1) -> (m ≫= k) w = (Raises e, w1).
Proof. unfold mbind, M_bind. intros ->. reflexivity. Qed.

End MonadFacts.

Module StringOrder.

Lemma ascii_compare_lt_trans a b c :
  Ascii.compare a b = Lt -> Ascii.compare b c = Lt -> Ascii.compare a c = Lt.
Proof.
  unfold Ascii.compare. rewrite !N.compare_lt_iff. lia.
Qed.

Lemma compare_lt_trans s1 : forall s2 s3,
  String.compare s1 s2 = Lt -> String.compare s2 s3 = Lt -> String.compare s1 s3 = Lt.
Proof.
  induction s1 as [|a s1 IH]; intros [|b s2] [|c s3]; simpl;
    try discriminate; try reflexivity.
  destruct (Ascii.compare a b) eqn:Eab; try discriminate;
    destruct (Ascii.compare b c) eqn:Ebc; try discriminate; intros H1 H2.
  - apply Ascii.compare_eq_iff in Eab, Ebc. subst.
    unfold Ascii.compare. rewrite N.compare_refl. eauto.
  - apply Ascii.compare_eq_iff in Eab. subst. rewrite Ebc. reflexivity.
  - apply Ascii.compare_eq_iff in Ebc. subst. rewrite Eab. reflexivity.
  - rewrite (ascii_compare_lt_trans _ _ _ Eab Ebc). reflexivity.
Qed.

Lemma compare_refl s : String.compare s s = Eq.
Proof.
  pose proof (String.compare_antisym s s) as H.
  destruct (String.compare s s); simpl in H; congruence.
Qed.

Lemma leb_trans s1 s2 s3 :
  String.leb s1 s2 = true -> String.leb s2 s3 = true -> String.leb s1 s3 = true.
Proof.
  unfold String.leb.
  destruct (String.compare s1 s2) eqn:E12; try discriminate;
    destruct (String.compare s2 s3) eqn:E23; try discriminate; intros _ _.
  - apply String.compare_eq_iff in E12. rewrite E12, E23. reflexivity.
  - apply String.compare_eq_iff in E12. rewrite E12, E23. reflexivity.
  - apply String.compare_eq_iff in E23. rewrite <- E23, E12. reflexivity.
  - rewrite (compare_lt_trans _ _ _ E12 E23). reflexivity.
Qed.

Lemma leb_refl s : String.leb s s = true.
Proof. destruct (String.leb_total s s); assumption. Qed.

Lemma ltb_leb s1 s2 : String.ltb s1 s2 = true -> String.leb s1 s2 = true.
Proof. unfold String.ltb, String.leb. destruct (String.compare s1 s2); auto. Qed.

Lemma ltb_false_leb s1 s2 : String.ltb s1 s2 = false -> String.leb s2 s1 = true.
Proof.
  unfold String.ltb, String.leb. rewrite (String.compare_antisym s2 s1).
  destruct (String.compare s1 s2); simpl; congruence.
Qed.

End StringOrder.

Module StoreFacts.
Import Fs StateManager MonadFacts.

Implicit Types (w : world) (env : Env).

(** ** Writes and reads *)

(** A write that returns has put the whole document under its name and
    nothing else has changed. *)
Lemma atomic_write_returns env filepath data w w' :
  _atomic_write_json env filepath data w = (Returns tt, w') ->
  w' = next_tick (set_files (<[filepath := Whole data]> (files w)) w).
Proof.
  unfold _atomic_write_json.
  destruct (files w !! mkstemp env (tick w)) as [f|] eqn:Hfresh.
  - unfold _atomic_write_json_steps. rewrite Hfresh. discriminate.
  - rewrite (_atomic_write_json_steps_fresh _ _ _ _ _ Hfresh).
    destruct (write_fault env (tick w)); cbn; try discriminate.
    intros [= <-]. reflexivity.
Qed.

(** A write that raises leaves the files as they were. *)
Lemma atomic_write_raises env filepath data w e w' :
  _atomic_write_json env filepath data w = (Raises e, w') ->
  files w' = files w.
Proof.
  unfold _atomic_write_json.
  destruct (files w !! mkstemp env (tick w)) as [f|] eqn:Hfresh.
  - unfold _atomic_write_json_steps. rewrite Hfresh. intros [= _ <-]. reflexivity.
  - rewrite (_atomic_write_json_steps_fresh _ _ _ _ _ Hfresh).
    destruct (write_fault env (tick w)); cbn; try discriminate;
      intros [= _ <-]; reflexivity.
Qed.

Lemma read_json_returns filepath w doc w' :
  _read_json filepath w = (Returns doc, w') ->
  w' = w /\ files w !! filepath = Some (Whole doc).
Proof.
  unfold _read_json. destruct (files w !! filepath) as [[d|d]|]; try discriminate.
  intros [= <- <-]. auto.
Qed.

Lemma read_json_whole filepath w doc :
  files w !! filepath = Some (Whole doc) ->
  _read_json filepath w = (Returns doc, w).
Proof. unfold _read_json. intros ->. reflexivity. Qed.

Lemma deployments_of_returns index w ds w' :
  deployments_of index w = (Returns ds, w') -> index = IndexDoc ds /\ w' = w.
Proof. destruct index; [discriminate|]. intros [= <- <-]. auto. Qed.

(** [load] reads the file of the identifier. *)
Lemma load_returns_some deployment_id w r w' :
  load deployment_id w = (Returns (Some r), w') ->
  files w !! deployment_file deployment_id = Some (Whole (RecordDoc r)).
Proof.
  unfold load. intros (e & w1 & He & H)%bind_returns.
  unfold exists_ in He. injection He as <- <-.
  destruct (bool_decide _); simpl in H; [|discriminate].
  apply bind_returns in H as (doc & w2 & (-> & Hdoc)%read_json_returns & H).
  destruct doc; [|discriminate]. injection H as <- _. exact Hdoc.
Qed.

(** ** The sort *)

Section SortFacts.
Context {A : Type} (key : A -> string).

Lemma insert_desc_not_nil x l : insert_desc key x l <> [].
Proof. destruct l; simpl; [|destruct (String.ltb _ _)]; discriminate. Qed.

Lemma sort_desc_nil l : sort_desc key l = [] -> l = [].
Proof.
  destruct l as [|x l]; [reflexivity|]. simpl.
  intros H. destruct (insert_desc_not_nil _ _ H).
Qed.

(** The first element after sorting is an element of greatest key. *)
Lemma sort_desc_head l h t :
  sort_desc key l = h :: t ->
  In h l /\ forall x, In x l -> String.leb (key x) (key h) = true.
Proof.
  revert h t. induction l as [|a l IH]; intros h t; simpl; [discriminate|].
  destruct (sort_desc key l) as [|h' t'] eqn:Hs.
  - apply sort_desc_nil in Hs as ->. simpl. intros [= <- _].
    split; [auto|]. intros x [<-|[]]. apply StringOrder.leb_refl.
  - destruct (IH _ _ eq_refl) as [Hin Hmax]. simpl.
    destruct (String.ltb (key a) (key h')) eqn:Hlt; intros [= <- _].
    + split; [auto|]. intros x [<-|Hx]; [|auto].
      apply StringOrder.ltb_leb, Hlt.
    + split; [auto|]. intros x [<-|Hx]; [apply StringOrder.leb_refl|].
      eapply StringOrder.leb_trans; [apply Hmax, Hx|].
      apply StringOrder.ltb_false_leb, Hlt.
Qed.

Lemma sort_desc_of_nil : sort_desc key [] = [].
Proof. reflexivity. Qed.
End SortFacts.

(** ** The index after an update *)

(** Filtering out an identifier and appending one entry for it leaves
    exactly that entry under the identifier. *)
Lemma one_entry_after_update (ds : list Entry.t) (e : Entry.t) :
  List.filter (fun d => String.eqb (Entry.deployment_id d) (Entry.deployment_id e))
    (List.filter (fun d => negb (String.eqb (Entry.deployment_id d) (Entry.deployment_id e)))
                 ds ++ [e])
  = [e].
Proof.
  rewrite List.filter_app. simpl. rewrite String.eqb_refl.
  replace (List.filter _ (List.filter _ ds)) with (@nil Entry.t); [reflexivity|].
  symmetry. induction ds as [|d ds IH]; simpl; [reflexivity|].
  destruct (String.eqb (Entry.deployment_id d) (Entry.deployment_id e)) eqn:E; simpl.
  - exact IH.
  - rewrite E. exact IH.
Qed.

(** What [_update_index] leaves in the index file when it returns. *)
Lemma update_index_returns env deployment_id status repo_url w w' :
  _update_index env deployment_id status repo_url w = (Returns tt, w') ->
  exists ds now,
    files w !! index_file = Some (Whole (IndexDoc ds)) /\
    files w' = <[index_file :=
                  Whole (IndexDoc
                    (List.filter (fun d => negb (String.eqb (Entry.deployment_id d)
                                                             deployment_id)) ds
                     ++ [ {| Entry.deployment_id := deployment_id;
                             Entry.status := status;
                             Entry.repo_url := repo_url;
                             Entry.updated_at := Datetime.isoformat now |} ]))]>
               (files w).
Proof.
  unfold _update_index.
  intros (index & w1 & (-> & Hidx)%read_json_returns & H)%bind_returns.
  apply bind_returns in H as (ds & w2 & (-> & ->)%deployments_of_returns & H).
  apply bind_returns in H as (now & w3 & Hnow & H).
  unfold utcnow_ in Hnow. injection Hnow as <- <-.
  apply atomic_write_returns in H as ->.
  exists ds, (utcnow env (tick w)). split; [exact Hidx|reflexivity].
Qed.

End StoreFacts.

Section SaveProperties.
Import Fs StateManager MonadFacts StoreFacts Fixtures.

(** C3.  When [save(R)] returns, the index file holds an index with exactly
    one entry under [R.deployment_id], and that entry has the status and
    the repository URL of [R].  Nothing is assumed about the index before
    the call: an entry of the same identifier (or several) is replaced. *)
Theorem save_leaves_one_index_entry (env : Env) (R : Models.DeploymentRecord)
    (w w' : world) :
  save env R w = (Returns tt, w') ->
  exists ds e,
    files w' !! index_file = Some (Whole (IndexDoc ds)) /\
    List.filter (fun d => String.eqb (Entry.deployment_id d) (Models.deployment_id R)) ds
      = [e] /\
    Entry.deployment_id e = Models.deployment_id R /\
    Entry.status e = Models.value (Models.status R) /\
    Entry.repo_url e = Models.repo_url R.
Proof.
  unfold save. intros ([] & w1 & _ & H)%bind_returns.
  apply update_index_returns in H as (ds & now & _ & ->).
  eexists _, _. split; [apply lookup_insert_eq|].
  split.
  - apply (one_entry_after_update ds
             {| Entry.deployment_id := Models.deployment_id R;
                Entry.status := Models.value (Models.status R);
                Entry.repo_url := Models.repo_url R;
                Entry.updated_at := Datetime.isoformat now |}).
  - repeat split; reflexivity.
Qed.

Lemma save_leaves_one_index_entry_witness :
  exists ds e,
    files (after (save calm (upd001 Models.STOPPED)) saved_once) !! index_file
      = Some (Whole (IndexDoc ds)) /\
    List.filter (fun d => String.eqb (Entry.deployment_id d) "dep-20260218-upd001") ds
      = [e] /\
    Entry.deployment_id e = "dep-20260218-upd001" /\
    Entry.status e = "stopped" /\
    Entry.repo_url e = "https://github.com/test/app.git".
Proof.
  apply (save_leaves_one_index_entry calm (upd001 Models.STOPPED) saved_once).
  vm_compute. reflexivity.
Defined.

(** The index of that state, in full. *)
Example test_save_overwrites_same_id :
  files (after (save calm (upd001 Models.STOPPED)) saved_once) !! index_file
  = Some (Whole (IndexDoc
      [ {| Entry.deployment_id := "dep-20260218-upd001";
           Entry.status := "stopped";
           Entry.repo_url := "https://github.com/test/app.git";
           Entry.updated_at := "2026-02-18T12:34:05.250000" |} ])).
Proof. vm_compute. reflexivity. Qed.

End SaveProperties.

Section FindLatestProperties.
Import Fs StateManager MonadFacts StoreFacts Invariants Fixtures.

(** With a readable index the function sorts the candidates and loads
    the first. *)
Lemma find_latest_successful_unfold repo_url exclude w ds :
  files w !! index_file = Some (Whole (IndexDoc ds)) ->
  find_latest_successful repo_url exclude w =
  match sort_desc Entry.updated_at
          (List.filter (fun d => String.eqb (Entry.repo_url d) repo_url
                                 && String.eqb (Entry.status d) "running"
                                 && differs (Entry.deployment_id d) exclude) ds) with
  | [] => (Returns None, w)
  | latest :: _ => load (Entry.deployment_id latest) w
  end.
Proof.
  intros Hidx. unfold find_latest_successful.
  rewrite (bind_step _ _ _ _ _ (read_json_whole _ _ _ Hidx)).
  rewrite (bind_step _ _ w ds w) by reflexivity.
  destruct (sort_desc _ _); reflexivity.
Qed.

Lemma differs_spec deployment_id exclude :
  differs deployment_id exclude = true <-> exclude <> Some deployment_id.
Proof.
  destruct exclude as [x|]; simpl; [|split; [discriminate|reflexivity]].
  rewrite negb_true_iff, String.eqb_neq. split; [congruence|].
  intros H E. apply H. congruence.
Qed.

(** The candidates are the entries the claim describes. *)
Lemma candidate_spec repo_url exclude (ds : list Entry.t) d :
  In d (List.filter (fun d => String.eqb (Entry.repo_url d) repo_url
                              && String.eqb (Entry.status d) "running"
                              && differs (Entry.deployment_id d) exclude) ds)
  <-> In d ds /\ Entry.repo_url d = repo_url /\ Entry.status d = "running"
      /\ exclude <> Some (Entry.deployment_id d).
Proof.
  rewrite List.filter_In, !andb_true_iff, !String.eqb_eq, differs_spec. tauto.
Qed.

(** C4 as stated fails: the entries are filtered by their identifier, and
    the record returned is whatever the file of the chosen entry holds.
    In the directory [misfiled], with [dep-20260218-run001] excluded, the
    entry [./dep-20260218-run001] is chosen and the record loaded for it is
    the record of [dep-20260218-run001]. *)
Lemma find_latest_successful_returns_excluded :
  ~ (forall repo_url exclude w r w',
       find_latest_successful repo_url exclude w = (Returns (Some r), w') ->
       exclude <> Some (Models.deployment_id r)).
Proof.
  intros H.
  assert (E : find_latest_successful find_repo (Some "dep-20260218-run001") misfiled
              = (Returns (Some (_make_record "dep-20260218-run001" Models.RUNNING
                                  find_repo 8500)), misfiled))
    by (vm_compute; reflexivity).
  exact (H _ _ _ _ _ E eq_refl).
Qed.

(** C4, amended.  Let the index be readable, with entries [ds], and call
    an entry matching when its [repo_url] is the given one, its [status] is
    ["running"] and its [deployment_id] differs from [exclude].
    - When the record file of every entry holds the record of that
      entry's identifier (if it holds a record at all),
      [find_latest_successful] never returns a record whose
      [deployment_id] is [exclude].
    - When no entry matches it returns [None].
    - When some entry matches, it returns what [load] returns for a
      matching entry whose [updated_at] is greatest among the matching
      entries. *)
Theorem find_latest_successful_spec (repo_url : string) (exclude : option string)
    (w : world) (ds : list Entry.t) :
  files w !! index_file = Some (Whole (IndexDoc ds)) ->
  let matching d :=
    In d ds /\ Entry.repo_url d = repo_url /\ Entry.status d = "running"
    /\ exclude <> Some (Entry.deployment_id d) in
  (entries_named (files w) ds ->
   forall r w', find_latest_successful repo_url exclude w = (Returns (Some r), w') ->
                exclude <> Some (Models.deployment_id r)) /\
  ((forall d, ~ matching d) ->
   find_latest_successful repo_url exclude w = (Returns None, w)) /\
  (forall d0, matching d0 ->
   exists latest,
     matching latest /\
     (forall d, matching d ->
                String.leb (Entry.updated_at d) (Entry.updated_at latest) = true) /\
     find_latest_successful repo_url exclude w = load (Entry.deployment_id latest) w).
Proof.
  intros Hidx matching.
  rewrite (find_latest_successful_unfold _ _ _ _ Hidx).
  destruct (sort_desc _ _) as [|latest t] eqn:Hsort.
  - apply sort_desc_nil in Hsort.
    split; [|split].
    + intros _ r w'. discriminate.
    + reflexivity.
    + intros d0 Hd0%candidate_spec. rewrite Hsort in Hd0. destruct Hd0.
  - apply sort_desc_head in Hsort as [Hin Hmax].
    apply candidate_spec in Hin.
    split; [|split].
    + intros Hnamed r w' Hload%load_returns_some.
      apply (Hnamed latest r (proj1 Hin)) in Hload. rewrite Hload. apply Hin.
    + intros Hnone. destruct (Hnone latest Hin).
    + intros d0 _. exists latest. split; [exact Hin|]. split; [|reflexivity].
      intros d Hd%candidate_spec. apply Hmax, Hd.
Qed.

End FindLatestProperties.

Section DirectoryInvariant.
Import Fs StateManager MonadFacts StoreFacts Invariants.

Lemma length_append s t : String.length (s +:+ t) = (String.length s + String.length t)%nat.
Proof. induction s as [|a s IH]; [reflexivity|]. rewrite StrFacts.append_cons. simpl. lia. Qed.

(** Two identifiers with the same file name are the same identifier.
    (Of the paths that [pathlib] builds this is so for the identifiers
    without [/], which are the ones the lemmas below are used for.) *)
Lemma append_inj_l t : forall s s', s +:+ t = s' +:+ t -> s = s'.
Proof.
  induction s as [|a s IH]; intros [|b s'] E.
  - reflexivity.
  - apply (f_equal String.length) in E. rewrite !length_append in E.
    simpl in E. lia.
  - apply (f_equal String.length) in E. rewrite !length_append in E.
    simpl in E. lia.
  - rewrite !StrFacts.append_cons in E. injection E as -> E. f_equal. apply IH, E.
Qed.

Lemma deployment_file_inj id id' : deployment_file id = deployment_file id' -> id = id'.
Proof. apply append_inj_l. Qed.

Lemma records_named_empty : records_named ∅.
Proof. intros id r H. rewrite lookup_empty in H. discriminate. Qed.

Lemma records_named_insert_index d ds :
  records_named d -> records_named (<[index_file := Whole (IndexDoc ds)]> d).
Proof.
  intros Hd id r. rewrite lookup_insert.
  destruct (decide (index_file = deployment_file id)); [discriminate|apply Hd].
Qed.

Lemma records_named_insert_record d R :
  records_named d ->
  records_named (<[deployment_file (Models.deployment_id R) := Whole (RecordDoc R)]> d).
Proof.
  intros Hd id r. rewrite lookup_insert.
  destruct (decide (deployment_file (Models.deployment_id R) = deployment_file id))
    as [E|_]; [|apply Hd].
  intros [= <-]. apply deployment_file_inj, E.
Qed.

(** In the directory of the model, [StateManager(...)] and [save] keep
    the record files named after their records, whether they return or
    raise. *)
Lemma init_preserves_records_named env w :
  records_named (files w) -> records_named (files (snd (init env w))).
Proof.
  intros Hw. unfold init, _ensure_index, mbind, M_bind, exists_.
  destruct (bool_decide _); simpl; [exact Hw|].
  destruct (_atomic_write_json env index_file (IndexDoc []) w) as [[[]|e] w'] eqn:E.
  - apply atomic_write_returns in E as ->. simpl.
    apply records_named_insert_index, Hw.
  - apply atomic_write_raises in E. simpl. rewrite E. exact Hw.
Qed.

Lemma update_index_preserves_records_named env deployment_id status repo_url w :
  records_named (files w) ->
  records_named (files (snd (_update_index env deployment_id status repo_url w))).
Proof.
  intros Hw. unfold _update_index, mbind, M_bind, _read_json.
  destruct (files w !! index_file) as [[[r|ds]|doc]|]; simpl; try exact Hw.
  match goal with
  | |- context [_atomic_write_json env ?f ?doc ?w0] =>
      destruct (_atomic_write_json env f doc w0) as [[[]|e] w'] eqn:E
  end.
  - apply atomic_write_returns in E as ->. simpl.
    apply records_named_insert_index, Hw.
  - apply atomic_write_raises in E. simpl in *. rewrite E. exact Hw.
Qed.

Lemma save_preserves_records_named env R w :
  records_named (files w) -> records_named (files (snd (save env R w))).
Proof.
  intros Hw. unfold save. unfold mbind at 1. unfold M_bind at 1.
  destruct (_atomic_write_json env _ _ w) as [[[]|e] w'] eqn:E.
  - apply atomic_write_returns in E as ->.
    apply update_index_preserves_records_named. simpl.
    apply records_named_insert_record, Hw.
  - apply atomic_write_raises in E. simpl. rewrite E. exact Hw.
Qed.

End DirectoryInvariant.

Section FindLatestWitness.
Import Fs StateManager Invariants Fixtures.

Example three_saved_index_readable :
  files three_saved !! index_file = Some (Whole (IndexDoc three_saved_index)).
Proof. vm_compute. reflexivity. Qed.

(** The state is reached by [save] of three identifiers that are file
    names, so its record files are named after their records. *)
Lemma three_saved_records_named : records_named (files three_saved).
Proof.
  unfold three_saved, after.
  unfold mbind at 1, M_bind at 1.
  pose proof (init_preserves_records_named calm fresh records_named_empty) as H0.
  destruct (init calm fresh) as [[[]|e] w0]; simpl in H0 |- *; [|exact H0].
  unfold mbind at 1, M_bind at 1.
  pose proof (save_preserves_records_named calm
    (_make_record "dep-20260218-run001" Models.RUNNING find_repo 8500) w0 H0) as H1.
  destruct (save calm _ w0) as [[[]|e] w1]; simpl in H1 |- *; [|exact H1].
  unfold mbind at 1, M_bind at 1.
  pose proof (save_preserves_records_named calm
    (_make_record "dep-20260218-run002" Models.RUNNING find_repo 8501) w1 H1) as H2.
  destruct (save calm _ w1) as [[[]|e] w2]; simpl in H2 |- *; [|exact H2].
  apply save_preserves_records_named, H2.
Qed.

Lemma records_named_entries d ds : records_named d -> entries_named d ds.
Proof. intros H e r _ Hf. exact (H _ _ Hf). Qed.

(** So the record files of the three listed deployments hold their
    records. *)
Lemma three_saved_entries_named : entries_named (files three_saved) three_saved_index.
Proof. apply records_named_entries, three_saved_records_named. Qed.

(** The theorem in the state of [test_find_latest_successful], extended by
    a second running deployment: with the failed deployment excluded, the
    record returned is not the failed one, and the later of the two
    running ones is loaded. *)
Lemma find_latest_successful_spec_witness :
  (forall r w',
     find_latest_successful find_repo (Some "dep-20260218-fail01") three_saved
     = (Returns (Some r), w') ->
     Some "dep-20260218-fail01" <> Some (Models.deployment_id r)) /\
  exists latest,
    (In latest three_saved_index /\ Entry.repo_url latest = find_repo
     /\ Entry.status latest = "running"
     /\ Some "dep-20260218-fail01" <> Some (Entry.deployment_id latest)) /\
    (forall d,
       In d three_saved_index /\ Entry.repo_url d = find_repo
       /\ Entry.status d = "running"
       /\ Some "dep-20260218-fail01" <> Some (Entry.deployment_id d) ->
       String.leb (Entry.updated_at d) (Entry.updated_at latest) = true) /\
    find_latest_successful find_repo (Some "dep-20260218-fail01") three_saved
    = load (Entry.deployment_id latest) three_saved.
Proof.
  assert (Hidx : files three_saved !! index_file
                 = Some (Whole (IndexDoc three_saved_index)))
    by (vm_compute; reflexivity).
  destruct (find_latest_successful_spec find_repo (Some "dep-20260218-fail01")
              three_saved three_saved_index Hidx) as (Hex & _ & H).
  split; [exact (Hex three_saved_entries_named)|].
  apply (H {| Entry.deployment_id := "dep-20260218-run001";
              Entry.status := "running";
              Entry.repo_url := find_repo;
              Entry.updated_at := "2026-02-18T12:34:02.250000" |}).
  split; [vm_compute; left; reflexivity|].
  split; [reflexivity|]. split; [reflexivity|discriminate].
Defined.

Example test_find_latest_successful :
  option_map Models.deployment_id
    (match fst (find_latest_successful find_repo None three_saved) with
     | Returns o => o
     | Raises _ => None
     end)
  = Some "dep-20260218-run002".
Proof. vm_compute. reflexivity. Qed.

Example test_find_excludes_given_id :
  option_map Models.deployment_id
    (match fst (find_latest_successful find_repo (Some "dep-20260218-run002")
                  three_saved) with
     | Returns o => o
     | Raises _ => None
     end)
  = Some "dep-20260218-run001".
Proof. vm_compute. reflexivity. Qed.

Example test_rollback_no_previous_returns_none :
  fst (find_latest_successful "https://github.com/test/nonexistent.git" None
         three_saved)
  = Returns None.
Proof. vm_compute. reflexivity. Qed.

End FindLatestWitness.

(* ===================================================================== *)
(** * Deployment identifiers *)
(* ===================================================================== *)

Section DeploymentIds.
Import Re ReFacts Validation Datetime Fixtures.

Lemma N_of_digit_char n : N_of_ascii (digit_char n) = (48 + n mod 10)%N.
Proof.
  unfold digit_char. apply N_ascii_embedding.
  assert (n mod 10 < 10)%N by (apply N.mod_lt; discriminate). lia.
Qed.

Lemma digit_char_is_digit n : digit (digit_char n) = true.
Proof.
  unfold digit, range. rewrite N_of_digit_char.
  assert (n mod 10 < 10)%N by (apply N.mod_lt; discriminate).
  change (N_of_ascii "0") with 48%N. change (N_of_ascii "9") with 57%N.
  remember (n mod 10)%N as r eqn:Er. clear Er.
  apply andb_true_iff. split; apply N.leb_le; lia.
Qed.

Lemma digit_char_not_dash n : digit_char n <> "-"%char.
Proof.
  intros E. apply (f_equal N_of_ascii) in E. rewrite N_of_digit_char in E.
  change (N_of_ascii "-") with 45%N in E.
  remember (n mod 10)%N as r eqn:Er. clear Er. lia.
Qed.

(** A word of a literal is the literal. *)
Lemma lang_lit l : forall s, lang (Lit l) s -> s = l.
Proof.
  induction l as [|a l IH]; intros s; simpl.
  - apply lang_eps_inv.
  - intros (s1 & s2 & -> & (b & -> & Hb)%lang_cls_inv & H2%IH)%lang_seq_inv.
    apply Ascii.eqb_eq in Hb. subst. reflexivity.
Qed.

(** A word of [[...]{n}] has [n] characters. *)
Lemma lang_rep_cls n p : forall s, lang (Rep n (Cls p)) s -> String.length s = n.
Proof.
  induction n as [|n IH]; intros s; simpl.
  - intros ->%lang_eps_inv. reflexivity.
  - intros (s1 & s2 & -> & (b & -> & _)%lang_cls_inv & H2%IH)%lang_seq_inv.
    change (String b "" +:+ s2) with (String b s2). simpl. rewrite H2. reflexivity.
Qed.

(** The thirteenth character of a word of the pattern is the second
    hyphen. *)
Lemma deployment_id_pattern_dash s t :
  lang deployment_id_pattern s -> String.get 12 (s +:+ t) = Some "-"%char.
Proof.
  unfold deployment_id_pattern.
  intros (s1 & s2 & -> & ->%lang_lit & H)%lang_seq_inv.
  apply lang_seq_inv in H as (d & s3 & -> & Hd%lang_rep_cls & H).
  apply lang_seq_inv in H as (s4 & s5 & -> & ->%lang_lit & _).
  do 9 (destruct d as [|? d]; try discriminate).
  reflexivity.
Qed.

Lemma re_match_eol_deployment_id_dash s :
  re_match_eol deployment_id_pattern s = true -> String.get 12 s = Some "-"%char.
Proof.
  unfold re_match_eol. intros [H|H]%orb_true_iff.
  - apply fullmatch_lang in H.
    pose proof (deployment_id_pattern_dash s "" H) as E.
    replace (s +:+ "") with s in E; [exact E|].
    clear. induction s as [|a s IH]; [reflexivity|].
    rewrite StrFacts.append_cons, <- IH. reflexivity.
  - destruct (Str.chomp s) as [s'|] eqn:E; [|discriminate].
    apply StrFacts.chomp_app in E as ->.
    apply fullmatch_lang in H. apply deployment_id_pattern_dash, H.
Qed.

(** The thirteenth character of a generated identifier is the first digit
    of the hour. *)
Lemma generated_id_hour now validated_name :
  String.get 12 (DockerTools.generated_id now validated_name)
  = Some (digit_char (hour now / 10)).
Proof. reflexivity. Qed.

(** C1 fails for [deploy_container]: the identifier the tool generates
    when the caller passes none, [dep-] followed by fourteen digits, a
    hyphen and the container name, is rejected by the validator of
    deployment identifiers [validate_deployment_id], at every instant and
    for every container name. *)
Theorem generated_id_is_rejected (now : datetime) (validated_name : string) :
  validate_deployment_id (DockerTools.generated_id now validated_name)
  = Raises (ValidationError
              ("Invalid deployment ID format: "
               +:+ DockerTools.generated_id now validated_name)).
Proof.
  unfold validate_deployment_id.
  destruct (re_match_eol deployment_id_pattern _) eqn:E; [|reflexivity].
  apply re_match_eol_deployment_id_dash in E.
  rewrite generated_id_hour in E. injection E as E.
  destruct (digit_char_not_dash _ E).
Qed.

(** The identifier that scenario S1 is given. *)
Example deploy_container_generates_id :
  option_map DockerTools.r_deployment_id
    (match fst (DockerTools.deploy_container calm hello_demo fresh) with
     | Returns out => Some out
     | Raises _ => None
     end)
  = Some "dep-20260218123400-hello-demo".
Proof. vm_compute. reflexivity. Qed.

(** [rollback] does not accept that identifier. *)
Example rollback_rejects_generated_id :
  is_ValidationError
    (fst (LifecycleTools.rollback calm (Some "dep-20260218123400-hello-demo") None
            (after (DockerTools.deploy_container calm hello_demo) fresh)))
  = true.
Proof. vm_compute. reflexivity. Qed.

(** The identifier of a rollback has the form the specification gives
    for rollbacks, [dep-YYYYMMDD-rollback-<short sha>]. *)
Lemma generated_rollback_id_format now prev_short_sha :
  exists date,
    LifecycleTools.generated_rollback_id now prev_short_sha
    = "dep-" +:+ date +:+ "-rollback-" +:+ prev_short_sha
    /\ String.length date = 8%nat /\ Str.all digit date = true.
Proof.
  exists (strftime_Ymd now). split; [reflexivity|]. split; [reflexivity|].
  unfold strftime_Ymd. cbv [digits]. rewrite !StrFacts.all_app. simpl.
  rewrite !digit_char_is_digit. reflexivity.
Qed.

End DeploymentIds.

(* ===================================================================== *)
(** * The tools: what they read, write and send to the engine *)
(* ===================================================================== *)

Module ToolFacts.
Import Fs StateManager MonadFacts StoreFacts Docker.

(** [load] and [find_latest_successful] only read. *)
Lemma load_reads deployment_id w r w' :
  load deployment_id w = (r, w') -> w' = w.
Proof.
  unfold load, mbind, M_bind, exists_, _read_json.
  destruct (bool_decide _); simpl.
  - destruct (files w !! deployment_file deployment_id) as [[[?|?]|?]|]; simpl;
      intros [= _ <-]; reflexivity.
  - intros [= _ <-]; reflexivity.
Qed.

Lemma find_latest_successful_reads repo_url exclude w r w' :
  find_latest_successful repo_url exclude w = (r, w') -> w' = w.
Proof.
  unfold find_latest_successful, mbind, M_bind, _read_json.
  destruct (files w !! index_file) as [[[?|ds]|?]|]; simpl;
    try (intros [= _ <-]; reflexivity).
  destruct (sort_desc _ _); [intros [= _ <-]; reflexivity|]. apply load_reads.
Qed.

(** The state store sends nothing to the container engine. *)
Lemma atomic_write_calls env filepath data w :
  calls (snd (_atomic_write_json env filepath data w)) = calls w.
Proof.
  unfold _atomic_write_json. destruct (_atomic_write_json_steps _ _ _ _ _). reflexivity.
Qed.

Lemma init_calls env w : calls (snd (init env w)) = calls w.
Proof.
  unfold init, _ensure_index, mbind, M_bind, exists_.
  destruct (bool_decide _); simpl; [reflexivity|]. apply atomic_write_calls.
Qed.

Lemma update_index_calls env deployment_id status repo_url w :
  calls (snd (_update_index env deployment_id status repo_url w)) = calls w.
Proof.
  unfold _update_index, mbind, M_bind, _read_json.
  destruct (files w !! index_file) as [[[r|ds]|doc]|]; simpl; try reflexivity.
  match goal with
  | |- context [_atomic_write_json env ?f ?doc ?w0] =>
      pose proof (atomic_write_calls env f doc w0) as E;
      destruct (_atomic_write_json env f doc w0) as [[[]|e] w']
  end; exact E.
Qed.

Lemma save_calls env R w : calls (snd (save env R w)) = calls w.
Proof.
  unfold save. unfold mbind at 1. unfold M_bind at 1.
  pose proof (atomic_write_calls env (deployment_file (Models.deployment_id R))
                (RecordDoc R) w) as E.
  destruct (_atomic_write_json env _ _ w) as [[[]|e] w1]; simpl in E |- *; [|exact E].
  rewrite update_index_calls. exact E.
Qed.

Lemma validate_deployment_id_returns deployment_id v :
  Validation.validate_deployment_id deployment_id = Returns v -> v = deployment_id.
Proof.
  unfold Validation.validate_deployment_id. destruct (negb _); [discriminate|].
  intros [= <-]. reflexivity.
Qed.

(** The attempt to stop the failed container sends one request, whatever
    the engine answers. *)
Lemma stop_attempt env container_name w w' :
  try_except_DockerOperationError
    (DockerUtils.stop_and_remove_container env container_name) w = (Returns tt, w') ->
  w' = log_call (StopRemove container_name) w.
Proof.
  unfold try_except_DockerOperationError, DockerUtils.stop_and_remove_container,
    DockerUtils.get_stop_remove, mbind, M_bind.
  destruct (engine_stop env container_name); simpl; intros [= <-]; reflexivity.
Qed.

(** The bind of a port of 0..65535 succeeds or fails with [OSError];
    that of another port raises [OverflowError]. *)
Lemma is_port_available_in_range env port w :
  0 <= port <= 65535 ->
  DockerUtils.is_port_available env port w = (Returns (port_bindable env port), w).
Proof.
  intros [H1 H2]. unfold DockerUtils.is_port_available.
  apply Z.leb_le in H1, H2. rewrite H1, H2. reflexivity.
Qed.

Lemma is_port_available_out_of_range env port w :
  ~ 0 <= port <= 65535 ->
  DockerUtils.is_port_available env port w = (Raises OverflowError, w).
Proof.
  intros H. unfold DockerUtils.is_port_available.
  destruct (Z.leb_spec 0 port), (Z.leb_spec port 65535); simpl; try reflexivity.
  destruct H. lia.
Qed.

Lemma is_port_available_returns env port w free w' :
  DockerUtils.is_port_available env port w = (Returns free, w') ->
  0 <= port <= 65535 /\ free = port_bindable env port /\ w' = w.
Proof.
  destruct (decide (0 <= port <= 65535)) as [H|H].
  - rewrite (is_port_available_in_range _ _ _ H). intros [= <- <-]. auto.
  - rewrite (is_port_available_out_of_range _ _ _ H). discriminate.
Qed.

Lemma is_port_available_raises env port w e w' :
  DockerUtils.is_port_available env port w = (Raises e, w') ->
  ~ 0 <= port <= 65535 /\ e = OverflowError /\ w' = w.
Proof.
  destruct (decide (0 <= port <= 65535)) as [H|H].
  - rewrite (is_port_available_in_range _ _ _ H). discriminate.
  - rewrite (is_port_available_out_of_range _ _ _ H). intros [= <- <-]. auto.
Qed.

(** The scan stops at the first port that can be bound, or at the first
    one that is no port; it changes nothing. *)
Lemma scan_ports_returns env n : forall port w found w',
  DockerUtils.scan_ports env n port w = (Returns found, w') ->
  w' = w /\
  match found with
  | Some p =>
      port <= p < port + Z.of_nat n /\ 0 <= p <= 65535 /\
      port_bindable env p = true /\
      forall q, port <= q < p -> 0 <= q <= 65535 /\ port_bindable env q = false
  | None =>
      forall q, port <= q < port + Z.of_nat n ->
                0 <= q <= 65535 /\ port_bindable env q = false
  end.
Proof.
  induction n as [|n IH]; intros port w found w'.
  - intros [= <- <-]. split; [reflexivity|]. intros q Hq. lia.
  - cbn [DockerUtils.scan_ports].
    intros (free & w1 & (Hr & -> & ->)%is_port_available_returns & H)%bind_returns.
    destruct (port_bindable env port) eqn:Hb.
    + injection H as <- <-. split; [reflexivity|].
      split; [lia|]. split; [exact Hr|]. split; [exact Hb|]. intros q Hq. lia.
    + apply IH in H as [-> H]. split; [reflexivity|].
      destruct found as [p|].
      * destruct H as (Hp & Hp' & Hpb & Hl). split; [lia|]. split; [exact Hp'|].
        split; [exact Hpb|]. intros q Hq.
        destruct (decide (q = port)) as [->|]; [auto|]. apply Hl. lia.
      * intros q Hq. destruct (decide (q = port)) as [->|]; [auto|]. apply H. lia.
Qed.

Lemma scan_ports_raises env n : forall port w e w',
  DockerUtils.scan_ports env n port w = (Raises e, w') ->
  w' = w /\ e = OverflowError /\
  exists p, port <= p < port + Z.of_nat n /\ ~ 0 <= p <= 65535 /\
            forall q, port <= q < p -> 0 <= q <= 65535 /\ port_bindable env q = false.
Proof.
  induction n as [|n IH]; intros port w e w'; [discriminate|].
  cbn [DockerUtils.scan_ports]. unfold mbind, M_bind.
  destruct (DockerUtils.is_port_available env port w) as [[free|e0] w1] eqn:Ha.
  - apply is_port_available_returns in Ha as (Hr & -> & ->).
    destruct (port_bindable env port) eqn:Hb; [discriminate|].
    intros (-> & -> & p & Hp & Hout & Hl)%IH. split; [reflexivity|].
    split; [reflexivity|]. exists p. split; [lia|]. split; [exact Hout|].
    intros q Hq. destruct (decide (q = port)) as [->|]; [auto|]. apply Hl. lia.
  - apply is_port_available_raises in Ha as (Hout & -> & ->).
    intros [= <- <-]. split; [reflexivity|]. split; [reflexivity|].
    exists port. split; [lia|]. split; [exact Hout|]. intros q Hq. lia.
Qed.

(** [find_available_port]: what it returns and what it raises. *)
Lemma find_available_port_returns env start end_ w port w' :
  DockerUtils.find_available_port env start end_ w = (Returns port, w') ->
  w' = w /\ start <= port <= end_ /\ 0 <= port <= 65535 /\
  port_bindable env port = true /\
  forall q, start <= q < port -> 0 <= q <= 65535 /\ port_bindable env q = false.
Proof.
  unfold DockerUtils.find_available_port.
  intros ([p|] & w1 & [-> H]%scan_ports_returns & Hr)%bind_returns; [|discriminate].
  injection Hr as <- <-. destruct H as (H1 & H2 & H3 & H4).
  split; [reflexivity|]. split; [lia|]. auto.
Qed.

Lemma find_available_port_raises env start end_ w e w' :
  DockerUtils.find_available_port env start end_ w = (Raises e, w') ->
  w' = w /\
  (((exists msg p, e = PortConflictError msg p) /\
    forall q, start <= q <= end_ -> 0 <= q <= 65535 /\ port_bindable env q = false) \/
   (e = OverflowError /\
    exists p, start <= p <= end_ /\ ~ 0 <= p <= 65535 /\
              forall q, start <= q < p ->
                        0 <= q <= 65535 /\ port_bindable env q = false)).
Proof.
  unfold DockerUtils.find_available_port, mbind, M_bind.
  destruct (DockerUtils.scan_ports env _ start w) as [[[p|]|e0] w1] eqn:Hs.
  - discriminate.
  - apply scan_ports_returns in Hs as [-> H]. intros [= <- <-].
    split; [reflexivity|]. left. split; [eauto|]. intros q Hq. apply H. lia.
  - apply scan_ports_raises in Hs as (-> & -> & p & Hp & Hout & Hl).
    intros [= <- <-]. split; [reflexivity|]. right. split; [reflexivity|].
    exists p. split; [lia|]. auto.
Qed.

(** Within the configured range, which the settings keep in 1024..65535,
    the scan meets ports only. *)
Lemma find_available_port_configured env w e w' :
  DockerUtils.find_available_port env (port_range_start (settings env))
    (port_range_end (settings env)) w = (Raises e, w') ->
  w' = w /\ exists msg p, e = PortConflictError msg p.
Proof.
  intros [-> [[H _]|(_ & p & Hp & Hout & _)]]%find_available_port_raises.
  - auto.
  - destruct Hout.
    pose proof (port_range_start_valid (settings env)).
    pose proof (port_range_end_valid (settings env)). lia.
Qed.

(** A deployment that returns has cleaned up the name and run the image. *)
Lemma util_deploy_returns env image_tag container_name host_port container_port
    env_vars w c w' :
  DockerUtils.deploy_container env image_tag container_name host_port container_port
    env_vars w = (Returns c, w') ->
  port_bindable env host_port = true /\
  engine_run env (DockerUtils.run_kwargs image_tag container_name host_port
                    container_port env_vars) = Started c /\
  w' = log_call (Run (DockerUtils.run_kwargs image_tag container_name host_port
                        container_port env_vars))
         (log_call (StopRemove container_name) w).
Proof.
  unfold DockerUtils.deploy_container.
  intros (free & w1 & (_ & -> & ->)%is_port_available_returns & H)%bind_returns.
  destruct (port_bindable env host_port); simpl in H; [|discriminate].
  apply bind_returns in H as ([] & w2 & H2 & H).
  unfold DockerUtils.cleanup_existing_container, DockerUtils.get_stop_remove in H2.
  apply bind_returns in H2 as (rep & w3 & [= _ <-] & [= <-]).
  apply bind_returns in H as (reply & w4 & [= <- <-] & H).
  destruct (engine_run env _) as [c'|msg].
  - injection H as <- <-. auto.
  - destruct (DockerUtils.has_substring _ _); discriminate.
Qed.

End ToolFacts.

Section RollbackProperties.
Import Fs StateManager MonadFacts StoreFacts ToolFacts Docker LifecycleTools Fixtures.

(** C9.  When [rollback] returns, the requests it sent to the engine end
    with the clean-up of the new container's name and one [run] of the
    previous deployment's [image_tag], publishing the previous
    deployment's [container_port] on 127.0.0.1 at a host port chosen by
    the branch on [deployment_id]:
    - [deployment_id] supplied (a non-empty string): the host port of the
      failed record, the record [load] returns for that identifier, the
      previous deployment being the latest successful one of the failed
      record's repository other than the failed one;
    - otherwise ([repo_url] alone): the host port of the previous
      deployment, the latest successful one of [repo_url].
    Before these two requests the tool sends at most requests to stop a
    container, and the port it reports is the port it bound. *)
Theorem rollback_binds_branch_port (env : Env) (deployment_id repo_url : option string)
    (w : world) (out : rolled_back) (w' : world) :
  rollback env deployment_id repo_url w = (Returns out, w') ->
  exists w1 previous port pre,
    init env w = (Returns tt, w1) /\
    (if Str.truthy_opt deployment_id then
       exists id failed,
         deployment_id = Some id /\
         load id w1 = (Returns (Some failed), w1) /\
         find_latest_successful (Models.repo_url failed) (Some id) w1
           = (Returns (Some previous), w1) /\
         port = Models.host_port failed
     else
       exists url,
         repo_url = Some url /\
         find_latest_successful url None w1 = (Returns (Some previous), w1) /\
         port = Models.host_port previous) /\
    calls w' = calls w ++ pre
               ++ [StopRemove (rb_container_name out);
                   Run (DockerUtils.run_kwargs (Models.image_tag previous)
                          (rb_container_name out) port
                          (Models.container_port previous) None)] /\
    (forall c, In c pre -> exists n, c = StopRemove n) /\
    rb_host_port out = port.
Proof.
  unfold rollback.
  destruct (negb (Str.truthy_opt deployment_id) && negb (Str.truthy_opt repo_url))
    eqn:Hargs; [discriminate|].
  intros ([] & w1 & Hinit & H)%bind_returns.
  apply bind_returns in H
      as ([[failed_deployment target_repo_url] exclude_id] & w2 & Hsel & H).
  apply bind_returns in H as (previous_deployment & w3 & Hprev & H).
  destruct previous_deployment as [previous|]; [|discriminate].
  apply find_latest_successful_reads in Hprev as Hw3. subst w3.
  apply bind_returns in H as ([] & w4 & Hclient & H).
  assert (w4 = w2) as ->.
  { unfold DockerUtils.get_docker_client in Hclient.
    destruct (docker_ping env); [injection Hclient as <-; reflexivity|discriminate]. }
  apply bind_returns in H as ([] & w5 & Hstop & H).
  apply bind_returns in H as (today & w6 & [= <- <-] & H).
  apply bind_returns in H as (container & w7 & (_ & _ & Hdeploy)%util_deploy_returns & H).
  apply bind_returns in H as (now & w8 & [= <- <-] & H).
  apply bind_returns in H as ([] & w9 & Hsave & [= <- <-]).
  apply (f_equal snd) in Hinit as Hc1. simpl in Hc1.
  apply (f_equal calls) in Hc1. rewrite init_calls in Hc1.
  apply (f_equal snd) in Hsave as Hc9. simpl in Hc9.
  apply (f_equal calls) in Hc9. rewrite save_calls in Hc9. simpl in Hc9.
  rewrite <- Hc9. subst w7. simpl. clear Hsave Hc9 Hclient.
  exists w1, previous.
  destruct (Str.truthy_opt deployment_id) eqn:Hid.
  - destruct deployment_id as [id0|]; [|discriminate]. simpl in Hsel.
    apply bind_returns in Hsel as (validated_id & wa & Hv & Hsel).
    unfold lift in Hv. injection Hv as Hv <-.
    apply validate_deployment_id_returns in Hv as ->.
    apply bind_returns in Hsel as (fo & wb & Hload & Hsel).
    apply load_reads in Hload as Hwb. subst wb.
    destruct fo as [failed|]; [|discriminate].
    injection Hsel as <- <- <- <-.
    exists (Models.host_port failed).
    exists (if Str.truthy (Models.container_name failed)
            then [StopRemove (Models.container_name failed)] else []).
    split; [exact Hinit|]. split; [eauto 10|].
    split; [|split; [|reflexivity]].
    + destruct (Str.truthy (Models.container_name failed)).
      * apply stop_attempt in Hstop as ->. simpl.
        rewrite Hc1, <- !app_assoc. reflexivity.
      * injection Hstop as <-. simpl. rewrite Hc1, <- !app_assoc. reflexivity.
    + intros c Hc. destruct (Str.truthy _); [|destruct Hc].
      destruct Hc as [<-|[]]. eauto.
  - injection Hsel as <- <- <- <-. injection Hstop as <-.
    simpl in Hargs. apply negb_false_iff in Hargs.
    destruct repo_url as [url|]; [|discriminate].
    exists (Models.host_port previous), [].
    split; [exact Hinit|]. split; [eauto|].
    split; [|split; [|reflexivity]].
    + simpl. rewrite Hc1, <- !app_assoc. reflexivity.
    + intros c [].
Qed.

Example rollback_by_id_uses_failed_port :
  match fst rolled_back_by_id with
  | Returns out => Some (rb_host_port out, rb_container_name out)
  | Raises _ => None
  end = Some (8502, "mcp-cicd-test-app-rollback-aaaaaaa-p8502").
Proof. vm_compute. reflexivity. Qed.

Example rollback_by_url_uses_previous_port :
  match fst rolled_back_by_url with
  | Returns out => Some (rb_host_port out, rb_container_name out)
  | Raises _ => None
  end = Some (8501, "mcp-cicd-test-app-rollback-aaaaaaa-p8501").
Proof. vm_compute. reflexivity. Qed.

(** The theorem at the rollback by identifier. *)
Lemma rollback_binds_branch_port_witness :
  exists previous pre,
    calls (snd rolled_back_by_id)
    = calls three_saved ++ pre
      ++ [StopRemove "mcp-cicd-test-app-rollback-aaaaaaa-p8502";
          Run (DockerUtils.run_kwargs (Models.image_tag previous)
                 "mcp-cicd-test-app-rollback-aaaaaaa-p8502" 8502
                 (Models.container_port previous) None)].
Proof.
  pose (out := {| rollback_deployment_id := "dep-20260218-rollback-aaaaaaa";
                  original_deployment_id := Some "dep-20260218-fail01";
                  previous_deployment_id := "dep-20260218-run002";
                  rb_container_name := "mcp-cicd-test-app-rollback-aaaaaaa-p8502";
                  rb_container_id := "c0ffeemcp-cicd-test-app-rollback-aaaaaaa-p8502";
                  rb_host_port := 8502;
                  rb_url := "http://localhost:8502";
                  rb_commit_sha := "aaaaaaaaaaaaaaaaaaaaaaaaaaaaaaaaaaaaaaaa";
                  rb_short_sha := "aaaaaaa" |}).
  assert (H : rollback calm (Some "dep-20260218-fail01") None three_saved
              = (Returns out, snd rolled_back_by_id))
    by (vm_compute; reflexivity).
  destruct (rollback_binds_branch_port calm _ _ _ _ _ H)
    as (w1 & previous & port & pre & _ & _ & Hcalls & _ & Hport).
  exists previous, pre. simpl in Hport. subst port. exact Hcalls.
Defined.

End RollbackProperties.

Module SaveOutcome.
Import Fs StateManager MonadFacts StoreFacts.

(** What an atomic write does, in one equation. *)
Lemma atomic_write_outcome env filepath data w :
  _atomic_write_json env filepath data w =
  match files w !! mkstemp env (tick w), write_fault env (tick w) with
  | None, NoFault =>
      (Returns tt, next_tick (set_files (<[filepath := Whole data]> (files w)) w))
  | None, _ =>
      (Raises (ConfigurationError ("Failed to write " +:+ filepath)),
       next_tick (set_files (files w) w))
  | Some _, _ => (Raises FileExistsError, next_tick (set_files (files w) w))
  end.
Proof.
  unfold _atomic_write_json.
  destruct (files w !! mkstemp env (tick w)) as [f|] eqn:Hfresh.
  - unfold _atomic_write_json_steps. rewrite Hfresh. reflexivity.
  - rewrite (_atomic_write_json_steps_fresh _ _ _ _ _ Hfresh).
    destruct (write_fault env (tick w)); reflexivity.
Qed.

(** After a [save] that returns, the file of the record holds the
    record. *)
Lemma save_returns env R w w' :
  save env R w = (Returns tt, w') ->
  files w' !! deployment_file (Models.deployment_id R) = Some (Whole (RecordDoc R)).
Proof.
  unfold save. intros ([] & w1 & Hw%atomic_write_returns & H)%bind_returns.
  apply update_index_returns in H as (ds & now & Hidx & ->).
  subst w1. simpl in Hidx.
  destruct (decide (index_file = deployment_file (Models.deployment_id R))) as [E|E].
  - rewrite <- E, lookup_insert_eq in Hidx. discriminate.
  - rewrite lookup_insert_ne by exact E. apply lookup_insert_eq.
Qed.

(** Whether [save] returns depends on the identifier of the record only. *)
Lemma save_returned_same_id env R R' w :
  Models.deployment_id R = Models.deployment_id R' ->
  returned (fst (save env R w)) = returned (fst (save env R' w)).
Proof.
  intros Hid. unfold save. rewrite <- Hid.
  unfold mbind at 1 2. unfold M_bind at 1 2.
  rewrite !atomic_write_outcome.
  destruct (files w !! mkstemp env (tick w)) eqn:Htmp; [reflexivity|].
  destruct (write_fault env (tick w)); try reflexivity.
  unfold _update_index, mbind, M_bind, _read_json, deployments_of, utcnow_. simpl.
  rewrite !lookup_insert.
  destruct (decide (deployment_file (Models.deployment_id R) = index_file));
    [reflexivity|].
  destruct (files w !! index_file) as [[[r|ds]|doc]|]; try reflexivity.
  unfold mret, M_ret. cbn beta iota.
  rewrite !atomic_write_outcome. simpl. rewrite !lookup_insert.
  destruct (decide _); [reflexivity|].
  destruct (files w !! mkstemp env (S (S (tick w)))); [reflexivity|].
  destruct (write_fault env _); reflexivity.
Qed.

Lemma bind_returned_ext {A B} (m : M A) (k k' : A -> M B) w :
  (forall a w1, m w = (Returns a, w1) ->
                returned (fst (k a w1)) = returned (fst (k' a w1))) ->
  returned (fst ((m ≫= k) w)) = returned (fst ((m ≫= k') w)).
Proof.
  intros H. unfold mbind, M_bind. destruct (m w) as [[a|e] w1]; [|reflexivity].
  apply H. reflexivity.
Qed.

Lemma bind_mret_returned {A B} (m : M A) (b : A -> B) w :
  returned (fst ((m ≫= λ a, mret (b a)) w)) = returned (fst (m w)).
Proof. unfold mbind, M_bind. destruct (m w) as [[a|e] w1]; reflexivity. Qed.

End SaveOutcome.

Section DeployContainerProperties.
Import Fs StateManager MonadFacts StoreFacts ToolFacts SaveOutcome Docker DockerTools
       Fixtures.

Lemma deploy_returned_omit env a w :
  returned (fst (deploy_container env (omit_metadata a) w))
  = returned (fst (deploy_container env a w)).
Proof.
  unfold deploy_container. simpl.
  do 7 (apply bind_returned_ext; intros ? ? _).
  apply bind_returned_ext; intros [] ? _.
  rewrite !(bind_mret_returned _ (fun _ => _)).
  apply save_returned_same_id. reflexivity.
Qed.

(** C10.  Leaving out [repo_url], [branch], [commit_sha] and
    [project_type] does not make [deploy_container] fail: the call without
    them returns exactly when the call with them returns.  And when the
    call returns, the file of the returned [deployment_id] holds a record
    whose four fields are the arguments, with ["unknown"] in place of an
    omitted (or empty) [repo_url], [branch] or [commit_sha] and ["docker"]
    in place of an omitted (or empty) [project_type]. *)
Theorem deploy_container_placeholders (env : Env) (a : arguments) (w : world) :
  returned (fst (deploy_container env (omit_metadata a) w))
  = returned (fst (deploy_container env a w)) /\
  forall out w',
    deploy_container env a w = (Returns out, w') ->
    exists record,
      files w' !! deployment_file (r_deployment_id out)
        = Some (Whole (RecordDoc record)) /\
      Models.repo_url record = Str.or_default (repo_url a) "unknown" /\
      Models.branch record = Str.or_default (branch a) "unknown" /\
      Models.commit_sha record = Str.or_default (commit_sha a) "unknown" /\
      Models.project_type record = Str.or_default (project_type a) "docker" /\
      (repo_url a = None -> Models.repo_url record = "unknown") /\
      (branch a = None -> Models.branch record = "unknown") /\
      (commit_sha a = None -> Models.commit_sha record = "unknown") /\
      (project_type a = None -> Models.project_type record = "docker").
Proof.
  split; [apply deploy_returned_omit|].
  intros out w'. unfold deploy_container.
  intros (validated_tag & w1 & _ & H)%bind_returns.
  apply bind_returns in H as (validated_name & w2 & _ & H).
  apply bind_returns in H as (validated_container_port & w3 & _ & H).
  apply bind_returns in H as (assigned_port & w4 & _ & H).
  apply bind_returns in H as ([] & w5 & _ & H).
  apply bind_returns in H as (container & w6 & _ & H).
  apply bind_returns in H as (now & w7 & _ & H).
  apply bind_returns in H as ([] & w8 & _ & H).
  apply bind_returns in H as ([] & w9 & Hsave%save_returns & [= <- <-]).
  eexists. split; [exact Hsave|]. simpl.
  repeat split; try reflexivity; intros ->; reflexivity.
Qed.

(** Scenario S1, which passes none of the four. *)
Lemma deploy_container_placeholders_witness :
  exists record,
    files (after (deploy_container calm hello_demo) fresh)
      !! deployment_file "dep-20260218123400-hello-demo"
      = Some (Whole (RecordDoc record)) /\
    Models.repo_url record = "unknown" /\
    Models.branch record = "unknown" /\
    Models.commit_sha record = "unknown" /\
    Models.project_type record = "docker".
Proof.
  pose (out := {| r_deployment_id := "dep-20260218123400-hello-demo";
                  r_container_id := "c0ffeehello-demo";
                  r_container_name := "hello-demo";
                  r_host_port := 8080;
                  r_container_port := 8000;
                  r_url := "http://localhost:8080";
                  r_status := "running" |}).
  assert (H : deploy_container calm hello_demo fresh
              = (Returns out, after (deploy_container calm hello_demo) fresh))
    by (vm_compute; reflexivity).
  destruct (deploy_container_placeholders calm hello_demo fresh) as [_ Hrec].
  destruct (Hrec _ _ H) as (record & Hfile & _ & _ & _ & _ & Hr & Hb & Hc & Hp).
  exists record. split; [exact Hfile|].
  split; [apply Hr; reflexivity|]. split; [apply Hb; reflexivity|].
  split; [apply Hc; reflexivity|apply Hp; reflexivity].
Defined.

(** ** Environment variables *)

(** The requests of a call that returns: the clean-up of the container
    name, then one [run] of the validated tag under the validated name
    with the caller's [env_vars], from which only the key [RUN_AS_USER] is
    taken out. *)
Lemma deploy_container_calls env a w out w' :
  deploy_container env a w = (Returns out, w') ->
  exists validated_tag,
    Validation.validate_image_tag (image_tag a) = Returns validated_tag /\
    Validation.validate_container_name (container_name a)
      = Returns (r_container_name out) /\
    calls w' = calls w
               ++ [StopRemove (r_container_name out);
                   Run (DockerUtils.run_kwargs validated_tag (r_container_name out)
                          (r_host_port out) (r_container_port out) (env_vars a))].
Proof.
  unfold deploy_container.
  intros (validated_tag & w1 & [= Htag <-] & H)%bind_returns.
  apply bind_returns in H as (validated_name & w2 & [= Hname <-] & H).
  apply bind_returns in H as (validated_container_port & w3 & [= _ <-] & H).
  apply bind_returns in H as (assigned_port & w4 & Hport & H).
  assert (w4 = w) as ->.
  { destruct (host_port a) as [p|].
    - apply bind_returns in Hport as (p' & wa & [= _ <-] & Hport).
      apply bind_returns in Hport
        as (free & wb & (_ & _ & ->)%is_port_available_returns & Hport).
      destruct (negb free); [discriminate|]. injection Hport as _ <-. reflexivity.
    - apply find_available_port_returns in Hport as [-> _]. reflexivity. }
  apply bind_returns in H as ([] & w5 & Hclient & H).
  assert (w5 = w) as ->.
  { unfold DockerUtils.get_docker_client in Hclient.
    destruct (docker_ping env); [injection Hclient as <-; reflexivity|discriminate]. }
  apply bind_returns in H as (container & w6 & (_ & _ & ->)%util_deploy_returns & H).
  apply bind_returns in H as (now & w7 & [= _ <-] & H).
  apply bind_returns in H as ([] & w8 & Hinit & H).
  apply bind_returns in H as ([] & w9 & Hsave & [= <- <-]).
  apply (f_equal snd) in Hinit as Hc1. simpl in Hc1.
  apply (f_equal calls) in Hc1. rewrite init_calls in Hc1. simpl in Hc1.
  apply (f_equal snd) in Hsave as Hc9. simpl in Hc9.
  apply (f_equal calls) in Hc9. rewrite save_calls in Hc9.
  exists validated_tag. split; [exact Htag|]. split; [exact Hname|].
  simpl. rewrite <- Hc9, <- Hc1, <- !app_assoc. reflexivity.
Qed.

(** C6 fails.  The value ["echo hello; rm -rf /"], which
    [sanitize_environment_variables] rejects with a [ValidationError],
    is passed by the [deploy_container] tool to the engine's [run]
    unchanged, and the tool returns: [sanitize_environment_variables] is
    not called on the way. *)
Theorem deploy_container_runs_unchecked_env :
  is_ValidationError (Validation.sanitize_environment_variables injection) = true /\
  returned (fst (deploy_container calm (with_env_vars hello_demo injection) fresh))
    = true /\
  environments_run (after (deploy_container calm (with_env_vars hello_demo injection))
                      fresh)
    = [injection].
Proof. vm_compute. auto. Qed.

End DeployContainerProperties.

(* ===================================================================== *)
(** * The health prober *)
(* ===================================================================== *)

Section HealthcheckProperties.
Import HealthTools Fixtures.

Lemma Qltb_lt a b : Qltb a b = true <-> (a < b)%Q.
Proof.
  unfold Qltb. rewrite negb_true_iff. split.
  - intros H. apply Qnot_le_lt. intros Hle. apply Qle_bool_iff in Hle. congruence.
  - intros H. destruct (Qle_bool b a) eqn:E; [|reflexivity].
    apply Qle_bool_iff in E. apply Qlt_not_le in H. contradiction.
Qed.







End HealthcheckProperties.

(* ===================================================================== *)
(** * Further properties of the state store *)
(* ===================================================================== *)

Module StoreOutcomes.
Import Fs StateManager MonadFacts StoreFacts ToolFacts SaveOutcome Invariants.

Lemma load_whole deployment_id w r :
  files w !! deployment_file deployment_id = Some (Whole (RecordDoc r)) ->
  load deployment_id w = (Returns (Some r), w).
Proof.
  intros H. unfold load, mbind, M_bind, exists_, _read_json. rewrite H.
  rewrite bool_decide_eq_true_2 by eauto. simpl. rewrite H. reflexivity.
Qed.

(** [save] in one equation. *)
Lemma save_outcome env R w :
  save env R w =
  let df := deployment_file (Models.deployment_id R) in
  match files w !! mkstemp env (tick w), write_fault env (tick w) with
  | None, NoFault =>
      let w1 := next_tick (set_files (<[df := Whole (RecordDoc R)]> (files w)) w) in
      match files w1 !! index_file with
      | Some (Whole (IndexDoc ds)) =>
          _atomic_write_json env index_file
            (IndexDoc (others (Models.deployment_id R) ds
                       ++ [index_entry R (utcnow env (tick w1))]))
            (next_tick w1)
      | Some (Whole (RecordDoc _)) => (Raises (KeyError "deployments"), w1)
      | _ => (Raises (ConfigurationError ("Failed to read " +:+ index_file)), w1)
      end
  | None, _ =>
      (Raises (ConfigurationError ("Failed to write " +:+ df)),
       next_tick (set_files (files w) w))
  | Some _, _ => (Raises FileExistsError, next_tick (set_files (files w) w))
  end.
Proof.
  unfold save. unfold mbind at 1. unfold M_bind at 1.
  rewrite atomic_write_outcome.
  destruct (files w !! mkstemp env (tick w)); [reflexivity|].
  destruct (write_fault env (tick w)); try reflexivity.
  unfold _update_index, mbind, M_bind, _read_json, deployments_of, utcnow_.
  cbn zeta.
  destruct (files _ !! index_file) as [[[r|ds]|doc]|]; reflexivity.
Qed.

(** The files after [save], whatever its outcome: untouched, or with the
    record written and the index as it was, or with both written. *)
Lemma save_files env R w :
  let df := deployment_file (Models.deployment_id R) in
  files (snd (save env R w)) = files w \/
  files (snd (save env R w)) = <[df := Whole (RecordDoc R)]> (files w) \/
  exists ds now,
    df <> index_file /\
    files w !! index_file = Some (Whole (IndexDoc ds)) /\
    fst (save env R w) = Returns tt /\
    files (snd (save env R w)) =
      <[index_file := Whole (IndexDoc (others (Models.deployment_id R) ds
                                       ++ [index_entry R now]))]>
        (<[df := Whole (RecordDoc R)]> (files w)).
Proof.
  intros df. rewrite save_outcome. fold df. cbn zeta.
  destruct (files w !! mkstemp env (tick w)); [left; reflexivity|].
  destruct (write_fault env (tick w)); try (left; reflexivity).
  simpl. rewrite lookup_insert.
  destruct (decide (df = index_file)) as [E|E]; [right; left; reflexivity|].
  destruct (files w !! index_file) as [[[r|ds]|doc]|] eqn:Hidx;
    try (right; left; reflexivity).
  rewrite atomic_write_outcome. simpl.
  destruct (_ !! mkstemp env (S (S (tick w)))); [right; left; reflexivity|].
  destruct (write_fault env (S (S (tick w)))); try (right; left; reflexivity).
  right. right. exists ds, (utcnow env (S (tick w))). simpl. auto.
Qed.

Lemma init_files env w :
  files (snd (init env w)) = files w \/
  (files w !! index_file = None /\
   files (snd (init env w)) = <[index_file := Whole (IndexDoc [])]> (files w)).
Proof.
  unfold init, _ensure_index, mbind, M_bind, exists_.
  destruct (files w !! index_file) as [f|] eqn:Hidx.
  - rewrite bool_decide_eq_true_2 by eauto. left. reflexivity.
  - rewrite bool_decide_eq_false_2 by (intros [? ?]; discriminate). simpl.
    rewrite atomic_write_outcome.
    destruct (files w !! mkstemp env (tick w)); [left; reflexivity|].
    destruct (write_fault env (tick w)); try (left; reflexivity).
    right. auto.
Qed.

Lemma in_others deployment_id ds e :
  In e (others deployment_id ds) <-> In e ds /\ Entry.deployment_id e <> deployment_id.
Proof.
  unfold others. rewrite List.filter_In, negb_true_iff, String.eqb_neq. tauto.
Qed.

Lemma index_not_a_record_file d ds e :
  index_backed d -> d !! index_file = Some (Whole (IndexDoc ds)) -> In e ds ->
  deployment_file (Entry.deployment_id e) <> index_file.
Proof.
  intros Hb Hidx He E. destruct (Hb ds e Hidx He) as [r Hr].
  rewrite E, Hidx in Hr. discriminate.
Qed.

Lemma well_kept_empty : well_kept ∅.
Proof.
  split; [apply records_named_empty|]. split.
  - intros ds e H. rewrite lookup_empty in H. discriminate.
  - intros path x H. rewrite lookup_empty in H. discriminate.
Qed.

Lemma well_kept_insert_record d R :
  well_kept d ->
  well_kept (<[deployment_file (Models.deployment_id R) := Whole (RecordDoc R)]> d).
Proof.
  intros (Hn & Hb & Ht). split; [apply records_named_insert_record, Hn|]. split.
  - intros ds e. rewrite lookup_insert.
    destruct (decide (deployment_file (Models.deployment_id R) = index_file));
      [discriminate|].
    intros Hidx He. destruct (Hb ds e Hidx He) as [r Hr].
    rewrite lookup_insert. destruct (decide _); eauto.
  - intros path x. rewrite lookup_insert.
    destruct (decide _); [discriminate|apply Ht].
Qed.

Lemma well_kept_insert_index d R ds now :
  well_kept d ->
  d !! index_file = Some (Whole (IndexDoc ds)) ->
  (exists r, d !! deployment_file (Models.deployment_id R)
             = Some (Whole (RecordDoc r))) ->
  well_kept (<[index_file := Whole (IndexDoc (others (Models.deployment_id R) ds
                                              ++ [index_entry R now]))]> d).
Proof.
  intros (Hn & Hb & Ht) Hidx [r Hr].
  split; [apply records_named_insert_index, Hn|]. split.
  - intros ds' e. rewrite lookup_insert_eq. intros [= <-] He.
    apply in_app_or in He as [He|[<-|[]]].
    + apply in_others in He as [He _].
      pose proof (index_not_a_record_file d ds e Hb Hidx He) as Hne.
      rewrite lookup_insert_ne by congruence. eauto.
    + simpl. assert (Hne : index_file <> deployment_file (Models.deployment_id R)).
      { intros E. rewrite <- E, Hidx in Hr. discriminate. }
      rewrite lookup_insert_ne by exact Hne. eauto.
  - intros path x. rewrite lookup_insert.
    destruct (decide _); [discriminate|apply Ht].
Qed.

Lemma init_well_kept env w :
  well_kept (files w) -> well_kept (files (snd (init env w))).
Proof.
  intros Hw. destruct (init_files env w) as [->|[Hnone ->]]; [exact Hw|].
  destruct Hw as (Hn & Hb & Ht).
  split; [apply records_named_insert_index, Hn|]. split.
  - intros ds e. rewrite lookup_insert_eq. intros [= <-] [].
  - intros path x. rewrite lookup_insert.
    destruct (decide _); [discriminate|apply Ht].
Qed.

Lemma save_well_kept env R w :
  well_kept (files w) -> well_kept (files (snd (save env R w))).
Proof.
  intros Hw.
  destruct (save_files env R w) as [->|[->|(ds & now & Hne & Hidx & _ & ->)]].
  - exact Hw.
  - apply well_kept_insert_record, Hw.
  - apply well_kept_insert_index.
    + apply well_kept_insert_record, Hw.
    + rewrite lookup_insert_ne by exact Hne. exact Hidx.
    + exists R. apply lookup_insert_eq.
Qed.

(** The same for the identifiers that are file names.  Of the files of
    two identifiers only this is used: two file names with one file are
    equal. *)
Lemma deployment_file_inj_names id id' :
  file_name id = true -> file_name id' = true ->
  deployment_file id = deployment_file id' -> id = id'.
Proof. intros _ _. apply deployment_file_inj. Qed.

Lemma well_filed_empty : well_filed ∅.
Proof.
  split; [|split].
  - intros id r _ H. rewrite lookup_empty in H. discriminate.
  - intros ds e H. rewrite lookup_empty in H. discriminate.
  - intros path x H. rewrite lookup_empty in H. discriminate.
Qed.

Lemma well_filed_insert_record d R :
  file_name (Models.deployment_id R) = true -> well_filed d ->
  well_filed (<[deployment_file (Models.deployment_id R) := Whole (RecordDoc R)]> d).
Proof.
  intros HR (Hn & Hb & Ht). split; [|split].
  - intros id r Hid. rewrite lookup_insert.
    destruct (decide (deployment_file (Models.deployment_id R) = deployment_file id))
      as [E|_]; [|apply Hn, Hid].
    intros [= <-]. apply deployment_file_inj_names; assumption.
  - intros ds e. rewrite lookup_insert.
    destruct (decide (deployment_file (Models.deployment_id R) = index_file));
      [discriminate|].
    intros Hidx He. destruct (Hb ds e Hidx He) as [Hf [r Hr]]. split; [exact Hf|].
    rewrite lookup_insert. destruct (decide _); eauto.
  - intros path x. rewrite lookup_insert.
    destruct (decide _); [discriminate|apply Ht].
Qed.

Lemma well_filed_insert_index d R ds now :
  file_name (Models.deployment_id R) = true -> well_filed d ->
  d !! index_file = Some (Whole (IndexDoc ds)) ->
  (exists r, d !! deployment_file (Models.deployment_id R)
             = Some (Whole (RecordDoc r))) ->
  well_filed (<[index_file := Whole (IndexDoc (others (Models.deployment_id R) ds
                                               ++ [index_entry R now]))]> d).
Proof.
  intros HR (Hn & Hb & Ht) Hidx [r Hr]. split; [|split].
  - intros id r' Hid. rewrite lookup_insert.
    destruct (decide (index_file = deployment_file id)); [discriminate|apply Hn, Hid].
  - intros ds' e. rewrite lookup_insert_eq. intros [= <-] He.
    apply in_app_or in He as [He|[<-|[]]].
    + apply in_others in He as [He _].
      destruct (Hb ds e Hidx He) as [Hf [r' Hr']]. split; [exact Hf|].
      assert (Hne : index_file <> deployment_file (Entry.deployment_id e)).
      { intros E. rewrite <- E, Hidx in Hr'. discriminate. }
      rewrite lookup_insert_ne by exact Hne. eauto.
    + simpl. split; [exact HR|].
      assert (Hne : index_file <> deployment_file (Models.deployment_id R)).
      { intros E. rewrite <- E, Hidx in Hr. discriminate. }
      rewrite lookup_insert_ne by exact Hne. eauto.
  - intros path x. rewrite lookup_insert.
    destruct (decide _); [discriminate|apply Ht].
Qed.

Lemma init_well_filed env w :
  well_filed (files w) -> well_filed (files (snd (init env w))).
Proof.
  intros Hw. destruct (init_files env w) as [->|[Hnone ->]]; [exact Hw|].
  destruct Hw as (Hn & Hb & Ht). split; [|split].
  - intros id r Hid. rewrite lookup_insert.
    destruct (decide (index_file = deployment_file id)); [discriminate|apply Hn, Hid].
  - intros ds e. rewrite lookup_insert_eq. intros [= <-] [].
  - intros path x. rewrite lookup_insert.
    destruct (decide _); [discriminate|apply Ht].
Qed.

Lemma save_well_filed env R w :
  file_name (Models.deployment_id R) = true ->
  well_filed (files w) -> well_filed (files (snd (save env R w))).
Proof.
  intros HR Hw.
  destruct (save_files env R w) as [->|[->|(ds & now & Hne & Hidx & _ & ->)]].
  - exact Hw.
  - apply well_filed_insert_record; assumption.
  - apply well_filed_insert_index.
    + exact HR.
    + apply well_filed_insert_record; assumption.
    + rewrite lookup_insert_ne by exact Hne. exact Hidx.
    + exists R. apply lookup_insert_eq.
Qed.


End StoreOutcomes.

Section StoreProperties.
Import Fs StateManager MonadFacts StoreFacts ToolFacts SaveOutcome Invariants
       StoreOutcomes Fixtures.

(** X1.  Round trip: after a [save] that returns, [load] of the record's
    identifier returns the record. *)
Theorem save_then_load (env : Env) (R : Models.DeploymentRecord) (w w' : world) :
  save env R w = (Returns tt, w') ->
  load (Models.deployment_id R) w' = (Returns (Some R), w').
Proof. intros H%save_returns. apply load_whole, H. Qed.

Lemma save_then_load_witness :
  load "dep-20260218-upd001" (after (save calm (upd001 Models.STOPPED)) saved_once)
  = (Returns (Some (upd001 Models.STOPPED)),
     after (save calm (upd001 Models.STOPPED)) saved_once).
Proof.
  apply (save_then_load calm (upd001 Models.STOPPED) saved_once).
  vm_compute. reflexivity.
Defined.



(** X3.  When [save] returns, the new index is the old one without the
    entries of the record's identifier, in the old order, followed by one
    new entry: the entries of the other deployments are kept. *)
Theorem save_keeps_other_entries (env : Env) (R : Models.DeploymentRecord)
    (w w' : world) :
  save env R w = (Returns tt, w') ->
  exists ds now,
    files w !! index_file = Some (Whole (IndexDoc ds)) /\
    files w' !! index_file
    = Some (Whole (IndexDoc (others (Models.deployment_id R) ds
                             ++ [index_entry R now]))).
Proof.
  unfold save. intros ([] & w1 & Hw%atomic_write_returns & H)%bind_returns.
  apply update_index_returns in H as (ds & now & Hidx & ->).
  subst w1. simpl in Hidx. exists ds, now. rewrite lookup_insert in Hidx.
  destruct (decide _); [discriminate|]. split; [exact Hidx|apply lookup_insert_eq].
Qed.

Lemma save_keeps_other_entries_witness :
  exists ds now,
    files three_saved !! index_file = Some (Whole (IndexDoc ds)) /\
    files (after (save calm (upd001 Models.STOPPED)) three_saved) !! index_file
    = Some (Whole (IndexDoc (others "dep-20260218-upd001" ds
                             ++ [index_entry (upd001 Models.STOPPED) now]))).
Proof.
  apply (save_keeps_other_entries calm (upd001 Models.STOPPED) three_saved).
  vm_compute. reflexivity.
Defined.

(** X4.  [StateManager(...)] and [save] keep the directory well, whether
    they return or raise, as long as the records saved have identifiers
    that are file names (no [/] in them).  Well means: the file of such an
    identifier, when it holds a record, holds the record of that
    identifier; the index lists such identifiers only and every one listed
    has its record file; and no file is left torn (so no later read of an
    existing file fails to parse). *)
Theorem store_keeps_directory_well (env : Env) (R : Models.DeploymentRecord)
    (w : world) :
  well_filed (files w) ->
  well_filed (files (snd (init env w))) /\
  (file_name (Models.deployment_id R) = true ->
   well_filed (files (snd (save env R w)))).
Proof.
  intros Hw. split; [apply init_well_filed, Hw|].
  intros HR. apply save_well_filed; assumption.
Qed.

(** The state of [test_save_overwrites_same_id] after its first [save]. *)
Lemma saved_once_well_filed : well_filed (files saved_once).
Proof.
  unfold saved_once, after. unfold mbind at 1, M_bind at 1.
  pose proof (init_well_filed calm fresh well_filed_empty) as H0.
  destruct (init calm fresh) as [[[]|e] w0]; simpl in H0 |- *; [|exact H0].
  apply save_well_filed; [reflexivity|exact H0].
Qed.

Lemma store_keeps_directory_well_witness :
  well_filed (files (snd (init calm saved_once))) /\
  well_filed (files (snd (save calm (upd001 Models.STOPPED) saved_once))).
Proof.
  destruct (store_keeps_directory_well calm (upd001 Models.STOPPED) saved_once
              saved_once_well_filed) as [Hinit Hsave].
  split; [exact Hinit|apply Hsave; reflexivity].
Defined.

(** Without that condition the files are not kept apart: for [pathlib]
    the identifier [./dep-20260218-run001] names the file of
    [dep-20260218-run001], and in the directory [misfiled], left by a
    [save] of each, the file of the first holds the record of the
    second. *)
Example misfiled_not_named :
  file_name "./dep-20260218-run001" = false /\
  exists r,
    files misfiled !! deployment_file "./dep-20260218-run001"
    = Some (Whole (RecordDoc r)) /\
    Models.deployment_id r <> "./dep-20260218-run001".
Proof.
  split; [reflexivity|]. eexists. split; [vm_compute; reflexivity|]. discriminate.
Qed.

End StoreProperties.

Section StoreProperties2.
Import Fs StateManager MonadFacts StoreFacts ToolFacts SaveOutcome Invariants
       StoreOutcomes Fixtures.

(** X5.  In a directory that is well kept, [find_latest_successful] finds
    a record whenever an index entry matches: it returns (it neither
    raises nor returns [None]) the record of a matching entry, [running]
    for the given repository, not the excluded one, and no matching entry
    is later than it. *)
Theorem find_latest_successful_finds (repo_url : string) (exclude : option string)
    (w : world) (ds : list Entry.t) (d0 : Entry.t) :
  well_kept (files w) ->
  files w !! index_file = Some (Whole (IndexDoc ds)) ->
  In d0 ds -> Entry.repo_url d0 = repo_url -> Entry.status d0 = "running" ->
  exclude <> Some (Entry.deployment_id d0) ->
  exists r latest,
    find_latest_successful repo_url exclude w = (Returns (Some r), w) /\
    In latest ds /\ Entry.repo_url latest = repo_url /\
    Entry.status latest = "running" /\
    Models.deployment_id r = Entry.deployment_id latest /\
    exclude <> Some (Models.deployment_id r) /\
    String.leb (Entry.updated_at d0) (Entry.updated_at latest) = true.
Proof.
  intros (Hn & Hb & _) Hidx Hin Hrepo Hst Hex.
  assert (Hd0 : In d0 (List.filter
                   (fun d => String.eqb (Entry.repo_url d) repo_url
                             && String.eqb (Entry.status d) "running"
                             && differs (Entry.deployment_id d) exclude) ds))
    by (apply candidate_spec; auto).
  rewrite (find_latest_successful_unfold _ _ _ _ Hidx).
  destruct (sort_desc _ _) as [|latest t] eqn:Hsort.
  { apply sort_desc_nil in Hsort. rewrite Hsort in Hd0. destruct Hd0. }
  apply sort_desc_head in Hsort as [Hl Hmax].
  apply candidate_spec in Hl as (Hl1 & Hl2 & Hl3 & Hl4).
  destruct (Hb ds latest Hidx Hl1) as [r Hr].
  exists r, latest. rewrite (load_whole _ _ _ Hr).
  pose proof (Hn _ _ Hr) as Hid.
  split; [reflexivity|]. split; [exact Hl1|]. split; [exact Hl2|].
  split; [exact Hl3|]. split; [exact Hid|]. split.
  - rewrite Hid. exact Hl4.
  - apply Hmax, Hd0.
Qed.

(** The state of the tests is well kept: it is reached by [save]. *)
Lemma three_saved_well_kept : well_kept (files three_saved).
Proof.
  unfold three_saved, after.
  unfold mbind at 1, M_bind at 1.
  pose proof (init_well_kept calm fresh well_kept_empty) as H0.
  destruct (init calm fresh) as [[[]|e] w0]; simpl in H0 |- *; [|exact H0].
  unfold mbind at 1, M_bind at 1.
  pose proof (save_well_kept calm
    (_make_record "dep-20260218-run001" Models.RUNNING find_repo 8500) w0 H0) as H1.
  destruct (save calm _ w0) as [[[]|e] w1]; simpl in H1 |- *; [|exact H1].
  unfold mbind at 1, M_bind at 1.
  pose proof (save_well_kept calm
    (_make_record "dep-20260218-run002" Models.RUNNING find_repo 8501) w1 H1) as H2.
  destruct (save calm _ w1) as [[[]|e] w2]; simpl in H2 |- *; [|exact H2].
  apply save_well_kept, H2.
Qed.

Lemma find_latest_successful_finds_witness :
  exists r latest,
    find_latest_successful find_repo (Some "dep-20260218-fail01") three_saved
      = (Returns (Some r), three_saved) /\
    In latest three_saved_index /\ Entry.repo_url latest = find_repo /\
    Entry.status latest = "running" /\
    Models.deployment_id r = Entry.deployment_id latest /\
    Some "dep-20260218-fail01" <> Some (Models.deployment_id r) /\
    String.leb "2026-02-18T12:34:02.250000" (Entry.updated_at latest) = true.
Proof.
  assert (Hidx : files three_saved !! index_file
                 = Some (Whole (IndexDoc three_saved_index)))
    by (vm_compute; reflexivity).
  apply (find_latest_successful_finds find_repo (Some "dep-20260218-fail01")
           three_saved three_saved_index
           {| Entry.deployment_id := "dep-20260218-run001";
              Entry.status := "running";
              Entry.repo_url := find_repo;
              Entry.updated_at := "2026-02-18T12:34:02.250000" |}
           three_saved_well_kept Hidx).
  - vm_compute. left. reflexivity.
  - reflexivity.
  - reflexivity.
  - discriminate.
Defined.

(** X6.  A record whose [deployment_id] is ["index"] shares its file with
    the index.  [save] of such a record never returns; when its first
    write goes through, [index.json] holds the record, and reading the
    index raises [KeyError] from then on. *)
Theorem save_named_index_never_returns (env : Env) (R : Models.DeploymentRecord)
    (w : world) :
  Models.deployment_id R = "index" ->
  returned (fst (save env R w)) = false /\
  (files w !! mkstemp env (tick w) = None -> write_fault env (tick w) = NoFault ->
   files (snd (save env R w)) !! index_file = Some (Whole (RecordDoc R)) /\
   fst (list_all (snd (save env R w))) = Raises (KeyError "deployments")).
Proof.
  intros Hid. rewrite save_outcome, Hid.
  change (deployment_file "index") with index_file. cbn zeta.
  destruct (files w !! mkstemp env (tick w)); [split; [reflexivity|discriminate]|].
  destruct (write_fault env (tick w));
    try (split; [reflexivity|intros _; discriminate]).
  simpl. rewrite lookup_insert_eq. simpl. split; [reflexivity|]. intros _ _.
  split; [apply lookup_insert_eq|].
  unfold list_all, mbind, M_bind, _read_json. simpl.
  rewrite lookup_insert_eq. reflexivity.
Qed.

Lemma save_named_index_never_returns_witness :
  returned (fst (save calm (_make_record "index" Models.RUNNING find_repo 8500)
                   three_saved)) = false /\
  files (snd (save calm (_make_record "index" Models.RUNNING find_repo 8500)
                three_saved)) !! index_file
  = Some (Whole (RecordDoc (_make_record "index" Models.RUNNING find_repo 8500))) /\
  fst (list_all (snd (save calm (_make_record "index" Models.RUNNING find_repo 8500)
                        three_saved)))
  = Raises (KeyError "deployments").
Proof.
  destruct (save_named_index_never_returns calm
              (_make_record "index" Models.RUNNING find_repo 8500) three_saved)
    as [H1 H2]; [reflexivity|].
  split; [exact H1|]. apply H2; vm_compute; reflexivity.
Defined.



End StoreProperties2.

(* ===================================================================== *)
(** * Further properties of the validators *)
(* ===================================================================== *)

Module ValidatorFacts.
Import Str StrFacts Re ReFacts Validation Lines.

Lemma lang_star_cls p s : lang (Star (Cls p)) s <-> Str.all p s = true.
Proof.
  split.
  - intros H%lang_alphabet. exact H.
  - induction s as [|a s IH]; simpl; [constructor|].
    intros [Ha Hs]%andb_true_iff.
    change (String a s) with (String a "" +:+ s).
    constructor; [constructor; exact Ha|auto].
Qed.

Lemma append_assoc s t u : (s +:+ t) +:+ u = s +:+ (t +:+ u).
Proof. induction s as [|a s IH]; [reflexivity|]. rewrite !append_cons, IH. reflexivity. Qed.

(** A character reached through [.*] is on the first line. *)
Lemma first_line_has_after_dots p s c rest :
  Str.all dot s = true -> p c = true -> Ascii.eqb c newline = false ->
  first_line_has p (s +:+ String c rest) = true.
Proof.
  intros Hs Hc Hn. induction s as [|a s IH].
  - rewrite append_nil. simpl. rewrite Hn, Hc. reflexivity.
  - rewrite append_cons. simpl in *. apply andb_true_iff in Hs as [Ha Hs].
    unfold dot in Ha. apply negb_true_iff in Ha. rewrite Ha, (IH Hs).
    apply orb_true_r.
Qed.

Lemma first_line_has_split p s :
  first_line_has p s = true ->
  exists s1 c rest, s = s1 +:+ String c rest /\ Str.all dot s1 = true /\ p c = true.
Proof.
  induction s as [|a s IH]; simpl; [discriminate|].
  destruct (Ascii.eqb a newline) eqn:Ha; [discriminate|].
  destruct (p a) eqn:Hp.
  - intros _. exists "", a, s. auto.
  - simpl. intros (s1 & c & rest & -> & H1 & H2)%IH.
    exists (String a s1), c, rest. split; [reflexivity|]. split; [|exact H2].
    simpl. unfold dot at 1. rewrite Ha. exact H1.
Qed.

Lemma meta_not_newline c : meta c = true -> Ascii.eqb c newline = false.
Proof.
  intros H. destruct (Ascii.eqb_spec c newline) as [->|]; [|reflexivity].
  discriminate.
Qed.

(** A word of [.*cX...] for a metacharacter [c]. *)
Lemma lang_dots_then (c : ascii) (r1 r2 : regex) w :
  meta c = true ->
  lang (Seq (Star (Cls dot)) (Seq (Seq (Cls (Ascii.eqb c)) r1) r2)) w ->
  forall t, first_line_has meta (w +:+ t) = true.
Proof.
  intros Hc (s1 & s2 & -> & H1%lang_star_cls & H2)%lang_seq_inv t.
  apply lang_seq_inv in H2 as (s3 & s4 & -> & H3 & _).
  apply lang_seq_inv in H3 as (s5 & s6 & -> & (b & -> & Hb)%lang_cls_inv & _).
  apply Ascii.eqb_eq in Hb. subst b.
  rewrite !append_assoc, append_cons, append_nil.
  apply first_line_has_after_dots; [exact H1|exact Hc|apply meta_not_newline, Hc].
Qed.

Lemma dangerous_iff v :
  existsb (fun pattern => re_match pattern v) dangerous_patterns = first_line_has meta v.
Proof.
  apply eq_true_iff_eq. split.
  - unfold dangerous_patterns. simpl. rewrite !orb_true_iff.
    intros [H|[H|[H|H]]]; [| | |discriminate];
      apply re_match_lang in H as (p & t & -> & H).
    + apply lang_seq_inv in H as (s1 & s2 & -> & H1%lang_star_cls & H2).
      apply lang_seq_inv in H2 as (s3 & s4 & -> & (b & -> & Hb)%lang_cls_inv & _).
      rewrite !append_assoc, append_cons, append_nil.
      apply first_line_has_after_dots; [exact H1|exact Hb|apply meta_not_newline, Hb].
    + eapply (lang_dots_then "$"%char); [reflexivity|exact H].
    + eapply (lang_dots_then "`"%char); [reflexivity|exact H].
  - intros (s1 & c & rest & -> & H1 & H2)%first_line_has_split.
    unfold dangerous_patterns. simpl. apply orb_true_iff. left.
    apply re_match_lang. exists (s1 +:+ String c ""), rest. split.
    + rewrite append_assoc. reflexivity.
    + constructor; [apply lang_star_cls, H1|].
      change (String c "") with (String c "" +:+ "").
      constructor; [constructor; exact H2|constructor].
Qed.

Lemma sanitize_cons key value rest :
  sanitize_environment_variables ((key, value) :: rest) =
  if negb (re_match_eol env_key_pattern key) then
    Raises (ValidationError ("Invalid environment variable name: " +:+ key))
  else if first_line_has meta value then
    Raises (ValidationError
              ("Environment variable contains dangerous characters: " +:+ key))
  else
    match sanitize_environment_variables rest with
    | Returns sanitized => Returns ((key, value) :: sanitized)
    | Raises e => Raises e
    end.
Proof. rewrite <- dangerous_iff. reflexivity. Qed.

Lemma chomp_append_newline s : Str.chomp (s +:+ String newline "") = Some s.
Proof.
  induction s as [|a s IH]; [reflexivity|].
  rewrite append_cons. simpl. rewrite IH.
  destruct (s +:+ String newline "") eqn:E; [|reflexivity].
  destruct s; discriminate.
Qed.

Lemma chomp_none_no_newline s : Str.contains newline s = false -> Str.chomp s = None.
Proof.
  unfold newline. induction s as [|a s IH]; [reflexivity|]. simpl.
  intros [Ha Hs]%orb_false_iff. destruct s as [|b s].
  - rewrite Ha. reflexivity.
  - rewrite (IH Hs). reflexivity.
Qed.

(** The [$] of a pattern accepts one final newline after whatever the
    pattern accepts. *)
Lemma re_match_eol_final_newline r s :
  re_match_eol r s = true -> Str.contains newline s = false ->
  re_match_eol r (s +:+ String newline "") = true.
Proof.
  unfold re_match_eol. intros H Hn. rewrite (chomp_none_no_newline _ Hn) in H.
  rewrite orb_false_r in H. rewrite chomp_append_newline, H. apply orb_true_r.
Qed.

(** Words of [c1 c2+] have two characters at least. *)
Lemma lang_container_name_length s :
  lang container_name_pattern s -> (2 <= String.length s)%nat.
Proof.
  unfold container_name_pattern, Plus.
  intros (s1 & s2 & -> & (a & -> & _)%lang_cls_inv & H)%lang_seq_inv.
  apply lang_seq_inv in H as (s3 & s4 & -> & (b & -> & _)%lang_cls_inv & _).
  rewrite !length_append. simpl. lia.
Qed.

End ValidatorFacts.

Section ValidatorProperties.
Import Str StrFacts Re ReFacts Validation Lines ValidatorFacts.

(** X8.  [sanitize_environment_variables] returns its argument unchanged
    or raises, and it returns exactly when every key matches
    [[A-Z_][A-Z0-9_]*] (up to a final newline) and no value has one of the
    characters [;], [&], [|], [`], [$] on its first line.  Since [.]
    does not match a newline, what follows the first newline of a value is
    not looked at; the second and third pattern reject nothing that the
    first one accepts. *)
Theorem sanitize_checks_first_line_only (env_vars : list (string * string)) :
  (forall out, sanitize_environment_variables env_vars = Returns out ->
               out = env_vars) /\
  (returned (sanitize_environment_variables env_vars) = true <->
   Forall (fun kv => re_match_eol env_key_pattern (fst kv) = true /\
                     first_line_has meta (snd kv) = false) env_vars).
Proof.
  induction env_vars as [|[key value] rest [IH1 IH2]].
  - split; [intros out [= <-]; reflexivity|]. split; [constructor|reflexivity].
  - rewrite sanitize_cons.
    destruct (re_match_eol env_key_pattern key) eqn:Hk; simpl.
    2:{ split; [discriminate|]. split; [discriminate|].
        intros H. inversion H as [|? ? [Hk' _] _]. simpl in Hk'. congruence. }
    destruct (first_line_has meta value) eqn:Hv; simpl.
    { split; [discriminate|]. split; [discriminate|].
      intros H. inversion H as [|? ? [_ Hv'] _]. simpl in Hv'. congruence. }
    destruct (sanitize_environment_variables rest) as [out'|e]; simpl in *.
    + split; [intros out [= <-]; rewrite (IH1 out' eq_refl); reflexivity|].
      split; [intros _; constructor; [auto|apply IH2; reflexivity]|reflexivity].
    + split; [discriminate|]. split; [discriminate|].
      intros H. inversion H as [|? ? _ Hrest]. apply IH2 in Hrest. discriminate.
Qed.

(** A command on the second line of a value goes through. *)
Example newline_hides_metacharacters :
  sanitize_environment_variables [("CMD", "x" +:+ String newline "; rm -rf /")]
  = Returns [("CMD", "x" +:+ String newline "; rm -rf /")].
Proof. reflexivity. Qed.

(** X9.  The [$] that ends the patterns also matches before a final
    newline: an accepted deployment identifier or container name without
    a newline is accepted again with one newline appended (the name
    within the limit of 63 characters). *)
Theorem dollar_lets_final_newline_through (s : string) :
  Str.contains newline s = false ->
  (validate_deployment_id s = Returns s ->
   validate_deployment_id (s +:+ String newline "")
   = Returns (s +:+ String newline "")) /\
  (validate_container_name s = Returns s -> (String.length s < 63)%nat ->
   validate_container_name (s +:+ String newline "")
   = Returns (s +:+ String newline "")).
Proof.
  intros Hn. split.
  - unfold validate_deployment_id.
    destruct (re_match_eol deployment_id_pattern s) eqn:E; [|discriminate].
    intros _. rewrite (re_match_eol_final_newline _ _ E Hn). reflexivity.
  - unfold validate_container_name.
    destruct (re_match_eol container_name_pattern s) eqn:E; [|discriminate].
    intros _ Hlen. rewrite (re_match_eol_final_newline _ _ E Hn). simpl.
    rewrite length_append. simpl.
    destruct (63 <? String.length s + 1)%nat eqn:L; [|reflexivity].
    apply Nat.ltb_lt in L. lia.
Qed.

Lemma dollar_lets_final_newline_through_witness :
  validate_deployment_id ("dep-20260218-abc123" +:+ String newline "")
  = Returns ("dep-20260218-abc123" +:+ String newline "") /\
  validate_container_name ("dep-20260218-abc123" +:+ String newline "")
  = Returns ("dep-20260218-abc123" +:+ String newline "").
Proof.
  destruct (dollar_lets_final_newline_through "dep-20260218-abc123") as [H1 H2];
    [reflexivity|].
  split; [apply H1; reflexivity|apply H2; [reflexivity|simpl; lia]].
Defined.

(** X10.  A container name that [validate_container_name] accepts is
    returned unchanged, has between 2 and 63 characters, and consists of
    letters, digits, [_] and [-], but for a possible final newline: it is
    a word of these characters, or such a word followed by one newline. *)
Theorem validate_container_name_accepts (name out : string) :
  validate_container_name name = Returns out ->
  out = name /\
  (2 <= String.length name <= 63)%nat /\
  exists core,
    (name = core \/ name = core +:+ String newline "") /\
    Str.all (fun c => lower c || upper c || digit c || one_of "_-" c) core = true.
Proof.
  unfold validate_container_name.
  destruct (re_match_eol container_name_pattern name) eqn:E; [|discriminate]. simpl.
  destruct (63 <? String.length name)%nat eqn:L; [discriminate|].
  intros [= <-]. split; [reflexivity|]. apply Nat.ltb_ge in L.
  assert (Hcls : forall s, lang container_name_pattern s ->
                   Str.all (fun c => lower c || upper c || digit c || one_of "_-" c) s
                   = true).
  { intros s Hs%lang_alphabet. eapply all_impl; [|exact Hs].
    intros c. unfold container_name_pattern, Plus. simpl.
    rewrite !orb_true_iff. intuition. }
  unfold re_match_eol in E. apply orb_true_iff in E as [E|E].
  - apply fullmatch_lang in E. split.
    + split; [apply lang_container_name_length, E|exact L].
    + exists name. split; [left; reflexivity|apply Hcls, E].
  - destruct (Str.chomp name) as [s'|] eqn:Hc; [|discriminate].
    apply chomp_app in Hc as ->. apply fullmatch_lang in E. split.
    + split; [|exact L]. apply lang_container_name_length in E.
      rewrite length_append. lia.
    + exists s'. split; [right; reflexivity|apply Hcls, E].
Qed.

Lemma validate_container_name_accepts_witness :
  "hello-demo" = "hello-demo" /\
  (2 <= String.length "hello-demo" <= 63)%nat /\
  exists core,
    ("hello-demo" = core \/ "hello-demo" = core +:+ String newline "") /\
    Str.all (fun c => lower c || upper c || digit c || one_of "_-" c) core = true.
Proof.
  apply (validate_container_name_accepts "hello-demo" "hello-demo"). reflexivity.
Defined.

End ValidatorProperties.


(** * Git URLs: what [validate_git_url] lets through
    ([utils/git_utils.py], lines 98-145) *)

Module GitUrlFacts.
Import Str StrFacts GitUtils.

Lemma strip_prefix_app l s : strip_prefix l (l +:+ s) = Some s.
Proof.
  induction l as [|a l IH]; [destruct s; reflexivity|].
  rewrite append_cons. simpl. rewrite Ascii.eqb_refl. exact IH.
Qed.

Lemma strip_prefix_some l : forall s rest, strip_prefix l s = Some rest -> s = l +:+ rest.
Proof.
  induction l as [|a l IH]; intros s rest.
  - destruct s; intros [= <-]; reflexivity.
  - destruct s as [|b s]; simpl; [discriminate|].
    destruct (Ascii.eqb_spec a b) as [->|]; [|discriminate].
    intros H%IH. rewrite append_cons, H. reflexivity.
Qed.

Lemma before_app c h t : Str.contains c h = false -> Str.before c (h +:+ String c t) = h.
Proof. intros H. unfold Str.before. rewrite (split_once_app _ _ _ H). reflexivity. Qed.

Lemma split_once_contains c s :
  Str.contains c s = true ->
  s = Str.before c s +:+ String c (snd (Str.split_once c s)) /\
  Str.contains c (Str.before c s) = false.
Proof.
  unfold Str.before. induction s as [|a s IH]; simpl; [discriminate|].
  destruct (Ascii.eqb a c) eqn:E.
  - intros _. apply Ascii.eqb_eq in E. subst. simpl. auto.
  - simpl. intros [H1 H2]%IH. destruct (Str.split_once c s) as [h t]. simpl in *.
    rewrite E. rewrite append_cons, <- H1. auto.
Qed.

Lemma group_at_some lits c s g :
  group_at lits c s = Some g ->
  exists l rest, In l lits /\ s = l +:+ g +:+ String c rest /\
                 Str.truthy g = true /\ Str.contains c g = false.
Proof.
  induction lits as [|l lits IH]; simpl; [discriminate|].
  destruct (strip_prefix l s) as [rest|] eqn:Hp.
  - destruct (Str.contains c rest && Str.truthy (Str.before c rest)) eqn:Hc.
    + intros [= <-]. apply andb_true_iff in Hc as [Hc Ht].
      apply strip_prefix_some in Hp. apply split_once_contains in Hc as [Hs Hn].
      exists l, (snd (Str.split_once c rest)). rewrite <- Hs. auto.
    + intros (l' & rest' & ? & ?)%IH. exists l', rest'. auto.
  - intros (l' & rest' & ? & ?)%IH. exists l', rest'. auto.
Qed.

Lemma search_group_some lits c s g :
  search_group lits c s = Some g ->
  exists pre l rest, In l lits /\ s = pre +:+ l +:+ g +:+ String c rest /\
                     Str.truthy g = true /\ Str.contains c g = false.
Proof.
  induction s as [|a s IH]; simpl.
  - destruct (group_at lits c "") eqn:E; [|discriminate].
    intros [= <-]. apply group_at_some in E as (l & rest & ? & ? & ?).
    exists "", l, rest. auto.
  - destruct (group_at lits c (String a s)) eqn:E.
    + intros [= <-]. apply group_at_some in E as (l & rest & ? & ? & ?).
      exists "", l, rest. auto.
    + intros (pre & l & rest & ? & -> & ?)%IH. exists (String a pre), l, rest. auto.
Qed.

Lemma search_group_unfold lits c s :
  search_group lits c s =
  match group_at lits c s with
  | Some g => Some g
  | None => match s with "" => None | String _ s' => search_group lits c s' end
  end.
Proof. destruct s; reflexivity. Qed.

Lemma truthy_ne s : s <> "" -> Str.truthy s = true.
Proof. destruct s; [congruence|reflexivity]. Qed.

Lemma contains_mid c h t : Str.contains c (h +:+ String c t) = true.
Proof. rewrite contains_app. simpl. rewrite Ascii.eqb_refl. apply orb_true_r. Qed.

Lemma startswith_app l s : Str.startswith l (l +:+ s) = true.
Proof.
  unfold Str.startswith. induction l as [|a l IH].
  - destruct s; reflexivity.
  - rewrite append_cons. simpl. destruct (ascii_dec a a); [exact IH|congruence].
Qed.

End GitUrlFacts.

Section GitUrlAcceptance.
Import Str StrFacts GitUtils GitUrlFacts Fixtures.

(** X11.  A URL that [validate_git_url] accepts holds none of the five
    dangerous characters, and a host of the allow-list occurs in it as the
    regular expression reads it: a non-empty text right after ["git@"] and
    before the next [":"], or right after ["http://"] or ["https://"] and
    before the next ["/"]. *)
Theorem validate_git_url_accepts (url : string) (allowed_hosts : list string) :
  validate_git_url url allowed_hosts = Returns tt ->
  (forall c, In c dangerous_chars -> Str.contains c url = false) /\
  exists hostname pre rest,
    In hostname allowed_hosts /\ hostname <> "" /\
    (url = pre +:+ "git@" +:+ hostname +:+ ":" +:+ rest
       /\ Str.contains ":" hostname = false
     \/ (url = pre +:+ "http://" +:+ hostname +:+ "/" +:+ rest
         \/ url = pre +:+ "https://" +:+ hostname +:+ "/" +:+ rest)
        /\ Str.contains "/" hostname = false).
Proof.
  unfold validate_git_url. destruct (negb _); [discriminate|].
  destruct (existsb _ dangerous_chars) eqn:Hd; [discriminate|].
  intros H. split.
  { intros c Hc. destruct (Str.contains c url) eqn:E; [|reflexivity].
    assert (existsb (fun char => Str.contains char url) dangerous_chars = true).
    { apply existsb_exists. eauto. }
    congruence. }
  destruct (Str.startswith "git@" url).
  - destruct (search_group ["git@"] ":" url) as [hostname|] eqn:Hs; [|discriminate].
    destruct (existsb (String.eqb hostname) allowed_hosts) eqn:Ha; [|discriminate].
    apply existsb_exists in Ha as (h & Hin & ->%String.eqb_eq).
    apply search_group_some in Hs as (pre & l & rest & [<-|[]] & -> & Ht & Hn).
    exists h, pre, rest. split; [exact Hin|]. split; [destruct h; [discriminate|congruence]|].
    left. auto.
  - destruct (search_group ["http://"; "https://"] "/" url) as [hostname|] eqn:Hs;
      [|discriminate].
    destruct (existsb (String.eqb hostname) allowed_hosts) eqn:Ha; [|discriminate].
    apply existsb_exists in Ha as (h & Hin & ->%String.eqb_eq).
    apply search_group_some in Hs as (pre & l & rest & Hl & -> & Ht & Hn).
    exists h, pre, rest. split; [exact Hin|]. split; [destruct h; [discriminate|congruence]|].
    right. split; [|exact Hn]. destruct Hl as [<-|[<-|[]]]; auto.
Qed.

Lemma validate_git_url_accepts_witness :
  (forall c, In c dangerous_chars ->
             Str.contains c "https://github.com/user/repo.git" = false) /\
  exists hostname pre rest,
    In hostname ALLOWED /\ hostname <> "" /\
    ("https://github.com/user/repo.git" = pre +:+ "git@" +:+ hostname +:+ ":" +:+ rest
       /\ Str.contains ":" hostname = false
     \/ ("https://github.com/user/repo.git" = pre +:+ "http://" +:+ hostname +:+ "/" +:+ rest
         \/ "https://github.com/user/repo.git"
            = pre +:+ "https://" +:+ hostname +:+ "/" +:+ rest)
        /\ Str.contains "/" hostname = false).
Proof.
  apply (validate_git_url_accepts "https://github.com/user/repo.git" ALLOWED).
  vm_compute. reflexivity.
Defined.

(** X12.  For a URL made of a scheme (["https://"], ["http://"] or
    ["git@"]), a non-empty host without the separator of that scheme
    (["/"], or [":"] after ["git@"]), the separator and any rest, the
    outcome is decided by two tests only: the URL is rejected when it holds
    a dangerous character, else accepted exactly when the host is in the
    allow-list, and the rejection names the host. *)
Theorem validate_git_url_of_host (scheme : string) (sep : ascii) (host rest : string)
    (allowed_hosts : list string) :
  In (scheme, sep) [("https://", "/"%char); ("http://", "/"%char); ("git@", ":"%char)] ->
  host <> "" -> Str.contains sep host = false ->
  let url := scheme +:+ host +:+ String sep rest in
  validate_git_url url allowed_hosts =
  if existsb (fun char => Str.contains char url) dangerous_chars then
    Raises (GitOperationError "Git URL contains dangerous characters")
  else if existsb (String.eqb host) allowed_hosts then Returns tt
  else Raises (GitOperationError ("Git host " +:+ host +:+ " not in allowed list")).
Proof.
  intros Hin Hne Hsep url. unfold validate_git_url.
  assert (Hg : Str.contains sep (host +:+ String sep rest)
               && Str.truthy (Str.before sep (host +:+ String sep rest)) = true).
  { rewrite contains_mid, (before_app _ _ _ Hsep), (truthy_ne _ Hne). reflexivity. }
  destruct Hin as [[= <- <-]|[[= <- <-]|[[= <- <-]|[]]]]; subst url.
  - rewrite startswith_app.
    change (Str.startswith "git@" ("https://" +:+ host +:+ String "/" rest)) with false.
    simpl negb. cbv iota.
    destruct (existsb _ dangerous_chars); [reflexivity|].
    rewrite search_group_unfold. unfold group_at.
    change (strip_prefix "http://" ("https://" +:+ host +:+ String "/" rest)) with (@None string).
    rewrite strip_prefix_app, Hg, (before_app _ _ _ Hsep).
    destruct (existsb _ allowed_hosts); reflexivity.
  - rewrite startswith_app.
    change (Str.startswith "git@" ("http://" +:+ host +:+ String "/" rest)) with false.
    rewrite orb_true_r. simpl negb. cbv iota.
    destruct (existsb _ dangerous_chars); [reflexivity|].
    rewrite search_group_unfold. unfold group_at.
    rewrite strip_prefix_app, Hg, (before_app _ _ _ Hsep).
    destruct (existsb _ allowed_hosts); reflexivity.
  - rewrite startswith_app.
    rewrite orb_true_r. simpl negb. cbv iota.
    destruct (existsb _ dangerous_chars); [reflexivity|].
    rewrite search_group_unfold. unfold group_at.
    rewrite strip_prefix_app, Hg, (before_app _ _ _ Hsep).
    destruct (existsb _ allowed_hosts); reflexivity.
Qed.

Lemma validate_git_url_of_host_witness :
  validate_git_url ("git@" +:+ "gitlab.com" +:+ String ":" "user/repo.git") ALLOWED =
  if existsb (fun char => Str.contains char
                ("git@" +:+ "gitlab.com" +:+ String ":" "user/repo.git")) dangerous_chars
  then Raises (GitOperationError "Git URL contains dangerous characters")
  else if existsb (String.eqb "gitlab.com") ALLOWED then Returns tt
  else Raises (GitOperationError ("Git host " +:+ "gitlab.com" +:+ " not in allowed list")).
Proof.
  apply (validate_git_url_of_host "git@" ":" "gitlab.com" "user/repo.git" ALLOWED).
  - right. right. left. reflexivity.
  - discriminate.
  - reflexivity.
Defined.

End GitUrlAcceptance.


(* ===================================================================== *)
(** * Ports and the requests of a deployment ([utils/docker_utils.py]) *)
(* ===================================================================== *)

Module PortFacts.
Import DockerUtils.

Lemma validate_port_returns port lo hi v :
  Validation.validate_port port lo hi = Returns v -> v = port /\ lo <= port <= hi.
Proof.
  unfold Validation.validate_port.
  destruct (Z.leb_spec lo port), (Z.leb_spec port hi); simpl; try discriminate.
  intros [= <-]. auto.
Qed.

Lemma validate_port_cases port lo hi :
  (Validation.validate_port port lo hi = Returns port /\ lo <= port <= hi) \/
  exists msg, Validation.validate_port port lo hi = Raises (ValidationError msg).
Proof.
  unfold Validation.validate_port.
  destruct (Z.leb_spec lo port), (Z.leb_spec port hi); simpl; eauto;
    left; split; auto; lia.
Qed.

End PortFacts.

Section PortProperties.
Import Docker DockerUtils ToolFacts PortFacts Fixtures.

(** X13.  [find_available_port] tries the numbers of [start..end] in
    increasing order and changes nothing.  It returns the least one that
    can be bound, every smaller one being a port of 0..65535 that cannot.
    It raises [PortConflictError] exactly when all of them are ports of
    0..65535 and none can be bound.  When the scan reaches a number
    outside 0..65535 before it finds a port, [bind] raises
    [OverflowError], which nothing catches. *)
Theorem find_available_port_least (env : Env) (start end_ : Z) (w : world) :
  match find_available_port env start end_ w with
  | (Returns port, w') =>
      w' = w /\ start <= port <= end_ /\ 0 <= port <= 65535 /\
      port_bindable env port = true /\
      forall q, start <= q < port -> 0 <= q <= 65535 /\ port_bindable env q = false
  | (Raises e, w') =>
      w' = w /\
      (((exists msg p, e = PortConflictError msg p) /\
        forall q, start <= q <= end_ ->
                  0 <= q <= 65535 /\ port_bindable env q = false) \/
       (e = OverflowError /\
        exists p, start <= p <= end_ /\ ~ 0 <= p <= 65535 /\
                  forall q, start <= q < p ->
                            0 <= q <= 65535 /\ port_bindable env q = false))
  end.
Proof.
  destruct (find_available_port env start end_ w) as [[port|e] w'] eqn:E.
  - apply find_available_port_returns, E.
  - apply find_available_port_raises, E.
Qed.

(** The range 70000..70001 of no ports, and the range 65535..65536 with
    the one port taken. *)
Example find_available_port_overflows :
  find_available_port calm 70000 70001 fresh = (Raises OverflowError, fresh) /\
  find_available_port (taken calm 65535) 65535 65536 fresh
  = (Raises OverflowError, fresh).
Proof. split; vm_compute; reflexivity. Qed.

(** X14.  The requests of [deploy_container] of [docker_utils.py].  For
    a host port outside 0..65535 the [bind] of [is_port_available] raises
    [OverflowError], which is not caught, and the engine is asked
    nothing.  When the host port cannot be bound the function raises
    [PortConflictError] and the engine is asked nothing.  Otherwise the
    engine gets two requests, whatever it answers to the first: the
    clean-up of the container name, then one [run] that publishes the
    port on 127.0.0.1 only, forbids new privileges and passes the
    caller's variables except [RUN_AS_USER]; the call returns the
    container exactly when [run] starts it.  No file is touched. *)
Theorem util_deploy_requests (env : Env) (image_tag container_name : string)
    (host_port container_port : Z) (env_vars : option (list (string * string)))
    (w : world) :
  let out := deploy_container env image_tag container_name host_port container_port
               env_vars w in
  files (snd out) = files w /\
  if (0 <=? host_port) && (host_port <=? 65535) then
    if port_bindable env host_port then
      exists args,
        calls (snd out) = calls w ++ [StopRemove container_name; Run args] /\
        image args = image_tag /\ name args = container_name /\
        ports args = (str_of_Z container_port +:+ "/tcp", ("127.0.0.1", host_port)) /\
        security_opt args = ["no-new-privileges:true"] /\
        (forall k v, In (k, v) (environment args)
                     <-> In (k, v) (default [] env_vars) /\ k <> "RUN_AS_USER") /\
        (forall c, fst out = Returns c <-> engine_run env args = Started c)
    else
      calls (snd out) = calls w /\
      exists msg, fst out = Raises (PortConflictError msg host_port)
  else
    calls (snd out) = calls w /\ fst out = Raises OverflowError.
Proof.
  intros out. subst out.
  unfold deploy_container, is_port_available, cleanup_existing_container,
    get_stop_remove, containers_run, mbind, M_bind, mret, M_ret, raise.
  destruct ((0 <=? host_port) && (host_port <=? 65535)); [|simpl; auto].
  destruct (port_bindable env host_port); cbn beta iota; simpl negb; cbv iota.
  - set (args := run_kwargs image_tag container_name host_port container_port env_vars).
    split.
    + destruct (engine_run env args) as [c|msg]; [reflexivity|].
      destruct (has_substring _ _); reflexivity.
    + exists args. split.
      { destruct (engine_run env args) as [c|msg]; simpl.
        - rewrite <- app_assoc. reflexivity.
        - destruct (has_substring _ _); simpl; rewrite <- app_assoc; reflexivity. }
      do 4 (split; [reflexivity|]). split.
      * intros k v. unfold args, run_kwargs, safe_env. simpl.
        rewrite List.filter_In. simpl. rewrite negb_true_iff, String.eqb_neq. tauto.
      * intros c. destruct (engine_run env args) as [c'|msg]; simpl.
        -- split; intros [= ->]; reflexivity.
        -- destruct (has_substring _ _); simpl; split; discriminate.
  - simpl. split; [reflexivity|]. split; [reflexivity|]. eauto.
Qed.

(** Port 70000 on the calm host. *)
Example util_deploy_overflows :
  deploy_container calm "hello:v1" "hello-demo" 70000 8000 None fresh
  = (Raises OverflowError, fresh).
Proof. vm_compute. reflexivity. Qed.

End PortProperties.

(* ===================================================================== *)
(** * The [deploy_container] tool: how it fails, what it leaves
    ([tools/docker_tools.py]) *)
(* ===================================================================== *)

Module DeployFacts.
Import Str StrFacts Fs StateManager MonadFacts StoreFacts ToolFacts SaveOutcome Docker
       StoreOutcomes Invariants PortFacts.

Lemma bind_raises_inv {A B} (m : M A) (k : A -> M B) w e w' :
  (m ≫= k) w = (Raises e, w') ->
  m w = (Raises e, w') \/ exists a w1, m w = (Returns a, w1) /\ k a w1 = (Raises e, w').
Proof.
  unfold mbind, M_bind. destruct (m w) as [[a|e0] w1]; [eauto|].
  intros [= <- <-]. auto.
Qed.

Lemma validate_image_tag_raises tag e :
  Validation.validate_image_tag tag = Raises e -> exists msg, e = ValidationError msg.
Proof.
  unfold Validation.validate_image_tag.
  destruct (if Str.contains ":" tag then _ else _) as [name version].
  destruct (negb _); [intros [= <-]; eauto|].
  destruct (negb _); [intros [= <-]; eauto|discriminate].
Qed.

Lemma validate_container_name_raises name e :
  Validation.validate_container_name name = Raises e ->
  exists msg, e = ValidationError msg.
Proof.
  unfold Validation.validate_container_name.
  destruct (negb _); [intros [= <-]; eauto|].
  destruct (_ <? _)%nat; [intros [= <-]; eauto|discriminate].
Qed.

Lemma validate_deployment_id_raises deployment_id e :
  Validation.validate_deployment_id deployment_id = Raises e ->
  exists msg, e = ValidationError msg.
Proof.
  unfold Validation.validate_deployment_id.
  destruct (negb _); [intros [= <-]; eauto|discriminate].
Qed.

(** What the store raises. *)
Lemma atomic_write_raises_what env filepath data w e w' :
  _atomic_write_json env filepath data w = (Raises e, w') -> store_error e.
Proof.
  rewrite atomic_write_outcome. unfold store_error.
  destruct (files w !! _); [intros [= <- _]; auto|].
  destruct (write_fault env _); intros [= <- _]; eauto.
Qed.

Lemma init_raises_what env w e w' : init env w = (Raises e, w') -> store_error e.
Proof.
  unfold init, _ensure_index, mbind, M_bind, exists_.
  destruct (bool_decide _); simpl; [discriminate|]. apply atomic_write_raises_what.
Qed.

Lemma save_raises_what env R w e w' : save env R w = (Raises e, w') -> store_error e.
Proof.
  rewrite save_outcome. cbn zeta. unfold store_error.
  destruct (files w !! _); [intros [= <- _]; auto|].
  destruct (write_fault env _); try (intros [= <- _]; eauto).
  destruct (_ !! index_file) as [[[r|ds]|doc]|]; try (intros [= <- _]; eauto 6).
  apply atomic_write_raises_what.
Qed.

Lemma store_error_not_docker e : store_error e -> is_DockerOperationError e = false.
Proof. intros [->|[[msg ->]|[[k ->]| ->]]]; reflexivity. Qed.

Lemma store_error_not_validation e msg : store_error e -> e <> ValidationError msg.
Proof. intros [->|[[m ->]|[[k ->]| ->]]]; discriminate. Qed.

(** What [deploy_container] of [docker_utils.py] raises, and where it
    leaves the files. *)
Lemma util_deploy_raises env image_tag container_name host_port container_port
    env_vars w e w' :
  DockerUtils.deploy_container env image_tag container_name host_port container_port
    env_vars w = (Raises e, w') ->
  (0 <= host_port <= 65535 /\ is_DockerOperationError e = true /\ files w' = files w) \/
  (~ 0 <= host_port <= 65535 /\ e = OverflowError /\ w' = w).
Proof.
  unfold DockerUtils.deploy_container.
  intros [(Hout & -> & ->)%is_port_available_raises
         |(free & w1 & (Hr & -> & ->)%is_port_available_returns & H)]%bind_raises_inv;
    [right; auto|].
  left. split; [exact Hr|]. revert H.
  unfold DockerUtils.cleanup_existing_container, DockerUtils.get_stop_remove,
    DockerUtils.containers_run, mbind, M_bind, mret, M_ret.
  destruct (port_bindable env host_port); simpl; [|intros [= <- <-]; auto].
  destruct (engine_run env _); simpl; [discriminate|].
  destruct (DockerUtils.has_substring _ _); intros [= <- <-]; auto.
Qed.

Lemma get_docker_client_returns env w w' :
  DockerUtils.get_docker_client env w = (Returns tt, w') -> w' = w.
Proof.
  unfold DockerUtils.get_docker_client.
  destruct (docker_ping env); [intros [= <-]; reflexivity|discriminate].
Qed.

Lemma get_docker_client_raises env w e w' :
  DockerUtils.get_docker_client env w = (Raises e, w') ->
  is_DockerOperationError e = true /\ w' = w.
Proof.
  unfold DockerUtils.get_docker_client.
  destruct (docker_ping env); [discriminate|]. intros [= <- <-]. auto.
Qed.

(** The three ways the tool fails: on its arguments, before anything is
    done; on the port or the engine, before anything is written; in the
    store, after the container has been started. *)
Lemma tool_deploy_raises env a w e w' :
  DockerTools.deploy_container env a w = (Raises e, w') ->
  ((exists msg, e = ValidationError msg) /\ w' = w) \/
  (is_DockerOperationError e = true /\ files w' = files w) \/
  (store_error e /\
   exists name args c,
     calls w' = calls w ++ [StopRemove name; Run args] /\
     engine_run env args = Started c).
Proof.
  unfold DockerTools.deploy_container, lift.
  intros [H|(validated_tag & w1 & [= Htag <-] & H)]%bind_raises_inv.
  { injection H as H <-. apply validate_image_tag_raises in H. auto. }
  apply bind_raises_inv in H as [H|(validated_name & w2 & [= Hname <-] & H)].
  { injection H as H <-. apply validate_container_name_raises in H. auto. }
  apply bind_raises_inv in H as [H|(cport & w3 & [= Hcport <-] & H)].
  { injection H as H <-.
    destruct (validate_port_cases (DockerTools.container_port a) 1 65535)
      as [[E _]|[msg E]]; rewrite E in H; [discriminate|]. injection H as <-. eauto. }
  apply bind_raises_inv in H as [H|(assigned_port & w4 & Hport & H)].
  { destruct (DockerTools.host_port a) as [p|].
    - apply bind_raises_inv in H as [H|(p' & wa & [= Hp <-] & H)].
      + injection H as H <-. destruct (validate_port_cases p 1024 65535)
          as [[E _]|[msg E]]; rewrite E in H; [discriminate|]. injection H as <-. eauto.
      + apply validate_port_returns in Hp as [-> Hp].
        apply bind_raises_inv in H
          as [(Hout & _)%is_port_available_raises
             |(free & wb & (_ & -> & ->)%is_port_available_returns & H)]; [lia|].
        destruct (negb _); [|discriminate]. injection H as <- <-. right. left. auto.
    - apply find_available_port_configured in H as (-> & msg & p & ->).
      right. left. auto. }
  assert (w4 = w /\ 0 <= assigned_port <= 65535) as [-> Hassigned].
  { destruct (DockerTools.host_port a) as [p|].
    - apply bind_returns in Hport
        as (p' & wa & [= [-> Hp]%validate_port_returns <-] & Hport).
      apply bind_returns in Hport
        as (free & wb & (_ & _ & ->)%is_port_available_returns & Hport).
      destruct (negb free); [discriminate|]. injection Hport as <- <-.
      split; [reflexivity|lia].
    - apply find_available_port_returns in Hport as (-> & _ & Hr & _). auto. }
  apply bind_raises_inv in H as [H|([] & w5 & ->%get_docker_client_returns & H)].
  { apply get_docker_client_raises in H as [He ->]. right. left. auto. }
  apply bind_raises_inv in H as [H|(container & w6 & Hdep & H)].
  { apply util_deploy_raises in H as [(_ & He & Hf)|(Hout & _)]; [|tauto].
    right. left. auto. }
  apply util_deploy_returns in Hdep as (_ & Hrun & ->).
  right. right.
  assert (Hcalls : forall w9,
            calls w9 = calls (log_call (Run (DockerUtils.run_kwargs validated_tag
                                validated_name assigned_port cport
                                (DockerTools.env_vars a)))
                                (log_call (StopRemove validated_name) w)) ->
            exists name args c,
              calls w9 = calls w ++ [StopRemove name; Run args] /\
              engine_run env args = Started c).
  { intros w9 ->. eexists _, _, _. split; [|exact Hrun]. simpl.
    rewrite <- app_assoc. reflexivity. }
  apply bind_raises_inv in H as [H|(now & w7 & [= <- <-] & H)]; [discriminate|].
  apply bind_raises_inv in H as [H|([] & w8 & Hinit & H)].
  { split; [eapply init_raises_what, H|]. apply Hcalls.
    apply (f_equal snd) in H. simpl in H. rewrite <- H, init_calls. reflexivity. }
  apply (f_equal snd) in Hinit. simpl in Hinit.
  apply (f_equal calls) in Hinit. rewrite init_calls in Hinit. simpl in Hinit.
  apply bind_raises_inv in H as [H|([] & w9 & Hsave & H)]; [|discriminate].
  split; [eapply save_raises_what, H|]. apply Hcalls.
  apply (f_equal snd) in H. simpl in H. rewrite <- H, save_calls, <- Hinit. reflexivity.
Qed.

End DeployFacts.

Section DeployToolProperties.
Import Str StrFacts Fs StateManager MonadFacts StoreFacts ToolFacts SaveOutcome Docker
       StoreOutcomes Invariants PortFacts DeployFacts Fixtures.

(** X15.  A [deploy_container] call that raises [ValidationError] has
    done nothing: no request to the engine, no file, no reading of the
    clock.  One that raises [DockerOperationError] or one of its
    subclasses ([PortConflictError], [ContainerStartError]) has written
    no file. *)
Theorem deploy_container_fails_before_writing (env : Env) (a : DockerTools.arguments)
    (w : world) (e : exn) (w' : world) :
  DockerTools.deploy_container env a w = (Raises e, w') ->
  ((exists msg, e = ValidationError msg) -> w' = w) /\
  (is_DockerOperationError e = true -> files w' = files w).
Proof.
  intros [[[msg ->] ->]|[[He Hf]|[He _]]]%tool_deploy_raises.
  - split; [reflexivity|discriminate].
  - split; [|intros _; exact Hf]. intros [msg ->]. discriminate.
  - split.
    + intros [msg ->]. destruct (store_error_not_validation _ msg He eq_refl).
    + rewrite (store_error_not_docker _ He). discriminate.
Qed.

(** Port 80 is below the least host port the tool accepts. *)
Lemma deploy_container_fails_before_writing_witness :
  ((exists msg, ValidationError "Port must be between min and max" = ValidationError msg)
   -> fresh = fresh) /\
  (is_DockerOperationError (ValidationError "Port must be between min and max") = true
   -> files fresh = files fresh).
Proof.
  apply (deploy_container_fails_before_writing calm
           (on_host_port hello_demo (Some 80)) fresh).
  vm_compute. reflexivity.
Defined.

(** X16.  The container is started before the record is written, and
    nothing undoes the start.  When [deploy_container] raises an exception
    that is neither a [ValidationError] nor a [DockerOperationError] (the
    store raising on a failed write, for one), the engine has been asked
    to run the container and has started it, and that request is the last
    one: the container runs, and the tool has not returned its record. *)
Theorem deploy_container_store_failure_leaves_container (env : Env)
    (a : DockerTools.arguments) (w : world) (e : exn) (w' : world) :
  DockerTools.deploy_container env a w = (Raises e, w') ->
  (forall msg, e <> ValidationError msg) ->
  is_DockerOperationError e = false ->
  exists name args c,
    calls w' = calls w ++ [StopRemove name; Run args] /\
    engine_run env args = Started c.
Proof.
  intros [[[msg ->] _]|[[He _]|[_ H]]]%tool_deploy_raises Hv Hd.
  - destruct (Hv msg eq_refl).
  - congruence.
  - exact H.
Qed.

(** The write of the record file fails at [fsync]. *)
Lemma deploy_container_store_failure_leaves_container_witness :
  exists name args c,
    calls (after (DockerTools.deploy_container (calm_but 2 FsyncFails) hello_demo) fresh)
    = calls fresh ++ [StopRemove name; Run args] /\
    engine_run (calm_but 2 FsyncFails) args = Started c.
Proof.
  apply (deploy_container_store_failure_leaves_container (calm_but 2 FsyncFails)
           hello_demo fresh
           (ConfigurationError "Failed to write dep-20260218123400-hello-demo.json")).
  - vm_compute. reflexivity.
  - discriminate.
  - reflexivity.
Defined.

(** X17.  The host port of a deployment that returns can be bound, and
    it is the caller's port, which lies in 1024..65535, or, when the
    caller names none, the least port of the configured range that can be
    bound.  The container port is the caller's and lies in 1..65535, and
    the URL returned is [http://localhost:] followed by the host port. *)
Theorem deploy_container_port (env : Env) (a : DockerTools.arguments) (w : world)
    (out : DockerTools.deployed) (w' : world) :
  DockerTools.deploy_container env a w = (Returns out, w') ->
  port_bindable env (DockerTools.r_host_port out) = true /\
  match DockerTools.host_port a with
  | Some p => DockerTools.r_host_port out = p /\ 1024 <= p <= 65535
  | None =>
      port_range_start (settings env) <= DockerTools.r_host_port out
        <= port_range_end (settings env) /\
      forall q, port_range_start (settings env) <= q < DockerTools.r_host_port out ->
                port_bindable env q = false
  end /\
  DockerTools.r_container_port out = DockerTools.container_port a /\
  1 <= DockerTools.container_port a <= 65535 /\
  DockerTools.r_url out
  = "http://localhost:" +:+ DockerUtils.str_of_Z (DockerTools.r_host_port out).
Proof.
  unfold DockerTools.deploy_container, lift.
  intros (validated_tag & w1 & _ & H)%bind_returns.
  apply bind_returns in H as (validated_name & w2 & _ & H).
  apply bind_returns in H as (cport & w3 & [= [-> Hc]%validate_port_returns _] & H).
  apply bind_returns in H as (assigned_port & w4 & Hport & H).
  apply bind_returns in H as ([] & w5 & _ & H).
  apply bind_returns in H as (container & w6 & (Hfree & _ & _)%util_deploy_returns & H).
  apply bind_returns in H as (now & w7 & _ & H).
  apply bind_returns in H as ([] & w8 & _ & H).
  apply bind_returns in H as ([] & w9 & _ & [= <- _]). simpl.
  split; [exact Hfree|]. split; [|auto].
  destruct (DockerTools.host_port a) as [p|].
  - apply bind_returns in Hport
      as (p' & wa & [= [-> Hp]%validate_port_returns _] & Hport).
    apply bind_returns in Hport as (free & wb & _ & Hport).
    destruct (negb free); [discriminate|]. injection Hport as <- _. auto.
  - apply find_available_port_returns in Hport as (_ & Hr & _ & _ & Hl).
    split; [exact Hr|]. intros q Hq. apply Hl, Hq.
Qed.

(** No host port given, the ports 8000 and 8001 taken: 8002 is
    assigned. *)
Lemma deploy_container_port_witness :
  port_bindable crowded 8002 = true /\
  (port_range_start (settings crowded) <= 8002 <= port_range_end (settings crowded) /\
   forall q, port_range_start (settings crowded) <= q < 8002 ->
             port_bindable crowded q = false) /\
  8000 = 8000 /\
  1 <= 8000 <= 65535 /\
  "http://localhost:8002" = "http://localhost:" +:+ DockerUtils.str_of_Z 8002.
Proof.
  apply (deploy_container_port crowded (on_host_port hello_demo None) fresh
           {| DockerTools.r_deployment_id := "dep-20260218123400-hello-demo";
              DockerTools.r_container_id := "c0ffeehello-demo";
              DockerTools.r_container_name := "hello-demo";
              DockerTools.r_host_port := 8002;
              DockerTools.r_container_port := 8000;
              DockerTools.r_url := "http://localhost:8002";
              DockerTools.r_status := "running" |}
           (after (DockerTools.deploy_container crowded (on_host_port hello_demo None))
                  fresh)).
  vm_compute. reflexivity.
Defined.

(** X18.  What a deployment that returns has stored: [load] of the
    returned identifier returns a record that agrees with the returned
    dictionary on the container and the ports, is [running], has its three
    timestamps equal and no [rollback_from]; and [list_all] returns an
    index whose last entry is the entry of that deployment, [running]. *)
Theorem deploy_container_then_load (env : Env) (a : DockerTools.arguments) (w : world)
    (out : DockerTools.deployed) (w' : world) :
  DockerTools.deploy_container env a w = (Returns out, w') ->
  exists record ds,
    load (DockerTools.r_deployment_id out) w' = (Returns (Some record), w') /\
    Models.deployment_id record = DockerTools.r_deployment_id out /\
    Models.container_name record = DockerTools.r_container_name out /\
    Models.container_id record = Some (DockerTools.r_container_id out) /\
    Models.host_port record = DockerTools.r_host_port out /\
    Models.container_port record = DockerTools.r_container_port out /\
    Models.status record = Models.RUNNING /\
    Models.started_at record = Some (Models.created_at record) /\
    Models.completed_at record = Some (Models.created_at record) /\
    Models.rollback_from record = None /\
    list_all w' = (Returns ds, w') /\
    exists entry,
      last ds = Some entry /\
      Entry.deployment_id entry = DockerTools.r_deployment_id out /\
      Entry.status entry = "running" /\
      Entry.repo_url entry = Models.repo_url record.
Proof.
  unfold DockerTools.deploy_container, lift.
  intros (validated_tag & w1 & _ & H)%bind_returns.
  apply bind_returns in H as (validated_name & w2 & _ & H).
  apply bind_returns in H as (cport & w3 & _ & H).
  apply bind_returns in H as (assigned_port & w4 & _ & H).
  apply bind_returns in H as ([] & w5 & _ & H).
  apply bind_returns in H as (container & w6 & _ & H).
  apply bind_returns in H as (now & w7 & _ & H).
  apply bind_returns in H as ([] & w8 & _ & H).
  apply bind_returns in H as ([] & w9 & Hsave & [= <- <-]).
  pose proof (save_returns _ _ _ _ Hsave) as Hfile.
  unfold save in Hsave.
  apply bind_returns in Hsave as ([] & wa & _ & Hidx).
  apply update_index_returns in Hidx as (ds & now' & _ & Hidx).
  eexists _, _. split; [apply load_whole, Hfile|]. simpl.
  do 9 (split; [reflexivity|]). split.
  - unfold list_all.
    erewrite bind_step; [|apply read_json_whole; rewrite Hidx; apply lookup_insert_eq].
    reflexivity.
  - eexists. split; [apply last_snoc|]. simpl. auto.
Qed.

Lemma deploy_container_then_load_witness :
  exists record ds,
    load "dep-20260218123400-hello-demo"
         (after (DockerTools.deploy_container calm hello_demo) fresh)
    = (Returns (Some record), after (DockerTools.deploy_container calm hello_demo) fresh) /\
    Models.deployment_id record = "dep-20260218123400-hello-demo" /\
    Models.container_name record = "hello-demo" /\
    Models.container_id record = Some "c0ffeehello-demo" /\
    Models.host_port record = 8080 /\
    Models.container_port record = 8000 /\
    Models.status record = Models.RUNNING /\
    Models.started_at record = Some (Models.created_at record) /\
    Models.completed_at record = Some (Models.created_at record) /\
    Models.rollback_from record = None /\
    list_all (after (DockerTools.deploy_container calm hello_demo) fresh)
    = (Returns ds, after (DockerTools.deploy_container calm hello_demo) fresh) /\
    exists entry,
      last ds = Some entry /\
      Entry.deployment_id entry = "dep-20260218123400-hello-demo" /\
      Entry.status entry = "running" /\
      Entry.repo_url entry = Models.repo_url record.
Proof.
  apply (deploy_container_then_load calm hello_demo fresh
           {| DockerTools.r_deployment_id := "dep-20260218123400-hello-demo";
              DockerTools.r_container_id := "c0ffeehello-demo";
              DockerTools.r_container_name := "hello-demo";
              DockerTools.r_host_port := 8080;
              DockerTools.r_container_port := 8000;
              DockerTools.r_url := "http://localhost:8080";
              DockerTools.r_status := "running" |}).
  vm_compute. reflexivity.
Defined.

End DeployToolProperties.


(* ===================================================================== *)
(** * The lifecycle tools: [rollback] and [stop_deployment]
    ([tools/lifecycle_tools.py]) *)
(* ===================================================================== *)

Module IdFacts.
Import Str StrFacts Re ReFacts Fs StateManager.

Lemma get_all q s : forall n c,
  Str.all q s = true -> String.get n s = Some c -> q c = true.
Proof.
  induction s as [|a s IH]; intros n c; simpl; [discriminate|].
  intros [Ha Hs]%andb_true_iff. destruct n as [|n].
  - intros [= <-]. exact Ha.
  - apply IH, Hs.
Qed.

Lemma lang_deployment_id_tail w tail :
  lang Validation.deployment_id_pattern w ->
  exists d t, w +:+ tail = "dep-" +:+ d +:+ "-" +:+ t +:+ tail /\
              String.length d = 8%nat /\
              Str.all (fun c => lower c || digit c) t = true.
Proof.
  unfold Validation.deployment_id_pattern.
  intros (s1 & s2 & -> & ->%lang_lit & H)%lang_seq_inv.
  apply lang_seq_inv in H as (d & s3 & -> & Hd%lang_rep_cls & H).
  apply lang_seq_inv in H as (s4 & s5 & -> & ->%lang_lit & Ht).
  exists d, s5. split; [|split; [exact Hd|]].
  - rewrite !ValidatorFacts.append_assoc. reflexivity.
  - apply lang_alphabet in Ht. eapply all_impl; [|exact Ht].
    intros a. simpl. destruct (lower a || digit a); auto.
Qed.

(** The characters from the fourteenth on of an accepted identifier are
    lower-case letters and digits, a final newline apart. *)
Lemma re_match_eol_deployment_id_char s n c :
  re_match_eol Validation.deployment_id_pattern s = true ->
  String.get (13 + n) s = Some c ->
  lower c || digit c || Ascii.eqb c newline = true.
Proof.
  unfold re_match_eol. intros H Hget.
  assert (exists d t tail,
            s = "dep-" +:+ d +:+ "-" +:+ t +:+ tail /\ String.length d = 8%nat /\
            Str.all (fun c => lower c || digit c || Ascii.eqb c newline) (t +:+ tail)
            = true) as (d & t & tail & -> & Hd & Hall).
  { apply orb_true_iff in H as [H|H].
    - apply fullmatch_lang in H.
      destruct (lang_deployment_id_tail s "" H) as (d & t & E & Hd & Ht).
      exists d, t, "". split; [|split; [exact Hd|]].
      + rewrite <- E. clear. induction s as [|a s IH]; [reflexivity|].
        rewrite append_cons, <- IH. reflexivity.
      + rewrite all_app. simpl. rewrite andb_true_r.
        eapply all_impl; [|exact Ht]. intros a ->. reflexivity.
    - destruct (Str.chomp s) as [s'|] eqn:E; [|discriminate].
      apply chomp_app in E as ->. apply fullmatch_lang in H.
      destruct (lang_deployment_id_tail s' (String "010"%char "") H)
        as (d & t & E & Hd & Ht).
      exists d, t, (String "010"%char ""). split; [exact E|]. split; [exact Hd|].
      rewrite all_app. apply andb_true_iff. split.
      + eapply all_impl; [|exact Ht]. intros a ->. reflexivity.
      + reflexivity. }
  do 9 (destruct d as [|? d]; try discriminate).
  rewrite !append_cons, !append_nil in Hget. simpl in Hget.
  exact (get_all _ _ _ _ Hall Hget).
Qed.

(** The twenty-second character of a rollback identifier is a hyphen. *)
Lemma generated_rollback_id_not_accepted now prev_short_sha :
  re_match_eol Validation.deployment_id_pattern
    (LifecycleTools.generated_rollback_id now prev_short_sha) = false.
Proof.
  destruct (re_match_eol Validation.deployment_id_pattern _) eqn:E; [|reflexivity].
  assert (H : String.get (13 + 8)
                (LifecycleTools.generated_rollback_id now prev_short_sha)
              = Some "-"%char) by reflexivity.
  apply (re_match_eol_deployment_id_char _ _ _ E) in H. discriminate.
Qed.



End IdFacts.

Module LifecycleFacts.
Import Str StrFacts Fs StateManager MonadFacts StoreFacts ToolFacts SaveOutcome Docker
       StoreOutcomes Invariants PortFacts DeployFacts IdFacts.

Lemma load_raises deployment_id w e w' :
  load deployment_id w = (Raises e, w') -> store_error e /\ w' = w.
Proof.
  intros H. pose proof (load_reads _ _ _ _ H) as ->. split; [|reflexivity].
  revert H. unfold load, mbind, M_bind, exists_, _read_json, store_error.
  destruct (bool_decide _); simpl; [|discriminate].
  destruct (files w !! deployment_file deployment_id) as [[[?|?]|?]|]; simpl;
    intros [= <-]; eauto 6.
Qed.

Lemma find_latest_successful_raises repo_url exclude w e w' :
  find_latest_successful repo_url exclude w = (Raises e, w') -> store_error e /\ w' = w.
Proof.
  intros H. pose proof (find_latest_successful_reads _ _ _ _ _ H) as ->.
  split; [|reflexivity]. revert H.
  unfold find_latest_successful, mbind, M_bind, _read_json.
  destruct (files w !! index_file) as [[[?|ds]|?]|]; simpl;
    try (intros [= <-]; unfold store_error; eauto 6).
  destruct (sort_desc _ _); [discriminate|]. intros H. eapply load_raises, H.
Qed.

Lemma init_keeps_records env w path :
  path <> index_file -> files (snd (init env w)) !! path = files w !! path.
Proof.
  intros Hp. destruct (init_files env w) as [->|[_ ->]]; [reflexivity|].
  apply lookup_insert_ne. congruence.
Qed.

Lemma stop_attempt_keeps env name w r w' :
  try_except_DockerOperationError (DockerUtils.stop_and_remove_container env name) w
  = (r, w') -> r = Returns tt /\ files w' = files w.
Proof.
  unfold try_except_DockerOperationError, DockerUtils.stop_and_remove_container,
    DockerUtils.get_stop_remove, mbind, M_bind.
  destruct (engine_stop env name); simpl; intros [= <- <-]; auto.
Qed.

(** The ways [rollback] fails: on its arguments or for want of a
    deployment, before anything is done; on the engine; in the store; and
    on a recorded host port that is no port. *)
Lemma rollback_raises env deployment_id repo_url w e w' :
  LifecycleTools.rollback env deployment_id repo_url w = (Raises e, w') ->
  (((exists msg, e = ValidationError msg) \/ (exists msg, e = RollbackError msg)) /\
   calls w' = calls w /\
   forall path, path <> index_file -> files w' !! path = files w !! path) \/
  (is_DockerOperationError e = true /\
   forall path, path <> index_file -> files w' !! path = files w !! path) \/
  store_error e \/
  (e = OverflowError /\
   forall path, path <> index_file -> files w' !! path = files w !! path).
Proof.
  unfold LifecycleTools.rollback.
  destruct (negb (Str.truthy_opt deployment_id) && negb (Str.truthy_opt repo_url)).
  { intros [= <- <-]. left. eauto. }
  intros [H|([] & w1 & Hinit & H)]%bind_raises_inv.
  { right. right. left. eapply init_raises_what, H. }
  assert (Hfiles : forall path, path <> index_file -> files w1 !! path = files w !! path).
  { intros path Hp. rewrite <- (init_keeps_records env w path Hp), Hinit. reflexivity. }
  assert (Hcalls : calls w1 = calls w).
  { rewrite <- (init_calls env w), Hinit. reflexivity. }
  clear Hinit.
  apply bind_raises_inv in H
    as [H|([[failed_deployment target_repo_url] exclude_id] & w2 & Hsel & H)].
  { destruct (Str.truthy_opt deployment_id); [|discriminate].
    apply bind_raises_inv in H as [H|(validated_id & wa & [= Hv <-] & H)].
    { injection H as H <-. apply validate_deployment_id_raises in H. left. eauto. }
    apply bind_raises_inv in H as [H|(fo & wb & Hload & H)].
    { apply load_raises in H as [He _]. auto. }
    apply load_reads in Hload as ->.
    destruct fo; [discriminate|]. injection H as <- <-. left. eauto. }
  assert (w2 = w1) as ->.
  { destruct (Str.truthy_opt deployment_id).
    - apply bind_returns in Hsel as (validated_id & wa & [= _ <-] & Hsel).
      apply bind_returns in Hsel as (fo & wb & Hload & Hsel).
      apply load_reads in Hload as ->.
      destruct fo; [|discriminate]. injection Hsel as _ _ _ <-. reflexivity.
    - injection Hsel as _ _ _ <-. reflexivity. }
  clear Hsel.
  apply bind_raises_inv in H as [H|(previous_deployment & w3 & Hprev & H)].
  { apply find_latest_successful_raises in H as [He _]. auto. }
  apply find_latest_successful_reads in Hprev as ->.
  destruct previous_deployment as [previous|]; [|injection H as <- <-; left; eauto].
  apply bind_raises_inv in H as [H|([] & w4 & ->%get_docker_client_returns & H)].
  { apply get_docker_client_raises in H as [He ->]. right. left. auto. }
  apply bind_raises_inv in H as [H|([] & w5 & Hstop & H)].
  { destruct failed_deployment as [failed|]; [|discriminate].
    destruct (Str.truthy _); [|discriminate].
    apply stop_attempt_keeps in H as [[=] _]. }
  assert (Hw5 : files w5 = files w1).
  { destruct failed_deployment as [failed|]; [|injection Hstop as <-; reflexivity].
    destruct (Str.truthy _); [|injection Hstop as <-; reflexivity].
    apply stop_attempt_keeps in Hstop as [_ Hf]. exact Hf. }
  apply bind_raises_inv in H as [H|(today & w6 & [= <- <-] & H)]; [discriminate|].
  apply bind_raises_inv in H as [H|(container & w7 & Hdep & H)].
  { apply util_deploy_raises in H as [(_ & He & Hf)|(_ & -> & ->)].
    - right. left. split; [exact He|].
      intros path Hp. rewrite Hf. simpl. rewrite Hw5. apply Hfiles, Hp.
    - right. right. right. split; [reflexivity|].
      intros path Hp. simpl. rewrite Hw5. apply Hfiles, Hp. }
  apply bind_raises_inv in H as [H|(now & w8 & [= <- <-] & H)]; [discriminate|].
  apply bind_raises_inv in H as [H|([] & w9 & Hsave & H)]; [|discriminate].
  right. right. left. eapply save_raises_what, H.
Qed.

Lemma load_only_files deployment_id w1 w2 :
  files w1 = files w2 -> fst (load deployment_id w1) = fst (load deployment_id w2).
Proof.
  intros E. unfold load, mbind, M_bind, exists_, _read_json. cbn beta iota. rewrite !E.
  destruct (bool_decide _); simpl; [|reflexivity]. rewrite ?E.
  destruct (files w2 !! deployment_file deployment_id) as [[[?|?]|?]|]; reflexivity.
Qed.

Lemma find_latest_successful_only_files repo_url exclude w1 w2 :
  files w1 = files w2 ->
  fst (find_latest_successful repo_url exclude w1)
  = fst (find_latest_successful repo_url exclude w2).
Proof.
  intros E. unfold find_latest_successful, mbind, M_bind, _read_json. cbn beta iota.
  rewrite !E.
  destruct (files w2 !! index_file) as [[[?|ds]|?]|]; simpl; try reflexivity.
  destruct (sort_desc _ _); [reflexivity|]. apply load_only_files, E.
Qed.

Lemma find_latest_successful_pair repo_url exclude w :
  find_latest_successful repo_url exclude w
  = (fst (find_latest_successful repo_url exclude w), w).
Proof.
  destruct (find_latest_successful repo_url exclude w) as [r w'] eqn:E.
  apply find_latest_successful_reads in E as ->. reflexivity.
Qed.

Lemma stop_deployment_files env container_name w :
  files (snd (LifecycleTools.stop_deployment env container_name w)) = files w.
Proof.
  unfold LifecycleTools.stop_deployment, lift, DockerUtils.get_docker_client,
    DockerUtils.stop_and_remove_container, DockerUtils.get_stop_remove,
    mbind, M_bind, mret, M_ret, raise.
  destruct (Validation.validate_container_name container_name); [|reflexivity].
  destruct (docker_ping env); [|reflexivity]. simpl.
  destruct (engine_stop env _); reflexivity.
Qed.

End LifecycleFacts.

Section LifecycleProperties.
Import Str StrFacts Fs StateManager MonadFacts StoreFacts ToolFacts SaveOutcome Docker
       StoreOutcomes Invariants PortFacts DeployFacts IdFacts LifecycleFacts Fixtures.

(** X19.  The identifier [rollback] generates for its new record,
    [dep-YYYYMMDD-rollback-<short sha>], is rejected by
    [validate_deployment_id] at every date and for every commit: the
    deployment a rollback creates cannot be named as the [deployment_id]
    of a later [rollback]. *)
Theorem rollback_id_is_rejected (now : Datetime.datetime) (prev_short_sha : string) :
  Validation.validate_deployment_id
    (LifecycleTools.generated_rollback_id now prev_short_sha)
  = Raises (ValidationError
              ("Invalid deployment ID format: "
               +:+ LifecycleTools.generated_rollback_id now prev_short_sha)).
Proof.
  unfold Validation.validate_deployment_id.
  rewrite generated_rollback_id_not_accepted. reflexivity.
Qed.

(** X20.  A [rollback] that raises [ValidationError] or [RollbackError]
    has asked the engine nothing; and one that raises either of them, or
    [DockerOperationError] or one of its subclasses, has written no
    record: every file other than the index (which [StateManager(...)]
    creates when it is missing) is as it was. *)
Theorem rollback_fails_before_writing (env : Env) (deployment_id repo_url : option string)
    (w : world) (e : exn) (w' : world) :
  LifecycleTools.rollback env deployment_id repo_url w = (Raises e, w') ->
  ((exists msg, e = ValidationError msg) \/ (exists msg, e = RollbackError msg) ->
   calls w' = calls w) /\
  ((exists msg, e = ValidationError msg) \/ (exists msg, e = RollbackError msg)
   \/ is_DockerOperationError e = true ->
   forall path, path <> index_file -> files w' !! path = files w !! path).
Proof.
  intros [(_ & Hc & Hf)|[[He Hf]|[He|[-> Hf]]]]%rollback_raises.
  - split; [intros _; exact Hc|intros _; exact Hf].
  - split; [|intros _; exact Hf].
    intros [[msg ->]|[msg ->]]; discriminate.
  - split.
    + intros [[msg ->]|[msg ->]]; destruct He as [?|[[? ?]|[[? ?]|?]]]; discriminate.
    + intros [[msg ->]|[[msg ->]|Hd]];
        try (destruct He as [?|[[? ?]|[[? ?]|?]]]; discriminate).
      rewrite (store_error_not_docker _ He) in Hd. discriminate.
  - split; [intros [[msg [=]]|[msg [=]]]|intros _; exact Hf].
Qed.

(** Nothing was ever deployed: the index is created and no previous
    deployment is found. *)
Lemma rollback_fails_before_writing_witness :
  ((exists msg, RollbackError ("No previous successful deployment found for "
                               +:+ find_repo) = ValidationError msg)
   \/ (exists msg, RollbackError ("No previous successful deployment found for "
                                  +:+ find_repo) = RollbackError msg) ->
   calls (after (LifecycleTools.rollback calm None (Some find_repo)) fresh)
   = calls fresh) /\
  ((exists msg, RollbackError ("No previous successful deployment found for "
                               +:+ find_repo) = ValidationError msg)
   \/ (exists msg, RollbackError ("No previous successful deployment found for "
                                  +:+ find_repo) = RollbackError msg)
   \/ is_DockerOperationError
        (RollbackError ("No previous successful deployment found for " +:+ find_repo))
      = true ->
   forall path, path <> index_file ->
     files (after (LifecycleTools.rollback calm None (Some find_repo)) fresh) !! path
     = files fresh !! path).
Proof.
  apply (rollback_fails_before_writing calm None (Some find_repo) fresh).
  vm_compute. reflexivity.
Defined.



(** X22.  [stop_deployment] leaves the store as it is: it writes no file,
    so the deployment whose container it stops keeps the status it had.
    When that deployment was what [find_latest_successful] returned, it
    still is after the stop, and a later [rollback] redeploys it. *)
Theorem stopped_deployment_stays_latest (env : Env) (repo_url : string)
    (exclude : option string) (record : Models.DeploymentRecord) (w : world) :
  find_latest_successful repo_url exclude w = (Returns (Some record), w) ->
  let w' := snd (LifecycleTools.stop_deployment env (Models.container_name record) w) in
  files w' = files w /\
  find_latest_successful repo_url exclude w' = (Returns (Some record), w').
Proof.
  intros H w'. pose proof (stop_deployment_files env (Models.container_name record) w) as E.
  fold w' in E. split; [exact E|].
  rewrite find_latest_successful_pair.
  rewrite (find_latest_successful_only_files _ _ _ _ E), H. reflexivity.
Qed.

Lemma stopped_deployment_stays_latest_witness :
  let w' := snd (LifecycleTools.stop_deployment calm
                   (Models.container_name
                      (_make_record "dep-20260218-run002" Models.RUNNING find_repo 8501))
                   three_saved) in
  files w' = files three_saved /\
  find_latest_successful find_repo None w'
  = (Returns (Some (_make_record "dep-20260218-run002" Models.RUNNING find_repo 8501)),
     w').
Proof.
  apply (stopped_deployment_stays_latest calm find_repo None
           (_make_record "dep-20260218-run002" Models.RUNNING find_repo 8501)
           three_saved).
  vm_compute. reflexivity.
Defined.

(** X23.  When [stop_deployment] returns, the name was accepted as it
    stands, one request to stop and remove the container was sent, and the
    dictionary says [stopped] and "stopped and removed successfully",
    whether the engine removed the container or found none of that
    name. *)
Theorem stop_deployment_reports_stopped (env : Env) (container_name : string) (w : world)
    (out : LifecycleTools.stopped) (w' : world) :
  LifecycleTools.stop_deployment env container_name w = (Returns out, w') ->
  Validation.validate_container_name container_name = Returns container_name /\
  LifecycleTools.st_container_name out = container_name /\
  LifecycleTools.st_status out = "stopped" /\
  LifecycleTools.st_message out
  = "Container " +:+ container_name +:+ " stopped and removed successfully" /\
  (engine_stop env container_name = Removed \/ engine_stop env container_name = NotFound) /\
  calls w' = calls w ++ [StopRemove container_name].
Proof.
  unfold LifecycleTools.stop_deployment, lift.
  intros (validated_name & w1 & [= Hv <-] & H)%bind_returns.
  assert (validated_name = container_name) as ->.
  { revert Hv. unfold Validation.validate_container_name.
    destruct (negb _); [discriminate|]. destruct (_ <? _)%nat; [discriminate|].
    intros [= <-]. reflexivity. }
  apply bind_returns in H as ([] & w2 & ->%get_docker_client_returns & H).
  apply bind_returns in H as ([] & w3 & Hstop & [= <- <-]).
  unfold DockerUtils.stop_and_remove_container, DockerUtils.get_stop_remove,
    mbind, M_bind in Hstop.
  simpl. split; [exact Hv|]. do 3 (split; [reflexivity|]).
  destruct (engine_stop env container_name); try discriminate;
    injection Hstop as <-; auto.
Qed.

(** No container of that name exists. *)
Lemma stop_deployment_reports_stopped_witness :
  Validation.validate_container_name "hello-demo" = Returns "hello-demo" /\
  "hello-demo" = "hello-demo" /\
  "stopped" = "stopped" /\
  "Container hello-demo stopped and removed successfully"
  = "Container " +:+ "hello-demo" +:+ " stopped and removed successfully" /\
  (engine_stop calm "hello-demo" = Removed \/ engine_stop calm "hello-demo" = NotFound) /\
  calls (after (LifecycleTools.stop_deployment calm "hello-demo") fresh)
  = calls fresh ++ [StopRemove "hello-demo"].
Proof.
  apply (stop_deployment_reports_stopped calm "hello-demo" fresh
           {| LifecycleTools.st_container_name := "hello-demo";
              LifecycleTools.st_status := "stopped";
              LifecycleTools.st_message
                := "Container hello-demo stopped and removed successfully" |}).
  vm_compute. reflexivity.
Defined.

End LifecycleProperties.


(* ===================================================================== *)
(** * The health check: which outcome, and that there is one
    ([tools/health_tools.py]) *)
(* ===================================================================== *)

Module HealthFacts.
Import HealthTools.

Lemma Qltb_ge a b : Qltb a b = false <-> (b <= a)%Q.
Proof.
  unfold Qltb. rewrite negb_false_iff. apply Qle_bool_iff.
Qed.

Lemma round_half_even_ge (x : Q) (n : Z) :
  (inject_Z n <= x)%Q -> n <= round_half_even x.
Proof.
  intros Hx. unfold round_half_even.
  assert (Hf : n <= Qfloor x).
  { rewrite <- (Qfloor_Z n). apply Qfloor_resp_le, Hx. }
  destruct (Qcompare _ _); [destruct (Z.even _)| |]; lia.
Qed.

Lemma round2_ge (x : Q) (n : Z) : (inject_Z n <= x)%Q -> (inject_Z n <= round2 x)%Q.
Proof.
  intros Hx. unfold round2.
  assert (H : n * 100 <= round_half_even (x * 100)).
  { apply round_half_even_ge. rewrite inject_Z_mult.
    apply Qmult_le_compat_r; [exact Hx|]. discriminate. }
  unfold Qle. simpl. lia.
Qed.

Lemma Qmin_neg ci : Qltb (Qmin_ ci 10) 0 = true -> (ci < 0)%Q.
Proof.
  intros H%Qltb_lt. unfold Qmin_ in H.
  destruct (Qltb 10 ci) eqn:E; [|exact H].
  exfalso. revert H. apply Qle_not_lt. discriminate.
Qed.

(** From any point of the loop on. *)
Lemma poll_outcome (p : peer) (max_timeout : Z) (backoff : Q) (expected_status : Z) :
  forall fuel elapsed attempt current_interval last_error out,
    poll fuel p max_timeout backoff expected_status elapsed attempt current_interval
         last_error = Some out ->
    (forall k, (attempt < k)%nat -> (k < attempts_made out)%nat ->
               answer p k <> Status expected_status) /\
    match out with
    | Returned h =>
        healthy h = true /\ response_code h = expected_status /\
        (attempt < attempts h)%nat /\ answer p (attempts h) = Status expected_status
    | TimedOut n elapsed' _ =>
        (attempt <= n)%nat /\
        ((attempt < n)%nat -> answer p n <> Status expected_status) /\
        (inject_Z max_timeout <= elapsed')%Q
    | Crashed n _ =>
        (attempt < n)%nat /\ answer p n <> Status expected_status /\
        ((current_interval < 0)%Q \/ (backoff < 0)%Q)
    end.
Proof.
  induction fuel as [|fuel IH]; intros elapsed attempt ci le out; simpl;
    [discriminate|].
  destruct (Qltb elapsed (inject_Z max_timeout)) eqn:Hlt.
  - assert (Hretry : forall le',
      answer p (S attempt) <> Status expected_status ->
      (if Qltb (Qmin_ ci 10) 0
       then Some (Crashed (S attempt) "sleep length must be non-negative")
       else poll fuel p max_timeout backoff expected_status
                 (elapsed + took p (S attempt) + Qmin_ ci 10) (S attempt)
                 (ci * backoff) le') = Some out ->
      (forall k, (attempt < k)%nat -> (k < attempts_made out)%nat ->
                 answer p k <> Status expected_status) /\
      match out with
      | Returned h =>
          healthy h = true /\ response_code h = expected_status /\
          (attempt < attempts h)%nat /\ answer p (attempts h) = Status expected_status
      | TimedOut n elapsed' _ =>
          (attempt <= n)%nat /\
          ((attempt < n)%nat -> answer p n <> Status expected_status) /\
          (inject_Z max_timeout <= elapsed')%Q
      | Crashed n _ =>
          (attempt < n)%nat /\ answer p n <> Status expected_status /\
          ((ci < 0)%Q \/ (backoff < 0)%Q)
      end).
    { intros le' Hfail. destruct (Qltb (Qmin_ ci 10) 0) eqn:Hneg.
      - intros [= <-]. simpl. split; [intros k H1 H2; lia|].
        split; [lia|]. split; [exact Hfail|]. left. apply Qmin_neg, Hneg.
      - intros H. apply IH in H as [Hbefore Hout].
        assert (Hk : forall k, (attempt < k)%nat -> (k < attempts_made out)%nat ->
                               answer p k <> Status expected_status).
        { intros k H1 H2. destruct (decide (k = S attempt)) as [->|Hne]; [exact Hfail|].
          apply Hbefore; lia. }
        split; [exact Hk|].
        destruct out as [h|n el le''|n msg].
        + destruct Hout as (H1 & H2 & H3 & H4). repeat split; auto; lia.
        + destruct Hout as (H1 & H2 & H3). split; [lia|]. split; [|exact H3].
          intros _. destruct (decide (n = S attempt)) as [->|Hne]; [exact Hfail|].
          apply H2. lia.
        + destruct Hout as (H1 & H2 & H3). split; [lia|]. split; [exact H2|].
          destruct H3 as [H3|H3]; [|right; exact H3].
          destruct (Qlt_le_dec ci 0) as [Hc|Hc]; [left; exact Hc|].
          destruct (Qlt_le_dec backoff 0) as [Hb|Hb]; [right; exact Hb|].
          exfalso. apply (Qlt_not_le _ _ H3). apply Qmult_le_0_compat; assumption. }
    destruct (answer p (S attempt)) as [code|msg] eqn:Hans.
    + destruct (Z.eqb_spec code expected_status) as [->|Hne].
      * intros [= <-]. simpl. split; [intros k H1 H2; lia|].
        split; [reflexivity|]. split; [reflexivity|]. split; [lia|exact Hans].
      * apply Hretry. congruence.
    + apply Hretry. discriminate.
  - intros [= <-]. simpl. split; [intros k H1 H2; lia|].
    split; [lia|]. split; [lia|]. apply round2_ge, Qltb_ge, Hlt.
Qed.

(** More fuel, same outcome. *)
Lemma poll_fuel_mono (p : peer) (max_timeout : Z) (backoff : Q) (expected_status : Z) :
  forall fuel elapsed attempt current_interval last_error out,
    poll fuel p max_timeout backoff expected_status elapsed attempt current_interval
         last_error = Some out ->
    poll (S fuel) p max_timeout backoff expected_status elapsed attempt current_interval
         last_error = Some out.
Proof.
  induction fuel as [|fuel IH]; intros elapsed attempt ci le out; [discriminate|].
  intros H. simpl in H. change (poll (S (S fuel))) with
    (fun p max_timeout backoff expected_status elapsed attempt current_interval last_error =>
       if Qltb elapsed (inject_Z max_timeout) then
         let attempt := S attempt in
         let elapsed := (elapsed + took p attempt)%Q in
         let sleep_and_retry (last_error : option string) :=
           let pause := Qmin_ current_interval 10%Q in
           if Qltb pause 0%Q then
             Some (Crashed attempt "sleep length must be non-negative")
           else
             poll (S fuel) p max_timeout backoff expected_status
                  (elapsed + pause)%Q attempt (current_interval * backoff)%Q last_error in
         match answer p attempt with
         | Status code =>
             if code =? expected_status then
               Some (Returned {| healthy := true;
                                 response_code := code;
                                 attempts := attempt;
                                 elapsed_seconds := round2 elapsed |})
             else
               sleep_and_retry
                 (Some ("Unexpected status code: " +:+ DockerUtils.str_of_Z code))
         | HttpError msg => sleep_and_retry (Some msg)
         end
       else Some (TimedOut attempt (round2 elapsed) last_error)).
  cbv beta zeta.
  destruct (Qltb elapsed (inject_Z max_timeout)); [|exact H].
  destruct (answer p (S attempt)) as [code|msg].
  - destruct (code =? expected_status); [exact H|].
    destruct (Qltb (Qmin_ ci 10) 0); [exact H|]. apply IH, H.
  - destruct (Qltb (Qmin_ ci 10) 0); [exact H|]. apply IH, H.
Qed.

Lemma poll_fuel_le (p : peer) (max_timeout : Z) (backoff : Q) (expected_status : Z)
    fuel fuel' elapsed attempt current_interval last_error out :
  (fuel <= fuel')%nat ->
  poll fuel p max_timeout backoff expected_status elapsed attempt current_interval
       last_error = Some out ->
  poll fuel' p max_timeout backoff expected_status elapsed attempt current_interval
       last_error = Some out.
Proof.
  induction 1 as [|fuel' _ IH]; [auto|]. intros H. apply poll_fuel_mono, IH, H.
Qed.

Lemma Qmin_mono a b : (a <= b)%Q -> (Qmin_ a 10 <= Qmin_ b 10)%Q.
Proof.
  intros H. unfold Qmin_.
  destruct (Qltb 10 a) eqn:Ea, (Qltb 10 b) eqn:Eb.
  - lra.
  - apply Qltb_lt in Ea. apply Qltb_ge in Eb. lra.
  - apply Qltb_ge in Ea. exact Ea.
  - exact H.
Qed.

Lemma Qmin_pos a : (0 < a)%Q -> (0 < Qmin_ a 10)%Q.
Proof. intros H. unfold Qmin_. destruct (Qltb 10 a); [reflexivity|exact H]. Qed.

Lemma poll_terminates (p : peer) (max_timeout : Z) (interval backoff : Q)
    (expected_status : Z) :
  (0 < interval)%Q -> (1 <= backoff)%Q -> (forall n, (0 <= took p n)%Q) ->
  forall fuel elapsed attempt current_interval last_error,
    (interval <= current_interval)%Q ->
    (inject_Z max_timeout - elapsed < inject_Z (Z.of_nat fuel) * Qmin_ interval 10)%Q ->
    exists out,
      poll (S fuel) p max_timeout backoff expected_status elapsed attempt current_interval
           last_error = Some out.
Proof.
  intros Hi Hb Htook.
  pose proof (Qmin_pos _ Hi) as Hm.
  induction fuel as [|fuel IH]; intros elapsed attempt ci le Hci Hrem.
  - simpl. destruct (Qltb elapsed (inject_Z max_timeout)) eqn:Hlt; [|eauto].
    apply Qltb_lt in Hlt. change (inject_Z (Z.of_nat 0)) with 0%Q in Hrem. lra.
  - remember (S fuel) as f eqn:Ef. simpl. subst f.
    destruct (Qltb elapsed (inject_Z max_timeout)) eqn:Hlt; [|eauto].
    assert (Hpause : (Qmin_ interval 10 <= Qmin_ ci 10)%Q) by (apply Qmin_mono, Hci).
    assert (Hneg : Qltb (Qmin_ ci 10) 0 = false) by (apply Qltb_ge; lra).
    assert (Hnext : forall le',
              exists out,
                poll (S fuel) p max_timeout backoff expected_status
                     (elapsed + took p (S attempt) + Qmin_ ci 10) (S attempt)
                     (ci * backoff) le' = Some out).
    { intros le'. apply IH.
      - assert (0 <= ci * (backoff - 1))%Q by (apply Qmult_le_0_compat; lra). lra.
      - specialize (Htook (S attempt)).
        rewrite Nat2Z.inj_succ in Hrem. unfold Z.succ in Hrem.
        rewrite inject_Z_plus in Hrem. change (inject_Z 1) with 1%Q in Hrem. lra. }
    rewrite Hneg.
    destruct (answer p (S attempt)) as [code|msg]; [|apply Hnext].
    destruct (code =? expected_status); [eauto|apply Hnext].
Qed.

End HealthFacts.

Section HealthcheckOutcomes.
Import HealthTools HealthFacts Fixtures.

(** X24.  What [healthcheck] reports is the first request that was
    answered with the expected status.  When it returns, the dictionary
    says [healthy] with the expected status as [response_code], the
    request counted by [attempts] was answered with it and no earlier one
    was; a dictionary with [healthy] false is never returned.  When it
    raises at the deadline, no request was answered with the expected
    status and the elapsed time it reports is at least the deadline.  When
    it raises because [time.sleep] refuses the pause, at least one request
    was made and the last one was not answered with the expected
    status. *)
Theorem healthcheck_reports_first_success (fuel : nat) (s : Settings) (p : peer)
    (timeout : option Z) (interval backoff : Q) (expected_status : Z) (out : outcome) :
  healthcheck fuel s p timeout interval backoff expected_status = Some out ->
  (forall k, (1 <= k)%nat -> (k < attempts_made out)%nat ->
             answer p k <> Status expected_status) /\
  match out with
  | Returned h =>
      healthy h = true /\ response_code h = expected_status /\
      answer p (attempts h) = Status expected_status
  | TimedOut n elapsed _ =>
      ((1 <= n)%nat -> answer p n <> Status expected_status) /\
      (inject_Z (default (health_check_timeout s) timeout) <= elapsed)%Q
  | Crashed n _ => (1 <= n)%nat /\ answer p n <> Status expected_status
  end.
Proof.
  unfold healthcheck. intros [Hbefore Hout]%poll_outcome. split.
  - intros k Hk. apply Hbefore. lia.
  - destruct out as [h|n el le|n msg].
    + destruct Hout as (H1 & H2 & _ & H4). auto.
    + destruct Hout as (_ & H2 & H3). split; [|exact H3]. intros Hn. apply H2. lia.
    + destruct Hout as (H1 & H2 & _). split; [lia|exact H2].
Qed.

Lemma healthcheck_reports_first_success_witness :
  (forall k, (1 <= k)%nat -> (k < 2)%nat -> answer warming_up k <> Status 200) /\
  (true = true /\ 200 = 200 /\ answer warming_up 2 = Status 200).
Proof.
  apply (healthcheck_reports_first_success 5 default_settings warming_up None
           2%Q (3 # 2)%Q 200
           (Returned {| healthy := true; response_code := 200; attempts := 2;
                        elapsed_seconds := 220 # 100 |})).
  vm_compute. reflexivity.
Defined.

(** X25.  The loop ends.  For a positive [interval], a [backoff] of at
    least one and requests that take no negative time, every pause is at
    least [min(interval, 10)] seconds, so [fuel] iterations suffice once
    [fuel * min(interval, 10)] exceeds the deadline: the call then has an
    outcome, the same for every larger number of iterations, and the
    outcome is a returned dictionary or the [HealthCheckError] of the
    deadline. *)
Theorem healthcheck_terminates (fuel : nat) (s : Settings) (p : peer)
    (timeout : option Z) (interval backoff : Q) (expected_status : Z) :
  (0 < interval)%Q -> (1 <= backoff)%Q -> (forall n, (0 <= took p n)%Q) ->
  (inject_Z (default (health_check_timeout s) timeout)
   < inject_Z (Z.of_nat fuel) * Qmin_ interval 10)%Q ->
  exists out,
    (forall fuel', (fuel < fuel')%nat ->
       healthcheck fuel' s p timeout interval backoff expected_status = Some out) /\
    (forall n msg, out <> Crashed n msg).
Proof.
  intros Hi Hb Htook Hfuel.
  destruct (poll_terminates p (default (health_check_timeout s) timeout) interval backoff
              expected_status Hi Hb Htook fuel 0%Q 0%nat interval None)
    as [out Hout]; [lra|lra|].
  exists out. split.
  - intros fuel' Hlt. unfold healthcheck. eapply poll_fuel_le; [|exact Hout]. lia.
  - intros n msg ->. apply poll_outcome in Hout as [_ (_ & _ & [H|H])]; lra.
Qed.

(** The defaults: a pause of two seconds at least, a deadline of thirty. *)
Lemma healthcheck_terminates_witness :
  exists out,
    (forall fuel', (16 < fuel')%nat ->
       healthcheck fuel' default_settings warming_up None 2%Q (3 # 2)%Q 200 = Some out) /\
    (forall n msg, out <> Crashed n msg).
Proof.
  apply (healthcheck_terminates 16 default_settings warming_up None 2%Q (3 # 2)%Q 200).
  - reflexivity.
  - unfold Qle. simpl. lia.
  - intros n. unfold Qle. simpl. lia.
  - vm_compute. reflexivity.
Defined.

End HealthcheckOutcomes.

(* ===================================================================== *)
(** * Branch names and workspace names
    ([utils/validation.py], [utils/git_utils.py]) *)
(* ===================================================================== *)

Module NameFacts.
Import Str StrFacts Re ReFacts ValidatorFacts BranchValidation WorkspaceManager.

Lemma lang_plus_cls p s : lang (Plus (Cls p)) s <-> s <> "" /\ Str.all p s = true.
Proof.
  unfold Plus. split.
  - intros (s1 & s2 & -> & (a & -> & Ha)%lang_cls_inv & H%lang_star_cls)%lang_seq_inv.
    rewrite append_cons, append_nil. simpl. rewrite Ha, H. split; [discriminate|reflexivity].
  - intros [Hne H]. destruct s as [|a s]; [congruence|]. simpl in H.
    apply andb_true_iff in H as [Ha Hs].
    change (String a s) with (String a "" +:+ s).
    constructor; [constructor; exact Ha|apply lang_star_cls, Hs].
Qed.

Lemma re_match_eol_plus_cls p s :
  re_match_eol (Plus (Cls p)) s = true <->
  exists core, (s = core \/ s = core +:+ String newline "") /\
               core <> "" /\ Str.all p core = true.
Proof.
  unfold re_match_eol. rewrite orb_true_iff. split.
  - intros [H|H].
    + apply fullmatch_lang, lang_plus_cls in H. exists s. auto.
    + destruct (Str.chomp s) as [s'|] eqn:E; [|discriminate].
      apply chomp_app in E. apply fullmatch_lang, lang_plus_cls in H.
      exists s'. auto.
  - intros (core & [->| ->] & Hne & Hall).
    + left. apply fullmatch_lang, lang_plus_cls. auto.
    + right. rewrite chomp_append_newline. apply fullmatch_lang, lang_plus_cls. auto.
Qed.

Lemma rstrip_without c s : Str.contains c s = false -> rstrip c s = s.
Proof.
  induction s as [|a s IH]; [reflexivity|]. simpl.
  intros [Ha Hs]%orb_false_iff. rewrite (IH Hs), Ha. destruct s; reflexivity.
Qed.

Lemma rstrip_app c s t : rstrip c t <> "" -> rstrip c (s +:+ t) = s +:+ rstrip c t.
Proof.
  intros Ht. induction s as [|a s IH]; [rewrite !append_nil; reflexivity|].
  rewrite !append_cons. simpl. rewrite IH.
  destruct (s +:+ rstrip c t) eqn:E; [|reflexivity].
  destruct s; [rewrite append_nil in E; congruence|discriminate].
Qed.

Lemma after_last_without c s : Str.contains c s = false -> after_last c s = s.
Proof.
  destruct s as [|a s]; [reflexivity|]. simpl.
  intros [Ha Hs]%orb_false_iff. rewrite Hs, Ha. reflexivity.
Qed.

Lemma after_last_app c s t :
  Str.contains c t = false -> after_last c (s +:+ String c t) = t.
Proof.
  intros Ht. induction s as [|a s IH].
  - rewrite append_nil. simpl. rewrite Ht, Ascii.eqb_refl. reflexivity.
  - rewrite append_cons. simpl. rewrite contains_app. simpl.
    rewrite Ascii.eqb_refl, orb_true_r. exact IH.
Qed.

Lemma all_hyphenate s :
  Str.all (fun c => Re.lower c || Re.digit c || Ascii.eqb c "-") (hyphenate s) = true.
Proof.
  induction s as [|a s IH]; [reflexivity|]. simpl. rewrite IH, andb_true_r.
  unfold keep_or_hyphen.
  destruct (Re.lower a || Re.digit a || Ascii.eqb a "-") eqn:E; [exact E|reflexivity].
Qed.

End NameFacts.

Section NameProperties.
Import Str StrFacts Re ReFacts ValidatorFacts BranchValidation WorkspaceManager
       NameFacts.

(** X26.  [validate_branch_name] accepts exactly the names made of one or
    more letters, digits, [.], [_], [-] and [/], possibly followed by one
    final newline (which [$] lets through), that do not contain [..]; it
    returns the name as it was given. *)
Theorem validate_branch_name_accepts (branch out : string) :
  validate_branch_name branch = Returns out <->
  out = branch /\
  (exists core, (branch = core \/ branch = core +:+ String newline "") /\
                core <> "" /\ Str.all branch_char core = true) /\
  DockerUtils.has_substring ".." branch = false.
Proof.
  unfold validate_branch_name, branch_pattern. split.
  - destruct (re_match_eol _ branch) eqn:E; [|discriminate]. simpl.
    destruct (DockerUtils.has_substring ".." branch) eqn:Hd; [discriminate|].
    intros [= <-]. split; [reflexivity|]. split; [|reflexivity].
    apply re_match_eol_plus_cls, E.
  - intros (-> & Hcore%re_match_eol_plus_cls & Hd). rewrite Hcore, Hd. reflexivity.
Qed.

(** A name that [git] would read as an option is accepted. *)
Example branch_may_start_with_hyphen :
  validate_branch_name "--force" = Returns "--force".
Proof. reflexivity. Qed.

(** X27.  Whatever the URL, the name [sanitize_repo_name] returns is made
    of lower-case letters, digits and hyphens only: no [/] and no [.], so
    the workspace directory built from it stays below the base
    directory. *)
Theorem sanitize_repo_name_charset (repo_url : string) :
  Str.all (fun c => Re.lower c || Re.digit c || Ascii.eqb c "-")
    (sanitize_repo_name repo_url) = true /\
  Str.contains "/" (sanitize_repo_name repo_url) = false /\
  Str.contains "." (sanitize_repo_name repo_url) = false.
Proof.
  pose proof (all_hyphenate (DockerUtils.lower
                (remove_all ".git" (after_last "/" (rstrip "/" repo_url))))) as H.
  split; [exact H|].
  split; eapply all_not_contains; try exact H; reflexivity.
Qed.

(** X28.  [sanitize_repo_name] reads the last segment of the URL only:
    the host and the owner do not enter the name, so two repositories
    whose URLs end in the same segment get the same workspace name. *)
Theorem sanitize_repo_name_last_segment (prefix segment : string) :
  segment <> "" -> Str.contains "/" segment = false ->
  sanitize_repo_name (prefix +:+ "/" +:+ segment) = sanitize_repo_name segment.
Proof.
  intros Hne Hs. unfold sanitize_repo_name.
  assert (Hr : rstrip "/" segment = segment) by (apply rstrip_without, Hs).
  change (prefix +:+ "/" +:+ segment) with (prefix +:+ String "/" segment).
  rewrite (rstrip_app "/" prefix (String "/" segment)).
  - change (rstrip "/" (String "/" segment))
      with (match rstrip "/" segment with
            | "" => if Ascii.eqb "/" "/" then "" else String "/" ""
            | r => String "/" r
            end).
    rewrite Hr. destruct segment as [|a s]; [congruence|].
    rewrite (after_last_app "/" prefix (String a s) Hs).
    rewrite (after_last_without "/" (String a s) Hs). reflexivity.
  - simpl. rewrite Hr. destruct segment; [congruence|discriminate].
Qed.

Lemma sanitize_repo_name_last_segment_witness :
  sanitize_repo_name ("https://github.com/user" +:+ "/" +:+ "repo.git")
  = sanitize_repo_name "repo.git".
Proof.
  apply (sanitize_repo_name_last_segment "https://github.com/user" "repo.git").
  - discriminate.
  - reflexivity.
Defined.

End NameProperties.


(* ===================================================================== *)
(** * Ties between deployments, and the tags that pass
    ([utils/state_manager.py], [utils/validation.py]) *)
(* ===================================================================== *)

Module OrderFacts.
Import Str StrFacts Re ReFacts Fs StateManager StoreFacts Validation.

(** The head of the sorted list is the first element of greatest key:
    the sort is stable, also when reversed. *)
Section SortFirst.
Context {A : Type} (key : A -> string).

Lemma sort_desc_first l h t :
  sort_desc key l = h :: t ->
  exists l1 l2,
    l = l1 ++ h :: l2 /\
    (forall x, In x l1 -> String.ltb (key x) (key h) = true) /\
    (forall x, In x l2 -> String.leb (key x) (key h) = true).
Proof.
  revert h t. induction l as [|a l IH]; intros h t; simpl; [discriminate|].
  destruct (sort_desc key l) as [|h' t'] eqn:Hs.
  - apply sort_desc_nil in Hs as ->. simpl. intros [= <- _].
    exists [], []. split; [reflexivity|]. split; intros x [].
  - destruct (IH _ _ eq_refl) as (l1 & l2 & -> & H1 & H2). simpl.
    destruct (String.ltb (key a) (key h')) eqn:Hlt; intros [= <- _].
    + exists (a :: l1), l2. split; [reflexivity|]. split; [|exact H2].
      intros x [<-|Hx]; [exact Hlt|auto].
    + exists [], (l1 ++ h' :: l2). split; [reflexivity|]. split; [intros x []|].
      apply StringOrder.ltb_false_leb in Hlt.
      intros x Hx. apply (StringOrder.leb_trans _ (key h')); [|exact Hlt].
      apply in_app_or in Hx as [Hx|[<-|Hx]].
      * apply StringOrder.ltb_leb, H1, Hx.
      * apply StringOrder.leb_refl.
      * apply H2, Hx.
Qed.
End SortFirst.

Lemma version_pattern_excludes version :
  re_match_eol version_pattern version = true ->
  Str.contains ":" version = false /\ Str.contains "/" version = false.
Proof. intros H. split; eapply re_match_eol_excludes; try exact H; reflexivity. Qed.

End OrderFacts.

Section OrderProperties.
Import Str StrFacts Re ReFacts Fs StateManager MonadFacts StoreFacts Invariants
       Validation GitUrlFacts OrderFacts Fixtures.

(** X29.  Which deployment [find_latest_successful] picks when several
    are the latest.  With a readable index and at least one matching entry
    (same [repo_url], status [running], not the excluded identifier), the
    function loads the matching entry that comes first in the index among
    those of greatest [updated_at]: every matching entry before it is
    strictly older, every one after it is no newer. *)
Theorem find_latest_successful_tie_break (repo_url : string) (exclude : option string)
    (w : world) (ds : list Entry.t) (d0 : Entry.t) :
  files w !! index_file = Some (Whole (IndexDoc ds)) ->
  In d0 ds -> Entry.repo_url d0 = repo_url -> Entry.status d0 = "running" ->
  exclude <> Some (Entry.deployment_id d0) ->
  exists earlier latest later,
    List.filter (fun d => String.eqb (Entry.repo_url d) repo_url
                          && String.eqb (Entry.status d) "running"
                          && differs (Entry.deployment_id d) exclude) ds
    = earlier ++ latest :: later /\
    (forall d, In d earlier ->
               String.ltb (Entry.updated_at d) (Entry.updated_at latest) = true) /\
    (forall d, In d later ->
               String.leb (Entry.updated_at d) (Entry.updated_at latest) = true) /\
    find_latest_successful repo_url exclude w = load (Entry.deployment_id latest) w.
Proof.
  intros Hidx Hin Hrepo Hst Hex.
  rewrite (find_latest_successful_unfold _ _ _ _ Hidx).
  destruct (sort_desc _ _) as [|latest t] eqn:Hsort.
  - apply sort_desc_nil in Hsort.
    assert (Hd0 : In d0 (List.filter
                     (fun d => String.eqb (Entry.repo_url d) repo_url
                               && String.eqb (Entry.status d) "running"
                               && differs (Entry.deployment_id d) exclude) ds))
      by (apply candidate_spec; auto).
    rewrite Hsort in Hd0. destruct Hd0.
  - apply sort_desc_first in Hsort as (l1 & l2 & E & H1 & H2).
    exists l1, latest, l2. auto.
Qed.

Lemma find_latest_successful_tie_break_witness :
  exists earlier latest later,
    List.filter (fun d => String.eqb (Entry.repo_url d) find_repo
                          && String.eqb (Entry.status d) "running"
                          && differs (Entry.deployment_id d) None) tied_index
    = earlier ++ latest :: later /\
    (forall d, In d earlier ->
               String.ltb (Entry.updated_at d) (Entry.updated_at latest) = true) /\
    (forall d, In d later ->
               String.leb (Entry.updated_at d) (Entry.updated_at latest) = true) /\
    find_latest_successful find_repo None tied = load (Entry.deployment_id latest) tied.
Proof.
  apply (find_latest_successful_tie_break find_repo None tied tied_index
           {| Entry.deployment_id := "dep-20260218-bbb222";
              Entry.status := "running";
              Entry.repo_url := find_repo;
              Entry.updated_at := "2026-02-18T12:34:02.250000" |}).
  - vm_compute. reflexivity.
  - vm_compute. right. left. reflexivity.
  - reflexivity.
  - reflexivity.
  - discriminate.
Defined.

(** Of two deployments updated at the same instant, the one listed first
    is taken. *)
Example tie_goes_to_the_first_listed :
  find_latest_successful find_repo None tied = load "dep-20260218-aaa111" tied.
Proof. vm_compute. reflexivity. Qed.

(** X30.  What [validate_image_tag] returns, in terms of its argument:
    the argument itself when it contains a colon, the argument followed
    by [:latest] when it does not.  The value has the form
    [name:version] with no colon in the name and neither a colon nor a
    slash in the version, so a reference with a registry port
    ([host:port/name:version]) is never accepted. *)
Theorem validate_image_tag_output (tag out : string) :
  validate_image_tag tag = Returns out ->
  (if Str.contains ":" tag then out = tag else out = tag +:+ ":latest") /\
  exists name version,
    out = name +:+ ":" +:+ version /\
    Str.contains ":" name = false /\
    Str.contains ":" version = false /\ Str.contains "/" version = false.
Proof.
  unfold validate_image_tag.
  destruct (Str.contains ":" tag) eqn:Hc.
  - destruct (Str.split_once ":" tag) as [name version] eqn:Hs.
    destruct (re_match_eol name_pattern name) eqn:Hn; [|discriminate].
    destruct (re_match_eol version_pattern version) eqn:Hv; [|discriminate].
    simpl. intros [= <-].
    destruct (GitUrlFacts.split_once_contains _ _ Hc) as [E _].
    unfold Str.before in E. rewrite Hs in E. simpl in E.
    split; [symmetry; exact E|].
    exists name, version. split; [reflexivity|]. split; [apply name_pattern_no_colon, Hn|].
    apply version_pattern_excludes, Hv.
  - destruct (re_match_eol name_pattern tag) eqn:Hn; [|discriminate]. simpl.
    intros [= <-]. split; [reflexivity|].
    exists tag, "latest". split; [reflexivity|]. split; [exact Hc|]. split; reflexivity.
Qed.

Lemma validate_image_tag_output_witness :
  (if Str.contains ":" "myapp" then "myapp:latest" = "myapp"
   else "myapp:latest" = "myapp" +:+ ":latest") /\
  exists name version,
    "myapp:latest" = name +:+ ":" +:+ version /\
    Str.contains ":" name = false /\
    Str.contains ":" version = false /\ Str.contains "/" version = false.
Proof.
  apply (validate_image_tag_output "myapp" "myapp:latest"). reflexivity.
Defined.

Example registry_port_rejected :
  validate_image_tag "localhost:5000/app:v1"
  = Raises (ValidationError "Invalid image version: 5000/app:v1").
Proof. reflexivity. Qed.

End OrderProperties.
